(** * omegajail supervisor: a shallow embedding of [src/main.cpp]

    The development follows the source file top-down: fixed-width integers,
    signal numbers and wait-status macros, the [timespec] helpers, the stdio
    redirection hook, the SIGSYS observer read, the parent half of
    [MetaInit] (supervise loop, deadline check, terminal sweep, observer
    drain, memory reconciliation and meta emission), and then the hooks
    that run in the jailed process and the child half of [MetaInit].

    System calls are not interpreted: every function that performs one takes
    the kernel's answers as an input and appends what it did to a trace. *)

From Stdlib Require Import ZArith List String Ascii Lia Bool DecimalString.
Import ListNotations.
Open Scope Z_scope.

(** ** Fixed-width integers (LP64) *)

Module Int.

(** [size_t], [uint64_t]: reduction modulo 2^64. *)
Definition wrap_u64 (z : Z) : Z := z mod 2 ^ 64.

(** [long], [ssize_t], [time_t]: two's complement on 64 bits. *)
Definition wrap_s64 (z : Z) : Z := (z + 2 ^ 63) mod 2 ^ 64 - 2 ^ 63.

Definition in_s64 (z : Z) : Prop := - 2 ^ 63 <= z < 2 ^ 63.
Definition in_u64 (z : Z) : Prop := 0 <= z < 2 ^ 64.

Definition long_add (a b : Z) : Z := wrap_s64 (a + b).
Definition long_sub (a b : Z) : Z := wrap_s64 (a - b).
Definition long_mul (a b : Z) : Z := wrap_s64 (a * b).

End Int.

(** ** Signal numbers ([<signal.h>], Linux generic numbering) *)

Module Sig.
Definition SIGHUP := 1.
Definition SIGINT := 2.
Definition SIGQUIT := 3.
Definition SIGILL := 4.
Definition SIGTRAP := 5.
Definition SIGABRT := 6.
Definition SIGBUS := 7.
Definition SIGFPE := 8.
Definition SIGKILL := 9.
Definition SIGUSR1 := 10.
Definition SIGSEGV := 11.
Definition SIGUSR2 := 12.
Definition SIGPIPE := 13.
Definition SIGALRM := 14.
Definition SIGTERM := 15.
Definition SIGSTKFLT := 16.
Definition SIGCHLD := 17.
Definition SIGCONT := 18.
Definition SIGSTOP := 19.
Definition SIGTSTP := 20.
Definition SIGTTIN := 21.
Definition SIGTTOU := 22.
Definition SIGURG := 23.
Definition SIGXCPU := 24.
Definition SIGXFSZ := 25.
Definition SIGVTALRM := 26.
Definition SIGPROF := 27.
Definition SIGWINCH := 28.
Definition SIGIO := 29.
Definition SIGPWR := 30.
Definition SIGSYS := 31.
End Sig.

(** ** Wait-status macros ([<sys/wait.h>], glibc bit layout) *)

Module Wait.

Definition WEXITSTATUS (status : Z) : Z := Z.shiftr (Z.land status 65280) 8.
Definition WTERMSIG (status : Z) : Z := Z.land status 127.
Definition WSTOPSIG (status : Z) : Z := WEXITSTATUS status.
Definition WIFEXITED (status : Z) : bool := WTERMSIG status =? 0.

(** [((signed char) ((status & 0x7f) + 1) >> 1) > 0] *)
Definition WIFSIGNALED (status : Z) : bool :=
  let v := Z.land status 127 + 1 in
  let sc := if v >=? 128 then v - 256 else v in
  Z.shiftr sc 1 >? 0.

Definition WIFSTOPPED (status : Z) : bool := Z.land status 255 =? 127.

(** Status words as the kernel builds them. *)
Definition W_EXITCODE (ret sig : Z) : Z := Z.lor (Z.shiftl ret 8) sig.
Definition W_STOPCODE (sig : Z) : Z := Z.lor (Z.shiftl sig 8) 127.

End Wait.

(** ** [struct timespec] and its arithmetic (main.cpp, lines 265-293) *)

Record timespec : Type := mk_timespec { tv_sec : Z; tv_nsec : Z }.

Definition NSEC_PER_SEC : Z := 1000000000.

(** [void TimespecAdd(struct timespec* dst, const struct timespec* src)];
    the updated [*dst] is the result. *)
Definition TimespecAdd (dst src : timespec) : timespec :=
  let nsec := Int.long_add (tv_nsec dst) (tv_nsec src) in
  let '(nsec', sec') :=
    if nsec >? 1000000000
    then (Int.long_sub nsec 1000000000, Int.long_add (tv_sec dst) 1)
    else (nsec, tv_sec dst) in
  {| tv_sec := Int.long_add sec' (tv_sec src); tv_nsec := nsec' |}.

(** [void TimespecSub(struct timespec* dst, const struct timespec* src)] *)
Definition TimespecSub (dst src : timespec) : timespec :=
  let nsec := Int.long_sub (tv_nsec dst) (tv_nsec src) in
  let '(nsec', sec') :=
    if nsec <? 0
    then (Int.long_add nsec 1000000000, Int.long_sub (tv_sec dst) 1)
    else (nsec, tv_sec dst) in
  {| tv_sec := Int.long_sub sec' (tv_sec src); tv_nsec := nsec' |}.

(** [int TimespecCmp(struct timespec* dst, const struct timespec* src)] *)
Definition TimespecCmp (dst src : timespec) : Z :=
  if tv_sec dst <? tv_sec src then -1
  else if tv_sec dst >? tv_sec src then 1
  else if tv_nsec dst <? tv_nsec src then -1
  else if tv_nsec dst >? tv_nsec src then 1
  else 0.

(** A normalized value has its nanoseconds in [0, 10^9). *)
Definition normalized (ts : timespec) : Prop := 0 <= tv_nsec ts < NSEC_PER_SEC.

(** The instant a [(sec, nsec)] pair denotes, in nanoseconds. *)
Definition to_nsec (ts : timespec) : Z := tv_sec ts * NSEC_PER_SEC + tv_nsec ts.

(** Seconds small enough that no [time_t] operation below wraps. *)
Definition sec_in_range (ts : timespec) : Prop := - 2 ^ 61 <= tv_sec ts < 2 ^ 61.

(** ** System calls of the stdio hook

    A [kernel] answers a call given the calls made so far: a non-negative
    answer is the call's result, a negative answer [-e] makes the call fail
    with [errno = e].  A process is the history of its calls and its
    [errno].  What the hook logs goes to the logging descriptor through
    logging.h and is left out; each log statement sits in the scope of a
    [ScopedErrnoPreserver], so that [errno] is the failing call's when
    [-errno] is returned. *)

Module Sys.

Inductive call : Type :=
| Open (path : string) (writable : bool)
    (* open(path, O_NOFOLLOW | (writable ? O_WRONLY : O_RDONLY)) *)
| Socket                               (* socket(AF_UNIX, SOCK_SEQPACKET, 0) *)
| Connect (fd : Z) (sun_path : string) (* the AF_UNIX address sun_path *)
| Shutdown (fd : Z) (how : Z)
| Dup2 (oldfd newfd : Z)
| Close (fd : Z)
| Write (fd : Z) (buf : string)
| Umount2 (target : string) (flags : Z).

Definition kernel : Type := list call -> call -> Z.

Record proc : Type := mk_proc { history : list call; errno : Z }.

Definition M (A : Type) : Type := proc -> A * proc.

Definition ret {A} (a : A) : M A := fun p => (a, p).

Definition bind {A B} (m : M A) (f : A -> M B) : M B :=
  fun p => let '(a, p') := m p in f a p'.

Definition get_errno : M Z := fun p => (errno p, p).

(** One system call: the C-level return value is the answer, or [-1] with
    [errno] set. *)
Definition syscall (k : kernel) (c : call) : M Z :=
  fun p =>
    let r := k (history p) c in
    if r <? 0
    then (-1, {| history := history p ++ [c]; errno := - r |})
    else (r, {| history := history p ++ [c]; errno := errno p |}).

End Sys.

Declare Scope sys_scope.
Delimit Scope sys_scope with sys.
Notation "x <- m ;; f" := (Sys.bind m (fun x => f))
  (at level 61, m at next level, right associativity) : sys_scope.
Notation "m ;;; f" := (Sys.bind m (fun _ => f))
  (at level 61, right associativity) : sys_scope.

Definition kLoggingFd : Z := 3.
Definition kMetaFd : Z := 4.
Definition kSigsysNotificationFd : Z := 5.

Definition STDIN_FILENO : Z := 0.
Definition STDOUT_FILENO : Z := 1.
Definition STDERR_FILENO : Z := 2.
Definition ENXIO : Z := 6.
Definition SHUT_RD : Z := 0.
Definition SHUT_WR : Z := 1.
Definition MNT_DETACH : Z := 2.

(** The part of [Args] that [RedirectStdio] reads. *)
Record Args : Type := mk_Args {
  disable_sandboxing : bool;
  stdin_redirect : string;
  stdout_redirect : string;
  stderr_redirect : string
}.

Definition empty (s : string) : bool :=
  match s with EmptyString => true | _ => false end.

(** [strncpy(addr.sun_path, path.data(), sizeof(addr.sun_path) - 1)] into a
    zeroed [sockaddr_un] (line 163): [sun_path] has 108 bytes, so the socket
    address holds the first 107 bytes of the path. *)
Definition sun_path (path : string) : string := substring 0 107 path.

Definition WARNING_MESSAGE : string :=
  "WARNING: Running with --disable-sandboxing" ++ String (ascii_of_nat 10) "".

Section Stdio.

Variable k : Sys.kernel.
Open Scope sys_scope.

(** Modelled from the spec: [ScopedFD] is declared in util.h, which is not
    among the sources.  It is the scoped owner of a descriptor that the
    spec's design notes describe for handles: it holds a descriptor or none
    (a failed call's -1), tests true when it holds one, and closes it when
    it goes out of scope unless [release()] disarmed it. *)
Definition valid_fd (fd : Z) : bool := 0 <=? fd.

Definition ScopedFD_destroy (fd : Z) : Sys.M unit :=
  if valid_fd fd then (Sys.syscall k (Sys.Close fd) ;;; Sys.ret tt)
  else Sys.ret tt.

(** [ScopedFD OpenFile(std::string_view path, bool writable)]; the result
    is the descriptor held by the returned [ScopedFD], [-1] when empty. *)
Definition OpenFile (path : string) (writable : bool) : Sys.M Z :=
  fd <- Sys.syscall k (Sys.Open path writable) ;;
  e <- Sys.get_errno ;;
  if valid_fd fd || negb (e =? ENXIO) then Sys.ret fd
  else
    (* a muxed stdio socket *)
    fd <- Sys.syscall k Sys.Socket ;;
    if negb (valid_fd fd) then Sys.ret fd
    else
      r <- Sys.syscall k (Sys.Connect fd (sun_path path)) ;;
      if r =? -1 then (ScopedFD_destroy fd ;;; Sys.ret (-1))
      else
        r <- Sys.syscall k (Sys.Shutdown fd (if writable then SHUT_RD else SHUT_WR)) ;;
        if r =? -1 then (ScopedFD_destroy fd ;;; Sys.ret (-1))
        else Sys.ret fd.

(** [int OpenStdio(std::string_view path, int expected_fd, bool writable)] *)
Definition OpenStdio (path : string) (expected_fd : Z) (writable : bool)
  : Sys.M Z :=
  fd <- OpenFile path writable ;;
  if negb (valid_fd fd) then
    (e <- Sys.get_errno ;; Sys.ret (- e))
  else if fd =? expected_fd then
    (* fd.release() *)
    Sys.ret 0
  else
    r <- Sys.syscall k (Sys.Dup2 fd expected_fd) ;;
    if r =? -1 then
      (e <- Sys.get_errno ;; ScopedFD_destroy fd ;;; Sys.ret (- e))
    else
      (ScopedFD_destroy fd ;;; Sys.ret 0).

(** [int RedirectStdio(void* payload)] *)
Definition RedirectStdio (args : Args) : Sys.M Z :=
  if disable_sandboxing args then
    r <- (if negb (empty (stdin_redirect args))
          then OpenStdio (stdin_redirect args) STDIN_FILENO false
          else Sys.ret 0) ;;
    if negb (r =? 0) then Sys.ret r else
    r <- (if negb (empty (stdout_redirect args))
          then OpenStdio (stdout_redirect args) STDOUT_FILENO true
          else Sys.ret 0) ;;
    if negb (r =? 0) then Sys.ret r else
    if negb (empty (stderr_redirect args)) then
      r <- OpenStdio (stderr_redirect args) STDERR_FILENO true ;;
      if negb (r =? 0) then Sys.ret r else
      (* This logging is performed in a best-effort basis. *)
      Sys.syscall k (Sys.Write STDERR_FILENO WARNING_MESSAGE) ;;;
      Sys.ret 0
    else Sys.ret 0
  else
    r <- (if negb (empty (stdin_redirect args))
          then OpenStdio "/mnt/stdio/stdin" STDIN_FILENO false
          else Sys.ret 0) ;;
    if negb (r =? 0) then Sys.ret r else
    r <- (if negb (empty (stdout_redirect args))
          then OpenStdio "/mnt/stdio/stdout" STDOUT_FILENO true
          else Sys.ret 0) ;;
    if negb (r =? 0) then Sys.ret r else
    r <- (if negb (empty (stderr_redirect args))
          then OpenStdio "/mnt/stdio/stderr" STDERR_FILENO true
          else Sys.ret 0) ;;
    if negb (r =? 0) then Sys.ret r else
    (* unmount the parent so that the original paths are not disclosed *)
    r <- Sys.syscall k (Sys.Umount2 "/mnt/stdio" MNT_DETACH) ;;
    if negb (r =? 0) then (e <- Sys.get_errno ;; Sys.ret (- e))
    else Sys.ret 0.

(** The stdin and stdout redirections of the unsandboxed branch (lines
    199-208), which the stderr one follows: the value returned is the first
    failure, or 0. *)
Definition unsandboxed_stdin_stdout (args : Args) : Sys.M Z :=
  r <- (if negb (empty (stdin_redirect args))
        then OpenStdio (stdin_redirect args) STDIN_FILENO false
        else Sys.ret 0) ;;
  if negb (r =? 0) then Sys.ret r else
  (if negb (empty (stdout_redirect args))
   then OpenStdio (stdout_redirect args) STDOUT_FILENO true
   else Sys.ret 0).

(** [int CloseLoggingFd(void* payload)] (lines 92-101). *)
Definition CloseLoggingFd : Sys.M Z :=
  r <- Sys.syscall k (Sys.Close kLoggingFd) ;;
  if negb (r =? 0) then (e <- Sys.get_errno ;; Sys.ret (- e))
  else Sys.ret 0.

End Stdio.

(** Modelled from the spec: the jail primitive that runs the hooks is not
    among the sources.  Its contract (sections 3 and 5 of the
    specification): a hook is bound to one of two phases, [PRE_DROP_CAPS]
    and then [PRE_EXECVE]; "hook ordering within a phase is insertion
    order"; a hook that fails "returns a negative errno" and "the jail
    library aborts the launch"; "the target does not begin executing code
    it controls until all PRE_DROP_CAPS hooks, capability drop, and
    PRE_EXECVE hooks have returned success". *)
Fixpoint run_hooks (hooks : list (Sys.M Z)) : Sys.M Z :=
  match hooks with
  | [] => Sys.ret 0
  | hook :: rest =>
      Sys.bind hook
        (fun r => if negb (r =? 0) then Sys.ret r else run_hooks rest)
  end.

(** The state in which the target starts to run, [None] when the launch is
    given up. *)
Definition launch (pre_drop_caps pre_execve : list (Sys.M Z))
  (p : Sys.proc) : option Sys.proc :=
  let '(r, q) := run_hooks pre_drop_caps p in
  if negb (r =? 0) then None
  else
    let '(r', q') := run_hooks pre_execve q in
    if negb (r' =? 0) then None else Some q'.

(** The calls of a history that write to a descriptor. *)
Definition is_write (c : Sys.call) : bool :=
  match c with Sys.Write _ _ => true | _ => false end.

Definition writes (h : list Sys.call) : list Sys.call := filter is_write h.

(** A computation is [silent] when it makes no [write] call. *)
Definition silent {A} (m : Sys.M A) : Prop :=
  forall p, writes (Sys.history (snd (m p))) = writes (Sys.history p).

(** ** Text output *)

Definition nl : string := String (ascii_of_nat 10) "".

(** [%d] and [%ld]: the decimal numeral of a signed integer. *)
Definition dec (z : Z) : string := NilEmpty.string_of_int (Z.to_int z).

(** [const std::map<int, std::string_view> kSignalMap] *)
Definition kSignalMap : list (Z * string) :=
  [ (Sig.SIGHUP, "SIGHUP"); (Sig.SIGINT, "SIGINT"); (Sig.SIGQUIT, "SIGQUIT");
    (Sig.SIGILL, "SIGILL"); (Sig.SIGTRAP, "SIGTRAP"); (Sig.SIGABRT, "SIGABRT");
    (Sig.SIGBUS, "SIGBUS"); (Sig.SIGFPE, "SIGFPE"); (Sig.SIGKILL, "SIGKILL");
    (Sig.SIGUSR1, "SIGUSR1"); (Sig.SIGSEGV, "SIGSEGV");
    (Sig.SIGUSR2, "SIGUSR2"); (Sig.SIGPIPE, "SIGPIPE");
    (Sig.SIGALRM, "SIGALRM"); (Sig.SIGTERM, "SIGTERM");
    (Sig.SIGSTKFLT, "SIGSTKFLT"); (Sig.SIGCHLD, "SIGCHLD");
    (Sig.SIGCONT, "SIGCONT"); (Sig.SIGSTOP, "SIGSTOP");
    (Sig.SIGTSTP, "SIGTSTP"); (Sig.SIGTTIN, "SIGTTIN");
    (Sig.SIGTTOU, "SIGTTOU"); (Sig.SIGURG, "SIGURG");
    (Sig.SIGXCPU, "SIGXCPU"); (Sig.SIGXFSZ, "SIGXFSZ");
    (Sig.SIGVTALRM, "SIGVTALRM"); (Sig.SIGPROF, "SIGPROF");
    (Sig.SIGWINCH, "SIGWINCH"); (Sig.SIGIO, "SIGIO"); (Sig.SIGPWR, "SIGPWR");
    (Sig.SIGSYS, "SIGSYS") ]%string.

(** [std::map::find]: [None] stands for [end()]. *)
Fixpoint map_find (m : list (Z * string)) (key : Z) : option string :=
  match m with
  | [] => None
  | (k, v) :: m' => if k =? key then Some v else map_find m' key
  end.

(** Text made of LF-terminated lines, and back. *)
Fixpoint unlines (ls : list string) : string :=
  match ls with
  | [] => ""
  | l :: ls' => (l ++ nl ++ unlines ls')%string
  end.

Definition is_lf (c : ascii) : bool := Ascii.eqb c (ascii_of_nat 10).

(** [lines_from acc s]: the lines of [s], [acc] being the reversed prefix of
    the line being read.  Characters after the last LF are dropped. *)
Fixpoint lines_from (acc : list ascii) (s : string) : list string :=
  match s with
  | EmptyString => []
  | String c s' =>
      if is_lf c
      then string_of_list_ascii (rev acc) :: lines_from [] s'
      else lines_from (c :: acc) s'
  end.

Definition lines (s : string) : list string := lines_from [] s.

Fixpoint no_lf (s : string) : bool :=
  match s with
  | EmptyString => true
  | String c s' => negb (is_lf c) && no_lf s'
  end.

Definition starts_with (p s : string) : bool := String.prefix p s.

(** ** The SIGSYS observer read (main.cpp, lines 295-342) *)

(** What the calls of [ReceiveExitSyscall] return.

    Modelled from the spec: [HANDLE_EINTR] and [AddToEpoll] come from
    util.h, which is not among the sources.  "All waits are
    [HANDLE_EINTR]-retried": the macro repeats a call while it fails with
    [EINTR], and the answer recorded here is the one it ends with;
    [AddToEpoll] registers the socket for reading and tells whether it
    could. *)
Record observer : Type := mk_observer {
  epoll_create1_res : Z;        (* epoll_create1(EPOLL_CLOEXEC) *)
  AddToEpoll_res : bool;        (* AddToEpoll(epoll_fd, sigsys_socket_fd) *)
  epoll_wait_res : Z;           (* nfds, after a wait of up to 1000 ms *)
  epoll_event0_fd : Z;          (* events[0].data.fd *)
  recv_res : Z;                 (* read_len *)
  recv_value : Z                (* exitsyscall once recv has filled it *)
}.

(** [std::optional<int> ReceiveExitSyscall(ScopedFD sigsys_socket_fd)] *)
Definition ReceiveExitSyscall (sigsys_socket_fd : Z) (o : observer)
  : option Z :=
  if negb (valid_fd (epoll_create1_res o)) then None
  else if negb (AddToEpoll_res o) then None
  else
    let nfds := epoll_wait_res o in
    if nfds =? -1 then None
    else if nfds =? 0 then None
    else if negb (epoll_event0_fd o =? sigsys_socket_fd) then None
    else
      let read_len := recv_res o in
      if read_len <? 0 then None
      else if read_len =? 0 then None      (* Nothing to read. *)
      else if negb (Int.wrap_u64 read_len =? 4) then None   (* Short read *)
      else Some (recv_value o).

(** ** The parent half of [MetaInit] (main.cpp, lines 515-680) *)

Module Tv.
Record timeval : Type := mk_timeval { tv_sec : Z; tv_usec : Z }.
End Tv.
Abbreviation timeval := Tv.timeval.

(** The fields of [struct rusage] that the meta record reads. *)
Record rusage : Type := mk_rusage {
  ru_utime : timeval;
  ru_stime : timeval;
  ru_maxrss : Z
}.

Definition rusage_zero : rusage :=
  {| ru_utime := {| Tv.tv_sec := 0; Tv.tv_usec := 0 |};
     ru_stime := {| Tv.tv_sec := 0; Tv.tv_usec := 0 |};
     ru_maxrss := 0 |}.

(** The fields of [InitPayload] that the parent reads. *)
Record InitPayload : Type := mk_InitPayload {
  payload_disable_sandboxing : bool;
  cgroup_path : string;
  memory_limit_in_bytes : Z;       (* ssize_t *)
  vm_memory_size_in_bytes : Z;     (* size_t *)
  timeout : timespec
}.

(** The three [std::unique_ptr<ScopedCgroup>]: the path of the cgroup owned
    by each, [None] for a null pointer. *)
Record cgroups : Type := mk_cgroups {
  memory_cgroup : option string;
  unified_cgroup : option string;
  pid_cgroup : option string
}.

(** What the calls made before the fork return (lines 347-411).

    Modelled from the spec: [ScopedCgroup], [IsCgroupV2] and [WriteFile]
    come from util.h, which is not among the sources.  A cgroup handle is "a
    scoped owner of a created cgroup directory", created by [mkdir] under
    the given parent: [ScopedCgroup_new parent] is the path of the directory
    it owns, [None] when the creation failed and the handle tests false.
    [setup_errno] is the [errno] a failing call leaves. *)
Record cgroup_setup : Type := mk_cgroup_setup {
  IsCgroupV2 : bool;
  ScopedCgroup_new : string -> option string;
  prctl_subreaper_res : Z;
  WriteFile_limit_res : bool;
  chmod_limit_res : Z;
  setup_errno : Z
}.

Definition no_cgroups : cgroups :=
  {| memory_cgroup := None; unified_cgroup := None; pid_cgroup := None |}.

(** Lines 347-411: the cgroups [MetaInit] owns when it reaches the fork,
    or the negated [errno] it returns early. *)
Definition create_cgroups (payload : InitPayload) (c : cgroup_setup)
  : Z + cgroups :=
  let fail : Z + cgroups := inl (- setup_errno c) in
  let first : Z + cgroups :=
    if negb (empty (cgroup_path payload)) then
      match ScopedCgroup_new c (cgroup_path payload) with
      | None => fail
      | Some path =>
          if IsCgroupV2 c
          then inr {| memory_cgroup := None; unified_cgroup := Some path;
                      pid_cgroup := None |}
          else inr {| memory_cgroup := None; unified_cgroup := None;
                      pid_cgroup := Some path |}
      end
    else inr no_cgroups in
  match first with
  | inl e => inl e
  | inr cg =>
      if payload_disable_sandboxing payload then
        if prctl_subreaper_res c =? -1 then fail else inr cg
      else if memory_limit_in_bytes payload >=? 0 then
        let created : Z + cgroups :=
          match unified_cgroup cg with
          | Some _ => inr cg
          | None =>
              match ScopedCgroup_new c "/sys/fs/cgroup/memory/omegajail" with
              | None => fail
              | Some path =>
                  inr {| memory_cgroup := Some path;
                         unified_cgroup := unified_cgroup cg;
                         pid_cgroup := pid_cgroup cg |}
              end
          end in
        match created with
        | inl e => inl e
        | inr cg' =>
            if negb (WriteFile_limit_res c) then fail
            else if negb (chmod_limit_res c =? 0) then fail
            else inr cg'
        end
      else inr cg
  end.

(** One answer of [sigtimedwait]: its return value and, on success, what
    it leaves in the [si_syscall] slot of [info]. *)
Record sigtimedwait_result : Type := mk_sigtimedwait {
  sw_ret : Z;
  sw_si_syscall : Z
}.

(** One answer of [wait3].  For a ptrace stop, [w_getsiginfo] is what
    [PTRACE_GETSIGINFO] on the stopped task gives as [si_syscall], [None]
    when that request fails. *)
Record wait3_result : Type := mk_wait3 {
  w_pid : Z;
  w_status : Z;
  w_usage : rusage;
  w_getsiginfo : option Z
}.

(** Everything the kernel and the observer tell the parent.

    Modelled from the spec: [SendFD] and [ReadUint64] come from util.h,
    which is not among the sources.  [SendFD] passes the pidfd over the
    socket "as an ancillary message" and tells whether it could;
    [ReadUint64] is the [read_failcnt] of the cgroup manager: it reads an
    unsigned 64-bit number from a file, [None] standing for a failed
    read. *)
Record environment : Type := mk_environment {
  clock : nat -> timespec;          (* successive CLOCK_REALTIME readings *)
  pidfd_open_res : Z;
  SendFD_res : bool;
  sigtimedwaits : list sigtimedwait_result;
  wait3s : list wait3_result;
  obs : observer;
  failcnt_read : option Z           (* ReadUint64 on memory.failcnt *)
}.

(** Calls the parent makes for their effect. *)
Inductive action : Type :=
| SigTimedWait (timeout : timespec)
| PtraceSetOptions (pid : Z)
| PtraceGetSiginfo (pid : Z)
| PtraceCont (pid sig : Z)
| Kill (pid sig : Z).

(** The parent's local variables, the number of clock readings taken and
    the calls made so far. *)
Record locals : Type := mk_locals {
  init_exited : bool;
  init_exitstatus : Z;
  init_exitsyscall : Z;
  init_exitsignal : Z;
  init_usage : rusage;
  info_si_syscall : Z;
  attached : bool;
  t : timespec;
  sigsys_socket_fd : Z;
  clock_reads : nat;
  trace : list action
}.

(** Assignments to the locals. *)
Definition set_init_exit (status : Z) (usage : rusage) (s : locals) : locals :=
  {| init_exited := true; init_exitstatus := status;
     init_exitsyscall := init_exitsyscall s;
     init_exitsignal := init_exitsignal s; init_usage := usage;
     info_si_syscall := info_si_syscall s; attached := attached s; t := t s;
     sigsys_socket_fd := sigsys_socket_fd s; clock_reads := clock_reads s;
     trace := trace s |}.

Definition set_init_exitsyscall (nr : Z) (s : locals) : locals :=
  {| init_exited := init_exited s; init_exitstatus := init_exitstatus s;
     init_exitsyscall := nr;
     init_exitsignal := init_exitsignal s; init_usage := init_usage s;
     info_si_syscall := info_si_syscall s; attached := attached s; t := t s;
     sigsys_socket_fd := sigsys_socket_fd s; clock_reads := clock_reads s;
     trace := trace s |}.

Definition set_init_exitsignal (sig : Z) (s : locals) : locals :=
  {| init_exited := init_exited s; init_exitstatus := init_exitstatus s;
     init_exitsyscall := init_exitsyscall s;
     init_exitsignal := sig; init_usage := init_usage s;
     info_si_syscall := info_si_syscall s; attached := attached s; t := t s;
     sigsys_socket_fd := sigsys_socket_fd s; clock_reads := clock_reads s;
     trace := trace s |}.

Definition set_ru_maxrss (v : Z) (s : locals) : locals :=
  {| init_exited := init_exited s; init_exitstatus := init_exitstatus s;
     init_exitsyscall := init_exitsyscall s;
     init_exitsignal := init_exitsignal s;
     init_usage := {| ru_utime := ru_utime (init_usage s);
                      ru_stime := ru_stime (init_usage s);
                      ru_maxrss := v |};
     info_si_syscall := info_si_syscall s; attached := attached s; t := t s;
     sigsys_socket_fd := sigsys_socket_fd s; clock_reads := clock_reads s;
     trace := trace s |}.

Definition set_info (v : Z) (s : locals) : locals :=
  {| init_exited := init_exited s; init_exitstatus := init_exitstatus s;
     init_exitsyscall := init_exitsyscall s;
     init_exitsignal := init_exitsignal s; init_usage := init_usage s;
     info_si_syscall := v; attached := attached s; t := t s;
     sigsys_socket_fd := sigsys_socket_fd s; clock_reads := clock_reads s;
     trace := trace s |}.

Definition set_attached (s : locals) : locals :=
  {| init_exited := init_exited s; init_exitstatus := init_exitstatus s;
     init_exitsyscall := init_exitsyscall s;
     init_exitsignal := init_exitsignal s; init_usage := init_usage s;
     info_si_syscall := info_si_syscall s; attached := true; t := t s;
     sigsys_socket_fd := sigsys_socket_fd s; clock_reads := clock_reads s;
     trace := trace s |}.

Definition set_sigsys_socket_fd (fd : Z) (s : locals) : locals :=
  {| init_exited := init_exited s; init_exitstatus := init_exitstatus s;
     init_exitsyscall := init_exitsyscall s;
     init_exitsignal := init_exitsignal s; init_usage := init_usage s;
     info_si_syscall := info_si_syscall s; attached := attached s; t := t s;
     sigsys_socket_fd := fd; clock_reads := clock_reads s;
     trace := trace s |}.

(** A call made for its effect; its result is not looked at (a failure is
    only logged). *)
Definition emit (a : action) (s : locals) : locals :=
  {| init_exited := init_exited s; init_exitstatus := init_exitstatus s;
     init_exitsyscall := init_exitsyscall s;
     init_exitsignal := init_exitsignal s; init_usage := init_usage s;
     info_si_syscall := info_si_syscall s; attached := attached s; t := t s;
     sigsys_socket_fd := sigsys_socket_fd s; clock_reads := clock_reads s;
     trace := trace s ++ [a] |}.

(** [clock_gettime(CLOCK_REALTIME, &t)] *)
Definition read_clock (clk : nat -> timespec) (s : locals) : locals :=
  {| init_exited := init_exited s; init_exitstatus := init_exitstatus s;
     init_exitsyscall := init_exitsyscall s;
     init_exitsignal := init_exitsignal s; init_usage := init_usage s;
     info_si_syscall := info_si_syscall s; attached := attached s;
     t := clk (clock_reads s);
     sigsys_socket_fd := sigsys_socket_fd s;
     clock_reads := S (clock_reads s);
     trace := trace s |}.

(** The body of [if (WIFSTOPPED(status))] in the supervise loop (lines
    553-594): options are set on the first stop, then the stop is
    dispatched on its signal. *)
Definition handle_stop (pid status : Z) (getsiginfo : option Z) (s : locals)
  : locals :=
  let s := if negb (attached s)
           then set_attached (emit (PtraceSetOptions pid) s)
           else s in
  let stop_signal := Wait.WSTOPSIG status in
  if stop_signal =? Sig.SIGSYS then
    (* For the SIGSYS case we want to get the syscall that caused it. *)
    let s := emit (PtraceGetSiginfo pid) s in
    let s := match getsiginfo with
             | Some nr => set_info nr s
             | None => s
             end in
    let s := set_init_exitsyscall (info_si_syscall s) s in
    emit (Kill pid Sig.SIGKILL) s
  else if (stop_signal =? Sig.SIGXCPU) || (stop_signal =? Sig.SIGXFSZ) then
    (* Signals that are delivered due to exceeding a resource limit will
       terminate the process. *)
    let s := set_init_exitsignal stop_signal s in
    emit (Kill pid Sig.SIGKILL) s
  else if (stop_signal =? Sig.SIGSTOP) || (stop_signal =? Sig.SIGTRAP) then
    (* stop delivery of the signal *)
    emit (PtraceCont pid 0) s
  else
    (* Any other signal will be delivered normally. *)
    emit (PtraceCont pid stop_signal) s.

(** The state in which a stop is dispatched: tracing options are set on the
    first stop only. *)
Definition after_attach (pid : Z) (s : locals) : locals :=
  if attached s then s else set_attached (emit (PtraceSetOptions pid) s).

(** [while ((pid = wait3(&status, __WALL | WNOHANG, &usage)) > 0)]: the
    answers are taken from the head of [ws]; with none left the call fails
    (no child).  Returns the answers not yet consumed. *)
Fixpoint drain_wait3 (child_pid : Z) (ws : list wait3_result) (s : locals)
  : list wait3_result * locals :=
  match ws with
  | [] => ([], s)
  | w :: ws' =>
      if w_pid w >? 0 then
        if Wait.WIFSTOPPED (w_status w) then
          drain_wait3 child_pid ws'
            (handle_stop (w_pid w) (w_status w) (w_getsiginfo w) s)
        else if w_pid w =? child_pid then
          drain_wait3 child_pid ws' (set_init_exit (w_status w) (w_usage w) s)
        else
          drain_wait3 child_pid ws' s
      else (ws', s)
  end.

(** The [do ... while (!init_exited && TimespecCmp(&t, &deadline) < 0)]
    loop (lines 544-603).  Each iteration takes one answer of
    [sigtimedwait]; with none left the call times out. *)
Fixpoint supervise (clk : nat -> timespec) (deadline : timespec)
  (child_pid : Z) (sigs : list sigtimedwait_result) (ws : list wait3_result)
  (s : locals) : list wait3_result * locals :=
  let s := emit (SigTimedWait (TimespecSub deadline (t s))) s in
  match sigs with
  | [] => (ws, read_clock clk s)
  | sg :: sigs' =>
      if sw_ret sg =? -1 then (ws, read_clock clk s)
      else
        let s := set_info (sw_si_syscall sg) s in
        let '(ws', s) := drain_wait3 child_pid ws s in
        let s := read_clock clk s in
        if negb (init_exited s) && (TimespecCmp (t s) deadline <? 0)
        then supervise clk deadline child_pid sigs' ws' s
        else (ws', s)
  end.

(** [if (TimespecCmp(&t, &deadline) >= 0) init_exitsignal = SIGXCPU;] *)
Definition deadline_check (deadline : timespec) (s : locals) : locals :=
  if TimespecCmp (t s) deadline >=? 0
  then set_init_exitsignal Sig.SIGXCPU s
  else s.

(** [while ((pid = wait3(&status, 0, &usage)) > 0)] after the final kill
    (lines 609-615). *)
Fixpoint sweep (child_pid : Z) (ws : list wait3_result) (s : locals)
  : list wait3_result * locals :=
  match ws with
  | [] => ([], s)
  | w :: ws' =>
      if w_pid w >? 0 then
        if init_exited s || negb (w_pid w =? child_pid)
        then sweep child_pid ws' s
        else sweep child_pid ws' (set_init_exit (w_status w) (w_usage w) s)
      else (ws', s)
  end.

(** Lines 620-626: the observer is read when the socket is still held, and
    a value it yields is stored in [init_exitsyscall]. *)
Definition observer_drain (o : observer) (s : locals) : locals :=
  if valid_fd (sigsys_socket_fd s) then
    let exitsyscall := ReceiveExitSyscall (sigsys_socket_fd s) o in
    let s' := set_sigsys_socket_fd (-1) s in   (* std::move *)
    match exitsyscall with
    | Some v => set_init_exitsyscall v s'
    | None => s'
    end
  else s.

(** Lines 628-639: with a v1 memory cgroup, a non-zero [memory.failcnt]
    replaces [ru_maxrss]. *)
Definition reconcile_memory (payload : InitPayload) (cg : cgroups)
  (failcnt_read : option Z) (s : locals) : locals :=
  match memory_cgroup cg with
  | Some _ =>
      match failcnt_read with
      | Some failcnt =>
          if failcnt >? 0
          then set_ru_maxrss (memory_limit_in_bytes payload) s
          else s
      | None => s
      end
  | None => s
  end.

(** Lines 644-649: [size_t max_rss = init_usage.ru_maxrss * 1024;] and the
    guarded subtraction of the VM overhead.  The product is taken in [long]
    and converted to [size_t]. *)
Definition max_rss_bytes (ru_maxrss vm_memory_size : Z) : Z :=
  let max_rss := Int.wrap_u64 (Int.long_mul ru_maxrss 1024) in
  if max_rss >=? vm_memory_size
  then Int.wrap_u64 (max_rss - vm_memory_size)
  else 0.

(** The value the [mem:%ld] conversion prints for a [size_t] argument. *)
Definition mem_value (ru_maxrss vm_memory_size : Z) : Z :=
  Int.wrap_s64 (max_rss_bytes ru_maxrss vm_memory_size).

Section MetaEmission.

(** [extern "C" const char* lookup_syscall_name(int nr)], declared at line
    73 and defined in minijail ("a syscall-number to name lookup" of the
    jail primitive contract); [None] stands for a null pointer. *)
Variable lookup_syscall_name : Z -> option string.

(** [1000000 * tv.tv_sec + tv.tv_usec], in [long]. *)
Definition usec_of_timeval (tv : timeval) : Z :=
  Int.long_add (Int.long_mul 1000000 (Tv.tv_sec tv)) (Tv.tv_usec tv).

(** [(1000000000L * t1.tv_sec + t1.tv_nsec) / 1000L], in [long]; the
    division truncates toward zero. *)
Definition usec_of_timespec (t1 : timespec) : Z :=
  Z.quot (Int.long_add (Int.long_mul 1000000000 (tv_sec t1)) (tv_nsec t1))
         1000.

(** The first [fprintf] (lines 652-655); [max_rss] is a [size_t] printed
    with [%ld]. *)
Definition write_header (usage : rusage) (t1 : timespec) (max_rss : Z)
  : string :=
  ("time:" ++ dec (usec_of_timeval (ru_utime usage)) ++ nl
   ++ "time-sys:" ++ dec (usec_of_timeval (ru_stime usage)) ++ nl
   ++ "time-wall:" ++ dec (usec_of_timespec t1) ++ nl
   ++ "mem:" ++ dec (Int.wrap_s64 max_rss) ++ nl)%string.

(** The verdict (lines 656-677): the text written and the value of [ret]. *)
Definition write_verdict (init_exitsyscall init_exitsignal init_exitstatus : Z)
  : string * Z :=
  if negb (init_exitsyscall =? -1) then
    match lookup_syscall_name init_exitsyscall with
    | Some syscall_name =>
        ("signal:SIGSYS" ++ nl ++ "syscall:" ++ syscall_name ++ nl,
         Sig.SIGSYS)
    | None =>
        ("signal:SIGSYS" ++ nl ++ "syscall:#" ++ dec init_exitsyscall ++ nl,
         Sig.SIGSYS)
    end%string
  else if Wait.WIFSIGNALED init_exitstatus || negb (init_exitsignal =? -1) then
    let init_exitsignal :=
      if init_exitsignal =? -1 then Wait.WTERMSIG init_exitstatus
      else init_exitsignal in
    match map_find kSignalMap init_exitsignal with
    | None => ("signal_number:" ++ dec init_exitsignal ++ nl, init_exitsignal)
    | Some signal_name => ("signal:" ++ signal_name ++ nl, init_exitsignal)
    end%string
  else if Wait.WIFEXITED init_exitstatus then
    ("status:" ++ dec (Wait.WEXITSTATUS init_exitstatus) ++ nl,
     Wait.WEXITSTATUS init_exitstatus)%string
  else (""%string, 0).

(** What a run of the parent leaves behind. *)
Record outcome : Type := mk_outcome {
  meta_file : string;      (* the text written to kMetaFd *)
  exit_code : Z;           (* the argument of _exit *)
  reconciled : locals      (* the locals when the record is written *)
}.

(** Lines 644-680, from the reconciled locals. *)
Definition emit_meta (payload : InitPayload) (t1 : timespec) (s : locals)
  : outcome :=
  let max_rss :=
    max_rss_bytes (ru_maxrss (init_usage s)) (vm_memory_size_in_bytes payload) in
  let '(verdict, ret) :=
    write_verdict (init_exitsyscall s) (init_exitsignal s) (init_exitstatus s) in
  {| meta_file := (write_header (init_usage s) t1 max_rss ++ verdict)%string;
     exit_code := ret;
     reconciled := s |}.

(** The locals as the parent initializes them (lines 518-543).  [t0] is the
    first clock reading, taken before the fork.  [prctl], [shutdown] and
    [minijail_enter] are called here for their effect on the process only
    and leave the locals alone. *)
Definition parent_start (env : environment) : locals :=
  {| init_exited := false; init_exitstatus := 0;
     init_exitsyscall := -1; init_exitsignal := -1;
     init_usage := rusage_zero; info_si_syscall := 0; attached := false;
     t := clock env 0%nat;
     sigsys_socket_fd :=
       if valid_fd (pidfd_open_res env) && negb (SendFD_res env)
       then -1                                  (* sigsys_socket_fd.reset() *)
       else kSigsysNotificationFd;
     clock_reads := 1%nat;
     trace := [] |}.

(** [deadline = t0; TimespecAdd(&deadline, &payload->timeout);] *)
Definition deadline_of (payload : InitPayload) (env : environment)
  : timespec :=
  TimespecAdd (clock env 0%nat) (timeout payload).

(** The locals when the supervise loop is left. *)
Definition after_loop (payload : InitPayload) (child_pid : Z)
  (env : environment) : locals :=
  snd (supervise (clock env) (deadline_of payload env) child_pid
         (sigtimedwaits env) (wait3s env) (parent_start env)).

(** The locals after the supervise loop, the deadline check, the final
    kill and the sweep. *)
Definition supervised (payload : InitPayload) (child_pid : Z)
  (env : environment) : locals :=
  let t0 := clock env 0%nat in
  let deadline := TimespecAdd t0 (timeout payload) in
  let '(ws, s) :=
    supervise (clock env) deadline child_pid (sigtimedwaits env) (wait3s env)
      (parent_start env) in
  let s := deadline_check deadline s in
  let s := emit (Kill (if payload_disable_sandboxing payload
                       then - child_pid else -1) Sig.SIGKILL) s in
  snd (sweep child_pid ws s).

(** [MetaInit] in the parent, from the return of [fork] to [_exit]. *)
Definition MetaInit (payload : InitPayload) (cg : cgroups) (child_pid : Z)
  (env : environment) : outcome :=
  let t0 := clock env 0%nat in
  let s := supervised payload child_pid env in
  let t1 := TimespecSub (clock env (clock_reads s)) t0 in
  let s := observer_drain (obs env) s in
  let s := reconcile_memory payload cg (failcnt_read env) s in
  emit_meta payload t1 s.

End MetaEmission.

(** * Sample inputs

    Concrete answers of the kernel and of the observer, used to run the
    definitions above. *)

(** The observer never writes: [epoll_wait] times out. *)
Definition obs_timeout : observer :=
  {| epoll_create1_res := 6; AddToEpoll_res := true; epoll_wait_res := 0;
     epoll_event0_fd := 0; recv_res := 0; recv_value := 0 |}.

(** The observer closed its end without writing. *)
Definition obs_eof : observer :=
  {| epoll_create1_res := 6; AddToEpoll_res := true; epoll_wait_res := 1;
     epoll_event0_fd := 5; recv_res := 0; recv_value := 0 |}.

(** Two of the four bytes arrive. *)
Definition obs_short_read : observer :=
  {| epoll_create1_res := 6; AddToEpoll_res := true; epoll_wait_res := 1;
     epoll_event0_fd := 5; recv_res := 2; recv_value := 165 |}.

(** The observer reports syscall [nr]. *)
Definition obs_reports (nr : Z) : observer :=
  {| epoll_create1_res := 6; AddToEpoll_res := true; epoll_wait_res := 1;
     epoll_event0_fd := 5; recv_res := 4; recv_value := nr |}.

(** A kernel on which every call succeeds: [open] gives descriptor 7 and
    [socket] descriptor 8. *)
Definition kernel_ok : Sys.kernel :=
  fun _ c =>
    match c with
    | Sys.Open _ _ => 7
    | Sys.Socket => 8
    | Sys.Dup2 _ newfd => newfd
    | Sys.Write _ buf => Z.of_nat (String.length buf)
    | _ => 0
    end.

(** [--disable-sandboxing --stderr /tmp/err] *)
Definition args_stderr_only : Args :=
  {| disable_sandboxing := true; stdin_redirect := ""; stdout_redirect := "";
     stderr_redirect := "/tmp/err" |}.

(** [--disable-sandboxing --stdout /tmp/out] *)
Definition args_stdout_only : Args :=
  {| disable_sandboxing := true; stdin_redirect := "";
     stdout_redirect := "/tmp/out"; stderr_redirect := "" |}.

Definition fresh_proc : Sys.proc := {| Sys.history := []; Sys.errno := 0 |}.

(** A syscall table that knows [mount] (165 on x86-64). *)
Definition lookup_sample : Z -> option string :=
  fun nr => if nr =? 165 then Some "mount"%string else None.

(** Clock readings given as a list; the last one repeats. *)
Definition clock_from (ts : list timespec) : nat -> timespec :=
  fun n => nth n ts (last ts {| tv_sec := 0; tv_nsec := 0 |}).

(** One second of wall time, a 64 MiB memory limit, no VM overhead. *)
Definition payload_sample : InitPayload :=
  {| payload_disable_sandboxing := false; cgroup_path := "";
     memory_limit_in_bytes := 67108864; vm_memory_size_in_bytes := 0;
     timeout := {| tv_sec := 1; tv_nsec := 0 |} |}.

(** 1500 us of user time, 300 us of system time, 2048 KiB of peak RSS. *)
Definition usage_sample : rusage :=
  {| ru_utime := {| Tv.tv_sec := 0; Tv.tv_usec := 1500 |};
     ru_stime := {| Tv.tv_sec := 0; Tv.tv_usec := 300 |};
     ru_maxrss := 2048 |}.

Definition sigchld : sigtimedwait_result :=
  {| sw_ret := Sig.SIGCHLD; sw_si_syscall := 0 |}.

(** [wait3] reports that [pid] terminated with wait status [status]. *)
Definition reaped (pid status : Z) : wait3_result :=
  {| w_pid := pid; w_status := status; w_usage := usage_sample;
     w_getsiginfo := None |}.

(** [wait3] reports a ptrace stop of [pid] on signal [sig]. *)
Definition stopped (pid sig : Z) (getsiginfo : option Z) : wait3_result :=
  {| w_pid := pid; w_status := Wait.W_STOPCODE sig; w_usage := rusage_zero;
     w_getsiginfo := getsiginfo |}.

(** [wait3(WNOHANG)] has nothing to report for now. *)
Definition nothing_yet : wait3_result :=
  {| w_pid := 0; w_status := 0; w_usage := rusage_zero;
     w_getsiginfo := None |}.

(** The target (pid 2) exits with [code] 0.2 s after the start. *)
Definition env_exits (code : Z) : environment :=
  {| clock := clock_from [ {| tv_sec := 100; tv_nsec := 0 |};
                           {| tv_sec := 100; tv_nsec := 200000000 |};
                           {| tv_sec := 100; tv_nsec := 300000000 |} ];
     pidfd_open_res := 7; SendFD_res := true;
     sigtimedwaits := [sigchld];
     wait3s := [reaped 2 (Wait.W_EXITCODE code 0)];
     obs := obs_eof; failcnt_read := None |}.

(** The target never stops nor exits: [sigtimedwait] times out, and the
    final kill is what ends the target. *)
Definition env_busy_loop : environment :=
  {| clock := clock_from [ {| tv_sec := 100; tv_nsec := 0 |};
                           {| tv_sec := 101; tv_nsec := 1000 |};
                           {| tv_sec := 101; tv_nsec := 2000 |} ];
     pidfd_open_res := 7; SendFD_res := true;
     sigtimedwaits := [];
     wait3s := [reaped 2 (Wait.W_EXITCODE 0 Sig.SIGKILL)];
     obs := obs_eof; failcnt_read := None |}.

(** The target (pid 2) is killed by the seccomp filter, the tracer sees
    only its death, and the observer stays silent. *)
Definition env_sigsys_unobserved : environment :=
  {| clock := clock_from [ {| tv_sec := 100; tv_nsec := 0 |};
                           {| tv_sec := 100; tv_nsec := 200000000 |};
                           {| tv_sec := 100; tv_nsec := 300000000 |} ];
     pidfd_open_res := 7; SendFD_res := true;
     sigtimedwaits := [sigchld];
     wait3s := [reaped 2 (Wait.W_EXITCODE 0 Sig.SIGSYS)];
     obs := obs_timeout; failcnt_read := None |}.

(** The target exceeds its file-size limit 0.5 s into a 1 s wall-time
    budget; its death is reaped 1.2 s in. *)
Definition env_xfsz_then_deadline : environment :=
  {| clock := clock_from [ {| tv_sec := 100; tv_nsec := 0 |};
                           {| tv_sec := 100; tv_nsec := 500000000 |};
                           {| tv_sec := 101; tv_nsec := 200000000 |};
                           {| tv_sec := 101; tv_nsec := 300000000 |} ];
     pidfd_open_res := 7; SendFD_res := true;
     sigtimedwaits := [sigchld; sigchld];
     wait3s := [stopped 2 Sig.SIGXFSZ None; nothing_yet;
                reaped 2 (Wait.W_EXITCODE 0 Sig.SIGKILL)];
     obs := obs_timeout; failcnt_read := None |}.

(** The same breach, with the death reaped 0.7 s in. *)
Definition env_xfsz_in_time : environment :=
  {| clock := clock_from [ {| tv_sec := 100; tv_nsec := 0 |};
                           {| tv_sec := 100; tv_nsec := 500000000 |};
                           {| tv_sec := 100; tv_nsec := 700000000 |};
                           {| tv_sec := 100; tv_nsec := 800000000 |} ];
     pidfd_open_res := 7; SendFD_res := true;
     sigtimedwaits := [sigchld; sigchld];
     wait3s := [stopped 2 Sig.SIGXFSZ None; nothing_yet;
                reaped 2 (Wait.W_EXITCODE 0 Sig.SIGKILL)];
     obs := obs_timeout; failcnt_read := None |}.

(** The tracer reads syscall 59 at the SIGSYS stop; the observer then
    reports 165. *)
Definition env_tracer_and_observer : environment :=
  {| clock := clock_from [ {| tv_sec := 100; tv_nsec := 0 |};
                           {| tv_sec := 100; tv_nsec := 200000000 |};
                           {| tv_sec := 100; tv_nsec := 300000000 |} ];
     pidfd_open_res := 7; SendFD_res := true;
     sigtimedwaits := [sigchld];
     wait3s := [stopped 2 Sig.SIGSYS (Some 59);
                reaped 2 (Wait.W_EXITCODE 0 Sig.SIGKILL)];
     obs := obs_reports 165; failcnt_read := None |}.

(** The target exits normally; the v1 memory cgroup counted one failure. *)
Definition env_failcnt : environment :=
  {| clock := clock_from [ {| tv_sec := 100; tv_nsec := 0 |};
                           {| tv_sec := 100; tv_nsec := 200000000 |};
                           {| tv_sec := 100; tv_nsec := 300000000 |} ];
     pidfd_open_res := 7; SendFD_res := true;
     sigtimedwaits := [sigchld];
     wait3s := [reaped 2 (Wait.W_EXITCODE 0 0)];
     obs := obs_timeout; failcnt_read := Some 1 |}.

(** A memory limit of 8 PiB. *)
Definition payload_huge_limit : InitPayload :=
  {| payload_disable_sandboxing := false; cgroup_path := "";
     memory_limit_in_bytes := 2 ^ 53; vm_memory_size_in_bytes := 0;
     timeout := {| tv_sec := 1; tv_nsec := 0 |} |}.

(** A v1 host: only the memory cgroup is held. *)
Definition cgroups_v1_memory : cgroups :=
  {| memory_cgroup := Some "/sys/fs/cgroup/memory/omegajail/run"%string;
     unified_cgroup := None; pid_cgroup := None |}.

(** Half a second. *)
Definition half_second : timespec := {| tv_sec := 0; tv_nsec := 500000000 |}.

(** * Further functions of main.cpp *)

(** ** The wall-time limit in [main] (lines 916-921) *)

(** [.tv_sec = wall_time_limit_msec / 1000] and
    [.tv_nsec = (wall_time_limit_msec % 1000) * 1000000l]; the division and
    the remainder truncate toward zero. *)
Definition wall_timeout (wall_time_limit_msec : Z) : timespec :=
  {| tv_sec := Int.wrap_s64 (Z.quot wall_time_limit_msec 1000);
     tv_nsec := Int.long_mul (Z.rem wall_time_limit_msec 1000) 1000000 |}.

(** A wall-time limit of 1500 ms, and a start at 100.75 s. *)
Definition payload_1500ms : InitPayload :=
  {| payload_disable_sandboxing := false; cgroup_path := "";
     memory_limit_in_bytes := -1; vm_memory_size_in_bytes := 0;
     timeout := wall_timeout 1500 |}.

Definition env_quarter_to : environment :=
  {| clock := clock_from [ {| tv_sec := 100; tv_nsec := 750000000 |};
                           {| tv_sec := 102; tv_nsec := 250000000 |};
                           {| tv_sec := 102; tv_nsec := 250001999 |} ];
     pidfd_open_res := 7; SendFD_res := true;
     sigtimedwaits := [];
     wait3s := [reaped 2 (Wait.W_EXITCODE 0 Sig.SIGKILL)];
     obs := obs_eof; failcnt_read := None |}.

(** ** Vocabulary for the parent's calls *)

Definition is_ptrace (a : action) : bool :=
  match a with
  | PtraceSetOptions _ | PtraceGetSiginfo _ | PtraceCont _ _ => true
  | _ => false
  end.

Definition is_setoptions (a : action) : bool :=
  match a with PtraceSetOptions _ => true | _ => false end.

(** A [kill] of one process, with SIGKILL. *)
Definition kills_one_process (a : action) : Prop :=
  match a with
  | Kill pid sig => 0 < pid /\ sig = Sig.SIGKILL
  | _ => True
  end.


(** The discipline the loop keeps on its ptrace requests: none before the
    options request, and that request once. *)
Definition traced_once (s : locals) : Prop :=
  if attached s
  then exists pid rest,
         filter is_ptrace (trace s) = PtraceSetOptions pid :: rest /\
         filter is_setoptions rest = []
  else filter is_ptrace (trace s) = [].

(** The exit status and resource usage held by the parent are the initial
    zeroes, or come from one answer of [wait3] about the tracked child. *)
Definition from_child (child_pid : Z) (answers : list wait3_result)
  (s : locals) : Prop :=
  (init_exited s = false /\ init_exitstatus s = 0 /\
   init_usage s = rusage_zero) \/
  (init_exited s = true /\
   exists w, In w answers /\ w_pid w = child_pid /\
             init_exitstatus s = w_status w /\ init_usage s = w_usage w).

(** The child exits with code 7; the final kill then ends a grandchild
    (pid 3), which the sweep reaps. *)
Definition env_exit_then_orphan : environment :=
  {| clock := clock_from [ {| tv_sec := 100; tv_nsec := 0 |};
                           {| tv_sec := 100; tv_nsec := 200000000 |};
                           {| tv_sec := 100; tv_nsec := 300000000 |} ];
     pidfd_open_res := 7; SendFD_res := true;
     sigtimedwaits := [sigchld];
     wait3s := [reaped 2 (Wait.W_EXITCODE 7 0); nothing_yet;
                {| w_pid := 3; w_status := Wait.W_EXITCODE 0 Sig.SIGKILL;
                   w_usage := rusage_zero; w_getsiginfo := None |}];
     obs := obs_eof; failcnt_read := None |}.

(** A host with the v1 hierarchy on which every call succeeds. *)
Definition setup_v1_ok : cgroup_setup :=
  {| IsCgroupV2 := false;
     ScopedCgroup_new := fun parent => Some (parent ++ "/run")%string;
     prctl_subreaper_res := 0; WriteFile_limit_res := true;
     chmod_limit_res := 0; setup_errno := 0 |}.

(** The sample payload with a per-script pid cgroup. *)
Definition payload_with_script : InitPayload :=
  {| payload_disable_sandboxing := false;
     cgroup_path := "/sys/fs/cgroup/pids/omegajail/sum";
     memory_limit_in_bytes := 67108864; vm_memory_size_in_bytes := 0;
     timeout := {| tv_sec := 1; tv_nsec := 0 |} |}.

(** The exit of the child with a failed read of [memory.failcnt]. *)
Definition env_failcnt_unreadable : environment :=
  {| clock := clock env_failcnt; pidfd_open_res := 7; SendFD_res := true;
     sigtimedwaits := sigtimedwaits env_failcnt;
     wait3s := wait3s env_failcnt;
     obs := obs_timeout; failcnt_read := None |}.

(** ** Vocabulary for the stdio hook *)

(** [m] keeps the calls made before it and adds only calls that satisfy
    [P]. *)
Definition only (P : Sys.call -> Prop) {A} (m : Sys.M A) : Prop :=
  forall p, exists l,
      Sys.history (snd (m p)) = Sys.history p ++ l /\ Forall P l.

(** The calls that redirecting [path] onto [expected_fd] in mode [writable]
    may make: opening that path in that mode, creating a socket, connecting
    a descriptor to the socket address of that path, shutting down the
    direction not used, duplicating another descriptor onto [expected_fd],
    closing a descriptor; the descriptors worked on are valid ones.  No
    [write], no [umount2]. *)
Definition opens (path : string) (expected_fd : Z) (writable : bool)
  (c : Sys.call) : Prop :=
  match c with
  | Sys.Open p w => p = path /\ w = writable
  | Sys.Socket => True
  | Sys.Connect fd addr => 0 <= fd /\ addr = sun_path path
  | Sys.Shutdown fd how =>
      0 <= fd /\ how = if writable then SHUT_RD else SHUT_WR
  | Sys.Dup2 fd newfd => 0 <= fd /\ fd <> expected_fd /\ newfd = expected_fd
  | Sys.Close fd => 0 <= fd
  | Sys.Write _ _ | Sys.Umount2 _ _ => False
  end.

(** The three redirections of a mode: the paths of [Args] when sandboxing
    is disabled, the bind mounts under [/mnt/stdio] otherwise. *)
Definition redirects (args : Args) (c : Sys.call) : Prop :=
  if disable_sandboxing args
  then opens (stdin_redirect args) 0 false c \/
       opens (stdout_redirect args) 1 true c \/
       opens (stderr_redirect args) 2 true c
  else opens "/mnt/stdio/stdin" 0 false c \/
       opens "/mnt/stdio/stdout" 1 true c \/
       opens "/mnt/stdio/stderr" 2 true c.

(** A kernel on which [open] finds a socket ([ENXIO]) and the rest
    succeeds, and one on which [connect] is then refused
    ([ECONNREFUSED]). *)
Definition kernel_socket : Sys.kernel :=
  fun _ c =>
    match c with
    | Sys.Open _ _ => - ENXIO
    | Sys.Socket => 8
    | Sys.Dup2 _ newfd => newfd
    | _ => 0
    end.

Definition kernel_refused : Sys.kernel :=
  fun _ c =>
    match c with
    | Sys.Open _ _ => - ENXIO
    | Sys.Socket => 8
    | Sys.Connect _ _ => -111
    | Sys.Dup2 _ newfd => newfd
    | _ => 0
    end.

(** [--stdin /in --stdout /out --stderr /err], sandboxed. *)
Definition args_all_sandboxed : Args :=
  {| disable_sandboxing := false; stdin_redirect := "/in";
     stdout_redirect := "/out"; stderr_redirect := "/err" |}.

(** ** The hooks that run inside the jail

    [SetResourceLimits], [RemountRootReadOnly], [Chdir] and the half of
    [MetaInit] that runs in the forked child (lines 439-513) only issue
    calls and test their results; their calls are not those of the stdio
    hook, so they get a scripted kernel of their own. *)

Module Hook.

Inductive rlimit : Type := mk_rlimit { rlim_cur : Z; rlim_max : Z }.

Inductive call : Type :=
| Prlimit (resource : Z) (rlim : rlimit)
    (* prlimit(0, resource, &rlim, nullptr) *)
| Close (fd : Z)
| Mount (target : string) (mountflags : Z)
    (* mount(nullptr, target, nullptr, mountflags, nullptr) *)
| Chdir (dir : string)
| Setsid
| PrctlSetName (comm : string)         (* prctl(PR_SET_NAME, comm) *)
| WriteFile (path contents : string) (append : bool)
| Release (cgroup : string)            (* ScopedCgroup::release() *)
| Chmod (path : string) (mode : Z)
| SigprocmaskSetmask.
    (* sigprocmask(SIG_SETMASK, &orig_mask, nullptr) *)

Definition kernel : Type := list call -> call -> Z.

Record proc : Type := mk_proc { history : list call; errno : Z }.

Definition M (A : Type) : Type := proc -> A * proc.

Definition ret {A} (a : A) : M A := fun p => (a, p).

Definition bind {A B} (m : M A) (f : A -> M B) : M B :=
  fun p => let '(a, p') := m p in f a p'.

Definition get_errno : M Z := fun p => (errno p, p).

(** One call, as [Sys.syscall]: the answer, or [-1] with [errno] set. *)
Definition syscall (k : kernel) (c : call) : M Z :=
  fun p =>
    let r := k (history p) c in
    if r <? 0
    then (-1, {| history := history p ++ [c]; errno := - r |})
    else (r, {| history := history p ++ [c]; errno := errno p |}).

(** A call that is recorded but has no result to test. *)
Definition note (c : call) : M unit :=
  fun p => (tt, {| history := history p ++ [c]; errno := errno p |}).

End Hook.

Declare Scope hook_scope.
Delimit Scope hook_scope with hook.
Notation "x <- m ;; f" := (Hook.bind m (fun x => f))
  (at level 61, m at next level, right associativity) : hook_scope.
Notation "m ;;; f" := (Hook.bind m (fun _ => f))
  (at level 61, right associativity) : hook_scope.

(** [ResourceLimit] of args.h, by the two fields line 77 reads. *)
Record ResourceLimit : Type := mk_ResourceLimit {
  resource : Z;
  rlim : Hook.rlimit
}.

Definition MS_RDONLY : Z := 1.
Definition MS_NOSUID : Z := 2.
Definition MS_NODEV : Z := 4.
Definition MS_REMOUNT : Z := 32.
Definition MS_BIND : Z := 4096.

Section Hooks.

Variable k : Hook.kernel.

(** Modelled from the spec: [PathJoin] comes from util.h, which is not among
    the sources; it is left abstract. *)
Variable PathJoin : string -> string -> string.

Local Open Scope hook_scope.

(** The statement [return -errno;]. *)
Definition return_errno : Hook.M Z :=
  e <- Hook.get_errno ;; Hook.ret (- e).

(** Lines 75-86. *)
Fixpoint SetResourceLimits (rlimits : list ResourceLimit) : Hook.M Z :=
  match rlimits with
  | [] => Hook.ret 0
  | rlimit :: rest =>
      r <- Hook.syscall k (Hook.Prlimit (resource rlimit) (rlim rlimit)) ;;
      if negb (r =? 0) then return_errno
      else SetResourceLimits rest
  end.

(** Lines 120-136. *)
Definition RemountRootReadOnly : Hook.M Z :=
  r <- Hook.syscall k
         (Hook.Mount "/" (Z.lor (Z.lor MS_RDONLY MS_REMOUNT) MS_BIND)) ;;
  if negb (r =? 0) then return_errno
  else
    r' <- Hook.syscall k
            (Hook.Mount "/tmp" (Z.lor (Z.lor MS_NODEV MS_NOSUID) MS_REMOUNT)) ;;
    if negb (r' =? 0) then return_errno else Hook.ret 0.

(** Lines 138-149. *)
Definition Chdir (dir : string) : Hook.M Z :=
  r <- Hook.syscall k (Hook.Chdir dir) ;;
  if negb (r =? 0) then return_errno else Hook.ret 0.

(** Modelled from the spec: [WriteFile] comes from util.h; it answers
    [false], with [errno] set, when the write failed. *)
Definition WriteFile (path contents : string) (append : bool)
  : Hook.M bool :=
  r <- Hook.syscall k (Hook.WriteFile path contents append) ;;
  Hook.ret (0 <=? r).

(** Lines 491-512: what the child does once it has joined its cgroups. *)
Definition child_finish (rlimits : list ResourceLimit) : Hook.M Z :=
  r <- Hook.syscall k Hook.SigprocmaskSetmask ;;
  if r <? 0 then return_errno
  else
    r5 <- Hook.syscall k (Hook.Close kSigsysNotificationFd) ;;
    if r5 <? 0 then return_errno
    else
      r4 <- Hook.syscall k (Hook.Close kMetaFd) ;;
      if r4 <? 0 then return_errno
      else SetResourceLimits rlimits.

(** Lines 468-489: the loop over [{&memory_cgroup, &pid_cgroup}]; a
    [return] in its body leaves the function, [rest] is what follows the
    loop. *)
Fixpoint join_tasks (cgroup_ptrs : list (option string)) (rest : Hook.M Z)
  : Hook.M Z :=
  match cgroup_ptrs with
  | [] => rest
  | None :: more => join_tasks more rest
  | Some cgroup :: more =>
      let tasks_path := PathJoin cgroup "tasks" in
      ok <- WriteFile tasks_path ("2" ++ nl)%string true ;;
      if negb ok then return_errno
      else
        Hook.note (Hook.Release cgroup) ;;;
        r <- Hook.syscall k (Hook.Chmod tasks_path 292) ;;
        if negb (r =? 0) then return_errno
        else join_tasks more rest
  end.

(** Lines 439-513: the branch [child_pid == 0] of [MetaInit].  [comm] and
    [rlimits] are the two fields of the payload that only the child reads;
    292 is 0444. *)
Definition MetaInit_child (payload : InitPayload) (comm : string)
    (rlimits : list ResourceLimit) (cg : cgroups) : Hook.M Z :=
  r <- (if payload_disable_sandboxing payload
        then Hook.syscall k Hook.Setsid else Hook.ret 0) ;;
  if payload_disable_sandboxing payload && (r =? -1) then return_errno
  else
    (if negb (empty comm)
     then Hook.syscall k (Hook.PrctlSetName comm) else Hook.ret 0) ;;;
    match unified_cgroup cg with
    | Some cgroup =>
        let procs_path := PathJoin cgroup "cgroup.procs" in
        ok <- WriteFile procs_path ("+2" ++ nl)%string true ;;
        if negb ok then return_errno
        else
          Hook.note (Hook.Release cgroup) ;;;
          r' <- Hook.syscall k (Hook.Chmod procs_path 292) ;;
          if negb (r' =? 0) then return_errno
          else child_finish rlimits
    | None =>
        join_tasks [memory_cgroup cg; pid_cgroup cg] (child_finish rlimits)
    end.

(** The calls of a cgroup admission: the write that adds task 2, the
    release of the handle, the [chmod] that seals the file. *)
Definition admission (cgroup file contents : string) : list Hook.call :=
  let path := PathJoin cgroup file in
  [ Hook.WriteFile path contents true; Hook.Release cgroup;
    Hook.Chmod path 292 ].

Definition prlimit_call (rlimit : ResourceLimit) : Hook.call :=
  Hook.Prlimit (resource rlimit) (rlim rlimit).

(** The calls of a child half that runs to its end, in order. *)
Definition child_calls (payload : InitPayload) (comm : string)
    (rlimits : list ResourceLimit) (cg : cgroups) : list Hook.call :=
  (if payload_disable_sandboxing payload then [Hook.Setsid] else []) ++
  (if negb (empty comm) then [Hook.PrctlSetName comm] else []) ++
  match unified_cgroup cg with
  | Some cgroup => admission cgroup "cgroup.procs" ("+2" ++ nl)%string
  | None =>
      match memory_cgroup cg with
      | Some cgroup => admission cgroup "tasks" ("2" ++ nl)%string
      | None => []
      end ++
      match pid_cgroup cg with
      | Some cgroup => admission cgroup "tasks" ("2" ++ nl)%string
      | None => []
      end
  end ++
  [ Hook.SigprocmaskSetmask; Hook.Close kSigsysNotificationFd;
    Hook.Close kMetaFd ] ++
  map prlimit_call rlimits.

(** The calls whose result the source tests: all but [PR_SET_NAME], whose
    result is dropped, and [release()], which has none. *)
Definition checked (c : Hook.call) : bool :=
  match c with
  | Hook.PrctlSetName _ | Hook.Release _ => false
  | _ => true
  end.

(** Every tested call of [calls], issued one after the other from the
    history [h], is answered with success. *)
Fixpoint all_succeed (h : list Hook.call) (calls : list Hook.call) : Prop :=
  match calls with
  | [] => True
  | c :: calls' =>
      (checked c = true -> 0 <= k h c) /\ all_succeed (h ++ [c]) calls'
  end.

(** [m], started in [p], issues the calls of [calls] in order and stops at
    the first tested call that fails.  Either every tested call succeeded,
    all of [calls] were issued and [m] returns 0; or the calls before [c]
    succeeded, [c] is a tested call that failed, it is the last call issued
    and [m] returns its negative answer. *)
Definition performs (calls : list Hook.call) (m : Hook.M Z) (p : Hook.proc)
  : Prop :=
  let r := fst (m p) in
  let h := Hook.history (snd (m p)) in
  (r = 0 /\ h = Hook.history p ++ calls /\
   all_succeed (Hook.history p) calls) \/
  (r < 0 /\
   exists before c after,
     calls = before ++ c :: after /\
     h = Hook.history p ++ before ++ [c] /\
     all_succeed (Hook.history p) before /\
     checked c = true /\ k (Hook.history p ++ before) c = r).

(** The calls the source tests with [if (call(...))] make it return on any
    non-zero result; the kernel answers them with 0 or with an error. *)
Definition zero_or_error (c : Hook.call) : Prop := forall h, k h c <= 0.

(** The answers the kernel gives to [calls], issued one after the other
    from the history [h]. *)
Fixpoint answers (h : list Hook.call) (calls : list Hook.call) : list Z :=
  match calls with
  | [] => []
  | c :: calls' => k h c :: answers (h ++ [c]) calls'
  end.

End Hooks.

(** A kernel where every call succeeds, and one where the second [prlimit]
    is refused with [EPERM]. *)
Definition hook_kernel_ok : Hook.kernel := fun _ _ => 0.

Definition hook_kernel_eperm : Hook.kernel :=
  fun h c =>
    match c with
    | Hook.Prlimit 1 _ => -1
    | _ => 0
    end.

Definition fresh_hook_proc : Hook.proc :=
  {| Hook.history := []; Hook.errno := 0 |}.

Definition path_join (a b : string) : string := (a ++ "/" ++ b)%string.

Definition rlimits_sample : list ResourceLimit :=
  [ {| resource := 7;
       rlim := {| Hook.rlim_cur := 10; Hook.rlim_max := 10 |} |};
    {| resource := 1;
       rlim := {| Hook.rlim_cur := 65536; Hook.rlim_max := 65536 |} |};
    {| resource := 3;
       rlim := {| Hook.rlim_cur := 8388608; Hook.rlim_max := 8388608 |} |} ].

(** * Properties *)

(** ** Fixed-width arithmetic *)

Lemma wrap_s64_id z : Int.in_s64 z -> Int.wrap_s64 z = z.
Proof.
  unfold Int.in_s64, Int.wrap_s64; intros H.
  rewrite Z.mod_small; lia.
Qed.

Lemma wrap_u64_id z : Int.in_u64 z -> Int.wrap_u64 z = z.
Proof.
  unfold Int.in_u64, Int.wrap_u64; intros H.
  apply Z.mod_small; lia.
Qed.

Lemma wrap_s64_range z : Int.in_s64 (Int.wrap_s64 z).
Proof.
  unfold Int.in_s64, Int.wrap_s64.
  pose proof (Z.mod_pos_bound (z + 2 ^ 63) (2 ^ 64) ltac:(lia)); lia.
Qed.

Lemma wrap_u64_range z : Int.in_u64 (Int.wrap_u64 z).
Proof.
  unfold Int.in_u64, Int.wrap_u64.
  apply Z.mod_pos_bound; lia.
Qed.

(** Reading an unsigned 64-bit value as a signed one ([%ld] applied to a
    [size_t]). *)
Lemma wrap_s64_of_u64 z :
  Int.in_u64 z -> Int.wrap_s64 z = if z <? 2 ^ 63 then z else z - 2 ^ 64.
Proof.
  unfold Int.in_u64, Int.wrap_s64; intros H.
  destruct (Z.ltb_spec z (2 ^ 63)).
  - rewrite Z.mod_small; lia.
  - replace (z + 2 ^ 63) with (z - 2 ^ 63 + 1 * 2 ^ 64) by lia.
    rewrite Z.mod_add by lia.
    rewrite Z.mod_small; lia.
Qed.

(** ** Clock arithmetic *)

Ltac unwrap64 :=
  repeat match goal with
         | |- context [Int.wrap_s64 ?z] =>
             rewrite (wrap_s64_id z) by (unfold Int.in_s64; lia)
         end.

Section TimespecFacts.

Variables dst src : timespec.
Hypothesis dst_norm : normalized dst.
Hypothesis src_norm : normalized src.
Hypothesis dst_range : sec_in_range dst.
Hypothesis src_range : sec_in_range src.

(** The borrow in [TimespecSub] is exact on every pair of normalized
    operands. *)
Lemma TimespecSub_correct :
  normalized (TimespecSub dst src) /\
  to_nsec (TimespecSub dst src) = to_nsec dst - to_nsec src.
Proof.
  destruct dst as [ds dn], src as [ss sn].
  unfold normalized, sec_in_range, to_nsec, NSEC_PER_SEC in *; simpl in *.
  unfold TimespecSub, Int.long_sub, Int.long_add; simpl.
  unwrap64.
  destruct (Z.ltb_spec (dn - sn) 0); simpl; unwrap64; lia.
Qed.

(** The carry in [TimespecAdd] is exact whenever the nanosecond sum is not
    exactly one second. *)
Lemma TimespecAdd_correct_off_boundary :
  tv_nsec dst + tv_nsec src <> NSEC_PER_SEC ->
  normalized (TimespecAdd dst src) /\
  to_nsec (TimespecAdd dst src) = to_nsec dst + to_nsec src.
Proof.
  destruct dst as [ds dn], src as [ss sn].
  unfold normalized, sec_in_range, to_nsec, NSEC_PER_SEC in *; simpl in *.
  intros Hne.
  unfold TimespecAdd, Int.long_sub, Int.long_add; simpl.
  unwrap64.
  destruct (Z.gtb_spec (dn + sn) 1000000000); simpl; unwrap64; lia.
Qed.

(** On the boundary the sum still denotes the right instant, but the carry
    is not taken and the nanosecond field is left at 10^9. *)
Lemma TimespecAdd_at_boundary :
  tv_nsec dst + tv_nsec src = NSEC_PER_SEC ->
  tv_nsec (TimespecAdd dst src) = NSEC_PER_SEC /\
  tv_sec (TimespecAdd dst src) = tv_sec dst + tv_sec src /\
  ~ normalized (TimespecAdd dst src).
Proof.
  destruct dst as [ds dn], src as [ss sn].
  unfold normalized, sec_in_range, to_nsec, NSEC_PER_SEC in *; simpl in *.
  intros He.
  unfold TimespecAdd, Int.long_sub, Int.long_add; simpl.
  unwrap64. rewrite He. simpl. unwrap64. lia.
Qed.

End TimespecFacts.

(** C6 (code defect). [TimespecAdd] tests [tv_nsec > 1000000000] where the
    carry needs [>=]: adding two normalized values whose nanoseconds sum to
    exactly 10^9 (here 0.5 s + 0.5 s) returns [(0, 1000000000)], which is not
    a normalized pair, instead of [(1, 0)]. *)
Theorem TimespecAdd_boundary_unnormalized :
  normalized half_second /\
  TimespecAdd half_second half_second =
    {| tv_sec := 0; tv_nsec := 1000000000 |} /\
  ~ normalized (TimespecAdd half_second half_second) /\
  TimespecAdd half_second half_second <> {| tv_sec := 1; tv_nsec := 0 |}.
Proof.
  repeat split; try (vm_compute; congruence).
  unfold normalized, NSEC_PER_SEC; vm_compute; intros [_ H]; discriminate.
Qed.

(** ** The observer read *)

(** A value comes out of [ReceiveExitSyscall] only from a complete read of
    four bytes on the observed socket. *)
Lemma ReceiveExitSyscall_some fd o v :
  ReceiveExitSyscall fd o = Some v ->
  epoll_wait_res o <> 0 /\ epoll_event0_fd o = fd /\
  Int.wrap_u64 (recv_res o) = 4 /\ v = recv_value o.
Proof.
  unfold ReceiveExitSyscall.
  destruct (valid_fd (epoll_create1_res o)); simpl; [|discriminate].
  destruct (AddToEpoll_res o); simpl; [|discriminate].
  destruct (Z.eqb_spec (epoll_wait_res o) (-1)); [discriminate|].
  destruct (Z.eqb_spec (epoll_wait_res o) 0); [discriminate|].
  destruct (Z.eqb_spec (epoll_event0_fd o) fd); simpl; [|discriminate].
  destruct (Z.ltb_spec (recv_res o) 0); [discriminate|].
  destruct (Z.eqb_spec (recv_res o) 0); [discriminate|].
  destruct (Z.eqb_spec (Int.wrap_u64 (recv_res o)) 4) as [E|]; simpl;
    [|discriminate].
  intros [= <-]. auto.
Qed.

(** C8. An epoll timeout ([nfds = 0]), an end of file ([read_len = 0]) and
    a short read ([0 < read_len < 4]) each make [ReceiveExitSyscall] return
    the empty optional; the drain step then leaves [init_exitsyscall] as it
    was, and the run goes on to the meta record whose verdict is computed
    from that unchanged value. *)
Theorem ReceiveExitSyscall_no_value (fd : Z) (o : observer) :
  epoll_wait_res o = 0 \/ recv_res o = 0 \/ 0 < recv_res o < 4 ->
  ReceiveExitSyscall fd o = None /\
  (forall s, init_exitsyscall (observer_drain o s) = init_exitsyscall s) /\
  (forall lookup payload t1 s,
      meta_file (emit_meta lookup payload t1 (observer_drain o s)) =
      meta_file (emit_meta lookup payload t1 s)).
Proof.
  intros H.
  assert (Hnone : forall fd', ReceiveExitSyscall fd' o = None).
  { intros fd'. destruct (ReceiveExitSyscall fd' o) as [v|] eqn:E; [|reflexivity].
    apply ReceiveExitSyscall_some in E. destruct E as (Hw & _ & Hlen & _).
    unfold Int.wrap_u64 in Hlen.
    destruct H as [H | [H | H]].
    - contradiction.
    - rewrite H in Hlen. discriminate.
    - rewrite Z.mod_small in Hlen; lia. }
  split; [apply Hnone|].
  assert (Hdrain : forall s, observer_drain o s = s \/
                             observer_drain o s = set_sigsys_socket_fd (-1) s).
  { intros s. unfold observer_drain. rewrite Hnone.
    destruct (valid_fd (sigsys_socket_fd s)); auto. }
  split.
  - intros s. destruct (Hdrain s) as [-> | ->]; reflexivity.
  - intros lookup payload t1 s.
    destruct (Hdrain s) as [-> | ->]; [reflexivity|].
    unfold emit_meta; simpl.
    destruct (write_verdict lookup _ _ _); reflexivity.
Qed.

(** The three causes, each at a concrete answer of the kernel. *)
Lemma ReceiveExitSyscall_no_value_witness :
  ReceiveExitSyscall kSigsysNotificationFd obs_timeout = None /\
  ReceiveExitSyscall kSigsysNotificationFd obs_eof = None /\
  ReceiveExitSyscall kSigsysNotificationFd obs_short_read = None.
Proof.
  split; [|split].
  - apply (ReceiveExitSyscall_no_value kSigsysNotificationFd obs_timeout).
    left; reflexivity.
  - apply (ReceiveExitSyscall_no_value kSigsysNotificationFd obs_eof).
    right; left; reflexivity.
  - apply (ReceiveExitSyscall_no_value kSigsysNotificationFd obs_short_read).
    right; right; simpl; lia.
Defined.

(** ** The stdio hook *)

Section StdioFacts.

Variable k : Sys.kernel.

Lemma silent_ret {A} (a : A) : silent (Sys.ret a).
Proof. intros p; reflexivity. Qed.

Lemma silent_get_errno : silent Sys.get_errno.
Proof. intros p; reflexivity. Qed.

Lemma silent_bind {A B} (m : Sys.M A) (f : A -> Sys.M B) :
  silent m -> (forall a, silent (f a)) -> silent (Sys.bind m f).
Proof.
  intros Hm Hf p. unfold Sys.bind.
  specialize (Hm p). destruct (m p) as [a p1]. simpl in Hm.
  rewrite <- Hm. apply Hf.
Qed.

Lemma silent_syscall c : is_write c = false -> silent (Sys.syscall k c).
Proof.
  intros Hc p. unfold Sys.syscall, writes.
  destruct (k (Sys.history p) c <? 0); simpl;
    rewrite filter_app; simpl; rewrite Hc; apply app_nil_r.
Qed.

Lemma silent_ScopedFD_destroy fd : silent (ScopedFD_destroy k fd).
Proof.
  unfold ScopedFD_destroy. destruct (valid_fd fd).
  - apply silent_bind; [apply silent_syscall; reflexivity|].
    intros _; apply silent_ret.
  - apply silent_ret.
Qed.

Ltac silence :=
  repeat first
    [ apply silent_ret
    | apply silent_get_errno
    | apply silent_ScopedFD_destroy
    | apply silent_syscall; reflexivity
    | apply silent_bind; [|intro]
    | match goal with
      | |- silent (if ?b then _ else _) => destruct b
      end ].

Lemma silent_OpenFile path writable : silent (OpenFile k path writable).
Proof. unfold OpenFile. silence. Qed.

Lemma silent_OpenStdio path fd writable :
  silent (OpenStdio k path fd writable).
Proof.
  unfold OpenStdio.
  apply silent_bind; [apply silent_OpenFile|intro].
  silence.
Qed.

Lemma silent_unsandboxed_stdin_stdout args :
  silent (unsandboxed_stdin_stdout k args).
Proof.
  unfold unsandboxed_stdin_stdout.
  apply silent_bind.
  - destruct (negb _); [apply silent_OpenStdio|apply silent_ret].
  - intro r. destruct (negb (r =? 0)); [apply silent_ret|].
    destruct (negb _); [apply silent_OpenStdio|apply silent_ret].
Qed.

(** A call fails with a positive [errno] or succeeds and leaves [errno]
    alone. *)
Lemma syscall_result c p :
  (fst (Sys.syscall k c p) = -1 /\ 0 < Sys.errno (snd (Sys.syscall k c p))) \/
  (0 <= fst (Sys.syscall k c p) /\
   fst (Sys.syscall k c p) = k (Sys.history p) c /\
   Sys.errno (snd (Sys.syscall k c p)) = Sys.errno p).
Proof.
  unfold Sys.syscall.
  destruct (Z.ltb_spec (k (Sys.history p) c) 0); simpl; [left|right]; lia.
Qed.

Lemma ScopedFD_destroy_errno fd p :
  0 < Sys.errno p -> 0 < Sys.errno (snd (ScopedFD_destroy k fd p)).
Proof.
  intros H. unfold ScopedFD_destroy.
  destruct (valid_fd fd); [|exact H].
  unfold Sys.bind, Sys.ret.
  pose proof (syscall_result (Sys.Close fd) p) as Hs.
  destruct (Sys.syscall k (Sys.Close fd) p) as [r p']. simpl in *.
  lia.
Qed.

(** An empty [ScopedFD] comes with a positive [errno]. *)
Lemma OpenFile_invalid path w p :
  valid_fd (fst (OpenFile k path w p)) = false ->
  0 < Sys.errno (snd (OpenFile k path w p)).
Proof.
  unfold OpenFile, Sys.bind, Sys.get_errno, Sys.ret.
  pose proof (syscall_result (Sys.Open path w) p) as H1.
  destruct (Sys.syscall k (Sys.Open path w) p) as [fd p1]. simpl in H1.
  destruct (valid_fd fd) eqn:Hv; simpl.
  - rewrite Hv. discriminate.
  - destruct H1 as [[-> He]|[Hge _]]; [|unfold valid_fd in Hv; lia].
    destruct (Sys.errno p1 =? ENXIO); simpl; [|intros _; exact He].
    pose proof (syscall_result Sys.Socket p1) as H2.
    destruct (Sys.syscall k Sys.Socket p1) as [fd2 p2]. simpl in H2.
    destruct (valid_fd fd2) eqn:Hv2; simpl.
    + pose proof (syscall_result (Sys.Connect fd2 (sun_path path)) p2) as H3.
      destruct (Sys.syscall k (Sys.Connect fd2 (sun_path path)) p2)
        as [r3 p3].
      simpl in H3.
      destruct (Z.eqb_spec r3 (-1)).
      * intros _.
        pose proof (ScopedFD_destroy_errno fd2 p3) as Hd.
        destruct (ScopedFD_destroy k fd2 p3). simpl in *. apply Hd. lia.
      * pose proof (syscall_result (Sys.Shutdown fd2 (if w then SHUT_RD else SHUT_WR)) p3) as H4.
        destruct (Sys.syscall k (Sys.Shutdown fd2 (if w then SHUT_RD else SHUT_WR)) p3) as [r4 p4].
        simpl in H4.
        destruct (Z.eqb_spec r4 (-1)).
        -- intros _.
           pose proof (ScopedFD_destroy_errno fd2 p4) as Hd.
           destruct (ScopedFD_destroy k fd2 p4). simpl in *. apply Hd. lia.
        -- simpl. rewrite Hv2. discriminate.
    + intros _. destruct H2 as [[_ H2]|[H2 _]]; [exact H2|].
      unfold valid_fd in Hv2. lia.
Qed.

(** [OpenStdio] returns 0 only when the file was opened (or the socket
    connected) and the descriptor is the expected one or was duplicated
    onto it. *)
Lemma OpenStdio_zero path e w p q' :
  OpenStdio k path e w p = (0, q') ->
  let fd := fst (OpenFile k path w p) in
  let p1 := snd (OpenFile k path w p) in
  valid_fd fd = true /\
  (fd = e /\ q' = p1 \/
   fd <> e /\ 0 <= k (Sys.history p1) (Sys.Dup2 fd e) /\
   Sys.history q' = Sys.history p1 ++ [Sys.Dup2 fd e; Sys.Close fd]).
Proof.
  unfold OpenStdio, Sys.bind, Sys.get_errno, Sys.ret. cbv zeta.
  pose proof (OpenFile_invalid path w p) as Hinv.
  destruct (OpenFile k path w p) as [fd p1]. simpl in *.
  destruct (valid_fd fd) eqn:Hv; simpl.
  - destruct (Z.eqb_spec fd e).
    + intros [= <-]. auto.
    + pose proof (syscall_result (Sys.Dup2 fd e) p1) as H2.
      unfold Sys.syscall in *.
      destruct (Z.ltb_spec (k (Sys.history p1) (Sys.Dup2 fd e)) 0); simpl in *.
      * unfold ScopedFD_destroy. rewrite Hv. unfold Sys.bind, Sys.syscall, Sys.ret. simpl.
        destruct (_ <? 0); simpl; intros [= H0]; lia.
      * destruct (Z.eqb_spec (k (Sys.history p1) (Sys.Dup2 fd e)) (-1)); [lia|].
        unfold ScopedFD_destroy. rewrite Hv. unfold Sys.bind, Sys.syscall, Sys.ret. simpl.
        destruct (_ <? 0); simpl; intros [= <-]; simpl; rewrite <- app_assoc; auto.
  - intros [= H0 _]. specialize (Hinv eq_refl). lia.
Qed.

(** The unsandboxed branch is the first two redirections followed by the
    stderr one. *)
Lemma RedirectStdio_unsandboxed args p :
  disable_sandboxing args = true ->
  RedirectStdio k args p =
  let '(r, q) := unsandboxed_stdin_stdout k args p in
  if negb (r =? 0) then (r, q)
  else if negb (empty (stderr_redirect args)) then
    let '(r', q') := OpenStdio k (stderr_redirect args) STDERR_FILENO true q in
    if negb (r' =? 0) then (r', q')
    else (0, snd (Sys.syscall k (Sys.Write STDERR_FILENO WARNING_MESSAGE) q'))
  else (0, q).
Proof.
  intros Hd. unfold RedirectStdio, unsandboxed_stdin_stdout. rewrite Hd.
  unfold Sys.bind, Sys.ret.
  destruct ((if negb (empty (stdin_redirect args))
             then OpenStdio k (stdin_redirect args) STDIN_FILENO false
             else fun p0 => (0, p0)) p) as [r1 p1].
  destruct (Z.eqb_spec r1 0) as [->|Hr1]; simpl.
  - destruct ((if negb (empty (stdout_redirect args))
               then OpenStdio k (stdout_redirect args) STDOUT_FILENO true
               else fun p0 => (0, p0)) p1) as [r2 p2].
    destruct (Z.eqb_spec r2 0) as [->|Hr2]; simpl.
    + destruct (empty (stderr_redirect args)); simpl; [reflexivity|].
      destruct (OpenStdio k (stderr_redirect args) STDERR_FILENO true p2)
        as [r3 p3].
      destruct (Z.eqb_spec r3 0) as [->|Hr3]; simpl; [|reflexivity].
      destruct (Sys.syscall k _ p3); reflexivity.
    + destruct (Z.eqb_spec r2 0); [contradiction|reflexivity].
  - destruct (Z.eqb_spec r1 0); [contradiction|reflexivity].
Qed.

End StdioFacts.

(** In sandboxed mode the hook writes nothing. *)
Lemma RedirectStdio_sandboxed_silent k args :
  disable_sandboxing args = false -> silent (RedirectStdio k args).
Proof.
  intros Hd. unfold RedirectStdio. rewrite Hd.
  repeat first
    [ apply silent_ret
    | apply silent_get_errno
    | apply silent_OpenStdio
    | apply silent_syscall; reflexivity
    | apply silent_bind; [|intro]
    | match goal with
      | |- silent (if ?b then _ else _) => destruct b
      end ].
Qed.

(** The hooks of a list that ends with [hook]: those before it returned 0
    when [hook] is reached. *)
Lemma run_hooks_last (earlier : list (Sys.M Z)) (hook : Sys.M Z)
  (p q : Sys.proc) :
  run_hooks (earlier ++ [hook]) p = (0, q) ->
  exists p', run_hooks earlier p = (0, p') /\ hook p' = (0, q).
Proof.
  revert p. induction earlier as [|first rest IH]; intros p; cbn [app run_hooks].
  - unfold Sys.bind, Sys.ret. intros H. exists p. split; [reflexivity|].
    destruct (hook p) as [r p1].
    destruct (Z.eqb_spec r 0) as [->|Hr]; cbn [negb] in H.
    + exact H.
    + injection H as H _. contradiction.
  - unfold Sys.bind. destruct (first p) as [r p1].
    destruct (Z.eqb_spec r 0) as [->|Hr]; cbn [negb].
    + apply IH.
    + unfold Sys.ret. intros H. injection H as H _. contradiction.
Qed.

Lemma CloseLoggingFd_zero k q t :
  CloseLoggingFd k q = (0, t) ->
  Sys.history t = Sys.history q ++ [Sys.Close kLoggingFd].
Proof.
  unfold CloseLoggingFd, Sys.bind, Sys.get_errno, Sys.ret, Sys.syscall.
  destruct (k (Sys.history q) (Sys.Close kLoggingFd) <? 0); cbn [Z.eqb negb].
  - intros H. apply (f_equal snd) in H. cbn [snd] in H. subst t.
    reflexivity.
  - destruct (negb _); intros H; apply (f_equal snd) in H; cbn [snd] in H;
      subst t; reflexivity.
Qed.

(** C10. In unsandboxed mode, when a stderr redirection is configured and
    its [OpenStdio] onto descriptor 2 returns 0 (the two redirections before
    it having succeeded, so that it is reached), the file was opened and is
    descriptor 2 (directly, or through a [dup2] that succeeded), the one call
    the hook makes after that redirection is a [write] to descriptor 2 of
    the line "WARNING: Running with --disable-sandboxing" and its line feed,
    whose result is not looked at, and the hook returns 0; it is the only
    [write] of the hook.  When stderr is not redirected the hook makes no
    [write] call at all.  The line is written before the target runs: the
    hook is the last of its phase, and when the target starts the last two
    calls made are this [write] and the close of the logging descriptor by
    the one hook of the next phase. *)
Theorem RedirectStdio_unsandboxed_warning
  (k : Sys.kernel) (args : Args) (p : Sys.proc) :
  disable_sandboxing args = true ->
  let warning :=
    Sys.Write 2 ("WARNING: Running with --disable-sandboxing" ++
                 String (ascii_of_nat 10) "")%string in
  (empty (stderr_redirect args) = false ->
   forall q q',
     unsandboxed_stdin_stdout k args p = (0, q) ->
     OpenStdio k (stderr_redirect args) 2 true q = (0, q') ->
     (let fd := fst (OpenFile k (stderr_redirect args) true q) in
      let q1 := snd (OpenFile k (stderr_redirect args) true q) in
      valid_fd fd = true /\
      (fd = 2 \/
       0 <= k (Sys.history q1) (Sys.Dup2 fd 2) /\
       Sys.history q' =
         Sys.history q1 ++ [Sys.Dup2 fd 2; Sys.Close fd])) /\
     fst (RedirectStdio k args p) = 0 /\
     Sys.history (snd (RedirectStdio k args p)) =
       Sys.history q' ++ [warning] /\
     writes (Sys.history (snd (RedirectStdio k args p))) =
       writes (Sys.history p) ++ [warning])
  /\
  (empty (stderr_redirect args) = true ->
   writes (Sys.history (snd (RedirectStdio k args p))) =
     writes (Sys.history p))
  /\
  (empty (stderr_redirect args) = false ->
   forall (earlier : list (Sys.M Z)) (p0 t : Sys.proc),
     launch (earlier ++ [RedirectStdio k args]) [CloseLoggingFd k] p0
       = Some t ->
     exists h, Sys.history t = h ++ [warning; Sys.Close 3]).
Proof.
  intros Hd. cbv zeta.
  change (Sys.Write 2 ("WARNING: Running with --disable-sandboxing" ++
                       String (ascii_of_nat 10) ""))
    with (Sys.Write STDERR_FILENO WARNING_MESSAGE).
  change 2 with STDERR_FILENO.
  split; [|split].
  - rewrite (RedirectStdio_unsandboxed k args p Hd).
    intros Hne q q' Hpre Herr.
    split.
    { destruct (OpenStdio_zero k _ _ _ _ _ Herr) as [Hv Hbind].
      cbv zeta. split; [exact Hv|].
      destruct Hbind as [[He _] | (_ & Hk & Hh)]; [left|right]; auto. }
    rewrite Hpre, Hne, Herr. simpl.
    assert (Hh : Sys.history
                   (snd (Sys.syscall k
                           (Sys.Write STDERR_FILENO WARNING_MESSAGE) q')) =
                 Sys.history q' ++ [Sys.Write STDERR_FILENO WARNING_MESSAGE]).
    { unfold Sys.syscall. destruct (k (Sys.history q') _ <? 0); reflexivity. }
    split; [reflexivity|]. split; [exact Hh|].
    rewrite Hh. unfold writes. rewrite filter_app. simpl. f_equal.
    pose proof (silent_OpenStdio k (stderr_redirect args) STDERR_FILENO true q)
      as H1.
    pose proof (silent_unsandboxed_stdin_stdout k args p) as H2.
    rewrite Herr in H1. rewrite Hpre in H2. simpl in H1, H2.
    unfold writes in H1, H2. congruence.
  - rewrite (RedirectStdio_unsandboxed k args p Hd).
    intros He. rewrite He. simpl.
    pose proof (silent_unsandboxed_stdin_stdout k args p) as H2.
    destruct (unsandboxed_stdin_stdout k args p) as [r q]. simpl in H2.
    destruct (negb (r =? 0)); exact H2.
  - intros Hne earlier p0 t. unfold launch.
    destruct (run_hooks (earlier ++ [RedirectStdio k args]) p0)
      as [r q] eqn:Hrun.
    destruct (Z.eqb_spec r 0) as [->|Hr]; cbn [negb]; [|discriminate].
    apply run_hooks_last in Hrun. destruct Hrun as (p1 & _ & Hhook).
    cbn [run_hooks]. unfold Sys.bind at 1.
    destruct (CloseLoggingFd k q) as [r' q1] eqn:Hclose.
    destruct (Z.eqb_spec r' 0) as [->|Hr']; cbn [negb]; unfold Sys.ret.
    2: { destruct (Z.eqb_spec r' 0); [contradiction|discriminate]. }
    cbn [Z.eqb negb]. intros H. injection H as <-.
    apply CloseLoggingFd_zero in Hclose.
    rewrite (RedirectStdio_unsandboxed k args p1 Hd), Hne in Hhook.
    cbn [negb] in Hhook.
    destruct (unsandboxed_stdin_stdout k args p1) as [r1 q2].
    destruct (Z.eqb_spec r1 0) as [->|Hr1]; cbn [negb] in Hhook;
      [|injection Hhook as H _; contradiction].
    destruct (OpenStdio k (stderr_redirect args) STDERR_FILENO true q2)
      as [r2 q3].
    destruct (Z.eqb_spec r2 0) as [->|Hr2]; cbn [negb] in Hhook;
      [|injection Hhook as H _; contradiction].
    injection Hhook as <-.
    exists (Sys.history q3). rewrite Hclose.
    unfold Sys.syscall.
    destruct (k (Sys.history q3) _ <? 0); cbn [snd Sys.history];
      rewrite <- app_assoc; reflexivity.
Qed.

(** [--disable-sandboxing --stderr /tmp/err] on a kernel where every call
    succeeds: the file is opened as descriptor 7, duplicated onto 2, and the
    warning is written; the logging descriptor is closed and the target
    starts.  With only [--stdout /tmp/out] nothing is written. *)
Lemma RedirectStdio_unsandboxed_warning_witness :
  (fst (RedirectStdio kernel_ok args_stderr_only fresh_proc) = 0 /\
   Sys.history (snd (RedirectStdio kernel_ok args_stderr_only fresh_proc)) =
     [Sys.Open "/tmp/err" true; Sys.Dup2 7 2; Sys.Close 7] ++
     [Sys.Write 2 ("WARNING: Running with --disable-sandboxing" ++
                   String (ascii_of_nat 10) "")%string] /\
   writes (Sys.history
             (snd (RedirectStdio kernel_ok args_stderr_only fresh_proc))) =
     writes (Sys.history fresh_proc) ++
     [Sys.Write 2 ("WARNING: Running with --disable-sandboxing" ++
                   String (ascii_of_nat 10) "")%string]) /\
  writes (Sys.history
            (snd (RedirectStdio kernel_ok args_stdout_only fresh_proc))) =
    writes (Sys.history fresh_proc) /\
  exists h,
    [Sys.Open "/tmp/err" true; Sys.Dup2 7 2; Sys.Close 7;
     Sys.Write 2 ("WARNING: Running with --disable-sandboxing" ++
                   String (ascii_of_nat 10) "")%string;
     Sys.Close 3] =
    h ++ [Sys.Write 2 ("WARNING: Running with --disable-sandboxing" ++
                       String (ascii_of_nat 10) "")%string;
          Sys.Close 3].
Proof.
  split; [|split].
  - apply (proj1 (RedirectStdio_unsandboxed_warning
                    kernel_ok args_stderr_only fresh_proc eq_refl)
             eq_refl fresh_proc
             {| Sys.history := [Sys.Open "/tmp/err" true; Sys.Dup2 7 2;
                                Sys.Close 7];
                Sys.errno := 0 |});
      reflexivity.
  - apply (proj1 (proj2 (RedirectStdio_unsandboxed_warning
                           kernel_ok args_stdout_only fresh_proc eq_refl))).
    reflexivity.
  - apply (proj2 (proj2 (RedirectStdio_unsandboxed_warning
                           kernel_ok args_stderr_only fresh_proc eq_refl))
             eq_refl [] fresh_proc
             {| Sys.history :=
                  [Sys.Open "/tmp/err" true; Sys.Dup2 7 2; Sys.Close 7;
                   Sys.Write 2 ("WARNING: Running with --disable-sandboxing"
                                ++ String (ascii_of_nat 10) "")%string;
                   Sys.Close 3];
                Sys.errno := 0 |}).
    reflexivity.
Defined.

(** ** Lines of text *)

Lemma append_assoc (a b c : string) : ((a ++ b) ++ c = a ++ (b ++ c))%string.
Proof. induction a as [|x a IH]; simpl; [reflexivity|now rewrite IH]. Qed.

Lemma unlines_app (xs ys : list string) :
  unlines (xs ++ ys) = (unlines xs ++ unlines ys)%string.
Proof.
  induction xs as [|x xs IH]; simpl; [reflexivity|].
  rewrite IH. rewrite !append_assoc. reflexivity.
Qed.

Lemma no_lf_app (a b : string) :
  no_lf (a ++ b) = no_lf a && no_lf b.
Proof.
  induction a as [|x a IH]; simpl; [reflexivity|].
  rewrite IH. apply andb_assoc.
Qed.

(** Reading a line: [pre] is what has been read of it so far. *)
Lemma lines_from_line (pre l rest : string) :
  no_lf l = true ->
  lines_from (rev (list_ascii_of_string pre)) (l ++ nl ++ rest) =
  (pre ++ l)%string :: lines rest.
Proof.
  revert pre. induction l as [|c l IH]; intros pre Hl.
  - simpl. rewrite rev_involutive, string_of_list_ascii_of_string.
    replace (pre ++ "")%string with pre; [reflexivity|].
    clear. induction pre; simpl; congruence.
  - simpl in Hl. apply andb_true_iff in Hl. destruct Hl as [Hc Hl].
    simpl. apply negb_true_iff in Hc. rewrite Hc.
    replace (c :: rev (list_ascii_of_string pre))
      with (rev (list_ascii_of_string (pre ++ String c ""))).
    + rewrite (IH _ Hl). rewrite append_assoc. reflexivity.
    + clear. induction pre as [|x pre IH]; simpl; [reflexivity|].
      rewrite IH. reflexivity.
Qed.

Lemma lines_cons (l rest : string) :
  no_lf l = true -> lines (l ++ nl ++ rest) = l :: lines rest.
Proof. intros Hl. apply (lines_from_line "" l rest Hl). Qed.

(** [lines] reads back what [unlines] writes. *)
Lemma lines_unlines (ls : list string) :
  forallb no_lf ls = true -> lines (unlines ls) = ls.
Proof.
  induction ls as [|l ls IH]; intros H; [reflexivity|].
  cbn [forallb] in H. apply andb_true_iff in H. destruct H as [Hl Hls].
  change (unlines (l :: ls)) with (l ++ nl ++ unlines ls)%string.
  rewrite (lines_cons _ _ Hl). now rewrite IH.
Qed.

(** A decimal numeral holds digits and at most a sign. *)
Lemma no_lf_string_of_uint (d : Decimal.uint) :
  no_lf (NilEmpty.string_of_uint d) = true.
Proof. induction d; simpl; auto. Qed.

Lemma no_lf_dec (z : Z) : no_lf (dec z) = true.
Proof.
  unfold dec. destruct (Z.to_int z); simpl; apply no_lf_string_of_uint.
Qed.

Lemma map_find_In (m : list (Z * string)) (key : Z) (v : string) :
  map_find m key = Some v -> In (key, v) m.
Proof.
  induction m as [|[k' v'] m IH]; simpl; [discriminate|].
  destruct (Z.eqb_spec k' key) as [->|].
  - intros [= ->]. now left.
  - intros H. right. auto.
Qed.

Lemma no_lf_signal_name (sig : Z) (name : string) :
  map_find kSignalMap sig = Some name -> no_lf name = true.
Proof.
  intros H. apply map_find_In in H.
  assert (Hall : forallb (fun kv => no_lf (snd kv)) kSignalMap = true)
    by reflexivity.
  rewrite forallb_forall in Hall. apply (Hall _ H).
Qed.

(** The keys of [kSignalMap] are the signals 1 to 31. *)
Lemma map_find_kSignalMap_some (sig : Z) :
  1 <= sig <= 31 -> exists name, map_find kSignalMap sig = Some name.
Proof.
  intros H.
  assert (Hn : sig = Z.of_nat (Z.to_nat sig)) by lia.
  rewrite Hn. clear Hn.
  assert (Hb : (1 <= Z.to_nat sig <= 31)%nat) by lia.
  revert Hb. generalize (Z.to_nat sig). intros n Hb.
  do 32 (destruct n as [|n]; [try lia; eexists; reflexivity|]).
  lia.
Qed.

(** ** The verdict *)

Section VerdictFacts.

Variable lookup : Z -> option string.
Variables sc sg st : Z.

(** A recorded syscall number selects the SIGSYS block whatever the signal
    and the wait status are. *)
Lemma write_verdict_syscall :
  sc <> -1 ->
  write_verdict lookup sc sg st =
  (("signal:SIGSYS" ++ nl ++ "syscall:"
      ++ match lookup sc with
         | Some name => name
         | None => "#" ++ dec sc
         end ++ nl)%string,
   Sig.SIGSYS).
Proof.
  intros H. unfold write_verdict.
  destruct (Z.eqb_spec sc (-1)); [contradiction|]. simpl.
  destruct (lookup sc); reflexivity.
Qed.

(** Without one, a recorded signal or a signalled wait status selects the
    signal block whatever the exit code is. *)
Lemma write_verdict_signal :
  sc = -1 -> sg <> -1 \/ Wait.WIFSIGNALED st = true ->
  write_verdict lookup sc sg st =
  let sig := if sg =? -1 then Wait.WTERMSIG st else sg in
  (match map_find kSignalMap sig with
   | Some name => ("signal:" ++ name ++ nl)%string
   | None => ("signal_number:" ++ dec sig ++ nl)%string
   end, sig).
Proof.
  intros -> H. unfold write_verdict.
  rewrite Z.eqb_refl. cbn [negb].
  assert (Hc : Wait.WIFSIGNALED st || negb (sg =? -1) = true).
  { destruct H as [H|H].
    - destruct (Z.eqb_spec sg (-1)); [contradiction|].
      simpl. apply orb_true_r.
    - rewrite H. reflexivity. }
  rewrite Hc. cbv zeta.
  destruct (map_find kSignalMap (if sg =? -1 then Wait.WTERMSIG st else sg));
    reflexivity.
Qed.

Lemma write_verdict_status :
  sc = -1 -> sg = -1 -> Wait.WIFSIGNALED st = false ->
  write_verdict lookup sc sg st =
  if Wait.WIFEXITED st
  then (("status:" ++ dec (Wait.WEXITSTATUS st) ++ nl)%string,
        Wait.WEXITSTATUS st)
  else (""%string, 0).
Proof.
  intros -> -> H. unfold write_verdict.
  rewrite Z.eqb_refl. cbn [negb orb]. rewrite H. reflexivity.
Qed.

End VerdictFacts.

(** C3 (as amended). The verdict is chosen in this order.  A recorded
    syscall number ([init_exitsyscall] other than -1, the test the code
    makes) gives the SIGSYS block and return value [SIGSYS], whatever the
    signal and the wait status.  Otherwise a recorded signal
    ([init_exitsignal] other than -1) or a signalled wait status gives the
    signal block for that signal ([WTERMSIG] when none was recorded),
    whatever the exit code.  Only otherwise, for an exited status, is the
    status block written: a text starting with [status:] is written in no
    other case. *)
Theorem write_verdict_priority (lookup : Z -> option string) (sc sg st : Z) :
  (sc <> -1 ->
   write_verdict lookup sc sg st =
   (("signal:SIGSYS" ++ nl ++ "syscall:"
       ++ match lookup sc with
          | Some name => name
          | None => "#" ++ dec sc
          end ++ nl)%string,
    Sig.SIGSYS)) /\
  (sc = -1 -> sg <> -1 \/ Wait.WIFSIGNALED st = true ->
   write_verdict lookup sc sg st =
   let sig := if sg =? -1 then Wait.WTERMSIG st else sg in
   (match map_find kSignalMap sig with
    | Some name => ("signal:" ++ name ++ nl)%string
    | None => ("signal_number:" ++ dec sig ++ nl)%string
    end, sig)) /\
  (sc = -1 -> sg = -1 -> Wait.WIFSIGNALED st = false ->
   Wait.WIFEXITED st = true ->
   write_verdict lookup sc sg st =
   (("status:" ++ dec (Wait.WEXITSTATUS st) ++ nl)%string,
    Wait.WEXITSTATUS st)) /\
  (starts_with "status:" (fst (write_verdict lookup sc sg st)) = true ->
   sc = -1 /\ sg = -1 /\ Wait.WIFSIGNALED st = false /\
   Wait.WIFEXITED st = true).
Proof.
  split; [apply write_verdict_syscall|].
  split; [apply write_verdict_signal|].
  split.
  - intros Hsc Hsg Hs He.
    rewrite (write_verdict_status lookup sc sg st Hsc Hsg Hs), He.
    reflexivity.
  - destruct (Z.eq_dec sc (-1)) as [Hsc|Hsc].
    + destruct (Z.eq_dec sg (-1)) as [Hsg|Hsg].
      * destruct (Wait.WIFSIGNALED st) eqn:Hs.
        -- rewrite (write_verdict_signal lookup sc sg st Hsc (or_intror Hs)).
           cbv zeta.
           destruct (map_find kSignalMap _); simpl; discriminate.
        -- rewrite (write_verdict_status lookup sc sg st Hsc Hsg Hs).
           destruct (Wait.WIFEXITED st); simpl; [auto|discriminate].
      * rewrite (write_verdict_signal lookup sc sg st Hsc (or_introl Hsg)).
        cbv zeta.
        destruct (map_find kSignalMap _); simpl; discriminate.
    + rewrite (write_verdict_syscall lookup sc sg st Hsc). simpl.
      discriminate.
Qed.

(** The three cases at work: syscall 165 recorded together with SIGXCPU
    and exit code 7; SIGXCPU recorded together with exit code 7; exit code 7
    alone. *)
Lemma write_verdict_priority_witness :
  write_verdict lookup_sample 165 Sig.SIGXCPU (Wait.W_EXITCODE 7 0) =
    (unlines ["signal:SIGSYS"; "syscall:mount"]%string, Sig.SIGSYS) /\
  write_verdict lookup_sample (-1) Sig.SIGXCPU (Wait.W_EXITCODE 7 0) =
    (unlines ["signal:SIGXCPU"]%string, Sig.SIGXCPU) /\
  write_verdict lookup_sample (-1) (-1) (Wait.W_EXITCODE 7 0) =
    (unlines ["status:7"]%string, 7).
Proof.
  pose proof (write_verdict_priority lookup_sample 165 Sig.SIGXCPU
                (Wait.W_EXITCODE 7 0)) as [H1 _].
  pose proof (write_verdict_priority lookup_sample (-1) Sig.SIGXCPU
                (Wait.W_EXITCODE 7 0)) as [_ [H2 _]].
  pose proof (write_verdict_priority lookup_sample (-1) (-1)
                (Wait.W_EXITCODE 7 0)) as [_ [_ [H3 _]]].
  split; [|split].
  - rewrite H1; [reflexivity|discriminate].
  - rewrite H2; [reflexivity|reflexivity|left; discriminate].
  - rewrite H3; reflexivity.
Defined.

(** C3, the claim as stated fails: with [init_exitsyscall = -2] (a number
    that is not [>= 0]) and [init_exitsignal = SIGXCPU] recorded, the code
    writes the SIGSYS block, not the signal block. *)
Lemma write_verdict_negative_syscall :
  ~ (-2 >= 0) /\ Sig.SIGXCPU >= 0 /\
  write_verdict lookup_sample (-2) Sig.SIGXCPU 0 =
    (unlines ["signal:SIGSYS"; "syscall:#-2"]%string, Sig.SIGSYS) /\
  fst (write_verdict lookup_sample (-2) Sig.SIGXCPU 0) <>
    unlines ["signal:SIGXCPU"]%string.
Proof.
  split; [lia|]. split; [unfold Sig.SIGXCPU; lia|].
  split; [reflexivity|]. vm_compute. discriminate.
Qed.

(** ** The meta record *)

Section RecordFacts.

Variable lookup : Z -> option string.

(** Syscall names are C identifiers: they hold no line feed. *)
Hypothesis lookup_no_lf :
  forall nr name, lookup nr = Some name -> no_lf name = true.

(** The verdict text is a sequence of whole lines. *)
Lemma write_verdict_lines (sc sg st : Z) :
  exists verdict : list string,
    fst (write_verdict lookup sc sg st) = unlines verdict /\
    forallb no_lf verdict = true /\
    (sc <> -1 ->
     verdict = ["signal:SIGSYS";
                "syscall:" ++ match lookup sc with
                              | Some name => name
                              | None => "#" ++ dec sc
                              end]%string) /\
    (sc = -1 -> sg <> -1 \/ Wait.WIFSIGNALED st = true ->
     verdict = [match map_find kSignalMap
                        (if (sg =? -1)%Z then Wait.WTERMSIG st else sg) with
                | Some name => "signal:" ++ name
                | None => "signal_number:"
                          ++ dec (if (sg =? -1)%Z then Wait.WTERMSIG st
                                  else sg)
                end]%string) /\
    (sc = -1 -> sg = -1 -> Wait.WIFSIGNALED st = false ->
     verdict = if Wait.WIFEXITED st
               then ["status:" ++ dec (Wait.WEXITSTATUS st)]%string
               else []).
Proof.
  destruct (Z.eq_dec sc (-1)) as [Hsc|Hsc].
  - assert (Hsig : (sg <> -1 \/ Wait.WIFSIGNALED st = true) \/
                   (sg = -1 /\ Wait.WIFSIGNALED st = false)).
    { destruct (Z.eq_dec sg (-1)); [|now left; left].
      destruct (Wait.WIFSIGNALED st); [left; right|right]; auto. }
    destruct Hsig as [Hsig | [Hsg Hs]].
    + exists [match map_find kSignalMap
                      (if sg =? -1 then Wait.WTERMSIG st else sg) with
              | Some name => ("signal:" ++ name)%string
              | None => ("signal_number:"
                         ++ dec (if (sg =? -1)%Z then Wait.WTERMSIG st
                                 else sg))%string
              end].
      split; [|split; [|split; [|split]]].
      * rewrite (write_verdict_signal lookup sc sg st Hsc Hsig).
        cbv zeta. cbn [fst].
        destruct (map_find kSignalMap
                    (if sg =? -1 then Wait.WTERMSIG st else sg));
          reflexivity.
      * cbn [forallb]. rewrite andb_true_r.
        destruct (map_find kSignalMap
                    (if sg =? -1 then Wait.WTERMSIG st else sg)) eqn:E.
        -- rewrite no_lf_app. apply no_lf_signal_name in E. now rewrite E.
        -- rewrite no_lf_app. now rewrite no_lf_dec.
      * intros; contradiction.
      * reflexivity.
      * intros _ Hsg' Hs'. destruct Hsig; congruence.
    + exists (if Wait.WIFEXITED st
              then ["status:" ++ dec (Wait.WEXITSTATUS st)]%string else []).
      split; [|split; [|split; [|split]]].
      * rewrite (write_verdict_status lookup sc sg st Hsc Hsg Hs).
        destruct (Wait.WIFEXITED st); reflexivity.
      * destruct (Wait.WIFEXITED st); [|reflexivity].
        cbn [forallb]. rewrite no_lf_app, no_lf_dec. reflexivity.
      * intros; contradiction.
      * intros _ [H|H]; congruence.
      * reflexivity.
  - exists ["signal:SIGSYS"%string;
            ("syscall:" ++ match lookup sc with
                           | Some name => name
                           | None => "#" ++ dec sc
                           end)%string].
    split; [|split; [|split; [|split]]].
    + rewrite (write_verdict_syscall lookup sc sg st Hsc). reflexivity.
    + cbn [forallb]. rewrite no_lf_app.
      destruct (lookup sc) eqn:E.
      * rewrite (lookup_no_lf _ _ E). reflexivity.
      * rewrite no_lf_app, no_lf_dec. reflexivity.
    + reflexivity.
    + intros; contradiction.
    + intros; contradiction.
Qed.

(** The header is four whole lines. *)
Lemma write_header_lines (usage : rusage) (t1 : timespec) (max_rss : Z) :
  write_header usage t1 max_rss =
  unlines [ "time:" ++ dec (usec_of_timeval (ru_utime usage));
            "time-sys:" ++ dec (usec_of_timeval (ru_stime usage));
            "time-wall:" ++ dec (usec_of_timespec t1);
            "mem:" ++ dec (Int.wrap_s64 max_rss) ]%string.
Proof. reflexivity. Qed.

Lemma kSignalMap_SIGSYS (sig : Z) :
  map_find kSignalMap sig = Some "SIGSYS"%string -> sig = Sig.SIGSYS.
Proof.
  intros H. apply map_find_In in H.
  assert (Hall : forallb
                   (fun kv => implb (String.eqb (snd kv) "SIGSYS")
                                    (fst kv =? Sig.SIGSYS))
                   kSignalMap = true) by (vm_compute; reflexivity).
  rewrite forallb_forall in Hall. specialize (Hall _ H).
  cbn [fst snd] in Hall. rewrite String.eqb_refl in Hall. cbn in Hall.
  apply Z.eqb_eq in Hall. exact Hall.
Qed.

(** C7 (as amended). The meta record is a sequence of LF-terminated lines:
    the four keys [time], [time-sys], [time-wall], [mem] in that order,
    followed by the lines of at most one verdict block.  With a syscall
    number recorded the block is [signal:SIGSYS] and, on the next line,
    [syscall:<name>] or [syscall:#<nr>], and no line of the record starts
    with [status:].  Without one, a recorded signal or a signalled status
    gives the single line [signal:<NAME>] or [signal_number:<n>] for the
    signal of the verdict, which is the recorded signal when there is one
    and the terminating signal of the status otherwise; otherwise an exited
    status gives [status:<code>], and any other status no block.  The line
    [signal:SIGSYS] stands alone, with no [syscall:] line, exactly when no
    syscall number was recorded and the signal of the verdict is SIGSYS; it
    appears in the record in these two cases only. *)
Theorem meta_record_shape (payload : InitPayload) (t1 : timespec)
  (s : locals) :
  let text := meta_file (emit_meta lookup payload t1 s) in
  let sc := init_exitsyscall s in
  let sg := init_exitsignal s in
  let st := init_exitstatus s in
  exists verdict : list string,
    text = unlines (lines text) /\
    lines text =
      [ "time:" ++ dec (usec_of_timeval (ru_utime (init_usage s)));
        "time-sys:" ++ dec (usec_of_timeval (ru_stime (init_usage s)));
        "time-wall:" ++ dec (usec_of_timespec t1);
        "mem:" ++ dec (mem_value (ru_maxrss (init_usage s))
                                 (vm_memory_size_in_bytes payload)) ]%string
      ++ verdict /\
    (sc <> -1 ->
     verdict = ["signal:SIGSYS";
                "syscall:" ++ match lookup sc with
                              | Some name => name
                              | None => "#" ++ dec sc
                              end]%string /\
     forall l, In l (lines text) -> starts_with "status:" l = false) /\
    (sc = -1 -> sg <> -1 \/ Wait.WIFSIGNALED st = true ->
     verdict = [match map_find kSignalMap
                        (if (sg =? -1)%Z then Wait.WTERMSIG st else sg) with
                | Some name => "signal:" ++ name
                | None => "signal_number:"
                          ++ dec (if (sg =? -1)%Z then Wait.WTERMSIG st
                                  else sg)
                end]%string) /\
    (sc = -1 -> sg = -1 -> Wait.WIFSIGNALED st = false ->
     verdict = if Wait.WIFEXITED st
               then ["status:" ++ dec (Wait.WEXITSTATUS st)]%string
               else []) /\
    (sc = -1 -> sg <> -1 \/ Wait.WIFSIGNALED st = true ->
     (verdict = ["signal:SIGSYS"%string] <->
      (if (sg =? -1)%Z then Wait.WTERMSIG st else sg) = Sig.SIGSYS)) /\
    (In "signal:SIGSYS"%string (lines text) ->
     sc <> -1 \/
     sc = -1 /\ (sg <> -1 \/ Wait.WIFSIGNALED st = true) /\
     (if (sg =? -1)%Z then Wait.WTERMSIG st else sg) = Sig.SIGSYS /\
     verdict = ["signal:SIGSYS"%string]).
Proof.
  cbv zeta.
  destruct (write_verdict_lines (init_exitsyscall s) (init_exitsignal s)
              (init_exitstatus s))
    as (verdict & Htext & Hlf & Hsys & Hsig & Hst).
  assert (Halone :
            init_exitsyscall s = -1 ->
            init_exitsignal s <> -1 \/
            Wait.WIFSIGNALED (init_exitstatus s) = true ->
            (verdict = ["signal:SIGSYS"%string] <->
             (if (init_exitsignal s =? -1)%Z
              then Wait.WTERMSIG (init_exitstatus s)
              else init_exitsignal s) = Sig.SIGSYS)).
  { intros Hsc Hor. rewrite (Hsig Hsc Hor).
    set (sig := if (init_exitsignal s =? -1)%Z
                then Wait.WTERMSIG (init_exitstatus s)
                else init_exitsignal s).
    split.
    - destruct (map_find kSignalMap sig) as [name|] eqn:E.
      + intros H. injection H as H. apply kSignalMap_SIGSYS.
        rewrite E. f_equal. cbn [append] in H. congruence.
      + intros H. cbn [append] in H. discriminate H.
    - intros ->. reflexivity. }
  exists verdict.
  set (header :=
         [ "time:" ++ dec (usec_of_timeval (ru_utime (init_usage s)));
           "time-sys:" ++ dec (usec_of_timeval (ru_stime (init_usage s)));
           "time-wall:" ++ dec (usec_of_timespec t1);
           "mem:" ++ dec (mem_value (ru_maxrss (init_usage s))
                            (vm_memory_size_in_bytes payload)) ]%string).
  assert (Hmeta : meta_file (emit_meta lookup payload t1 s) =
                  unlines (header ++ verdict)).
  { unfold emit_meta.
    destruct (write_verdict lookup (init_exitsyscall s) (init_exitsignal s)
                (init_exitstatus s)) as [vt ret].
    cbn [meta_file fst] in *. rewrite Htext, write_header_lines.
    rewrite unlines_app. reflexivity. }
  assert (Hall : forallb no_lf (header ++ verdict) = true).
  { rewrite forallb_app, Hlf, andb_true_r. subst header. cbn [forallb].
    rewrite !no_lf_app, !no_lf_dec. reflexivity. }
  assert (Hlines : lines (meta_file (emit_meta lookup payload t1 s)) =
                   header ++ verdict).
  { rewrite Hmeta. apply lines_unlines, Hall. }
  split; [rewrite Hlines; exact Hmeta|].
  split; [exact Hlines|].
  split.
  { intros Hsc. split; [apply Hsys, Hsc|].
    rewrite Hlines, (Hsys Hsc). subst header.
    intros l Hl. cbn [app In] in Hl.
    destruct Hl as [<- | [<- | [<- | [<- | [<- | [<- | []]]]]]]; reflexivity. }
  split; [exact Hsig|]. split; [exact Hst|]. split; [exact Halone|].
  rewrite Hlines. intros Hin. apply in_app_or in Hin.
  destruct Hin as [Hin|Hin].
  { exfalso. subst header. cbn [In] in Hin.
    destruct Hin as [H|[H|[H|[H|[]]]]]; cbn [append] in H; discriminate H. }
  destruct (Z.eq_dec (init_exitsyscall s) (-1)) as [Hsc|Hsc]; [|left; exact Hsc].
  right. split; [exact Hsc|].
  destruct (Z.eq_dec (init_exitsignal s) (-1)) as [Hsg|Hsg].
  - destruct (Wait.WIFSIGNALED (init_exitstatus s)) eqn:Hw.
    + assert (Hor : init_exitsignal s <> -1 \/ true = true) by (right; reflexivity).
      split; [exact Hor|].
      assert (Hv : verdict = ["signal:SIGSYS"%string]).
      { rewrite (Hsig Hsc Hor) in Hin |- *. cbn [In] in Hin.
        destruct Hin as [H|[]]. rewrite H. reflexivity. }
      split; [apply (Halone Hsc Hor), Hv|exact Hv].
    + exfalso. rewrite (Hst Hsc Hsg eq_refl) in Hin.
      destruct (Wait.WIFEXITED (init_exitstatus s)); cbn [In] in Hin;
        [destruct Hin as [H|[]]; cbn [append] in H; discriminate H|exact Hin].
  - assert (Hor : init_exitsignal s <> -1 \/
                  Wait.WIFSIGNALED (init_exitstatus s) = true)
      by (left; exact Hsg).
    split; [exact Hor|].
    assert (Hv : verdict = ["signal:SIGSYS"%string]).
    { rewrite (Hsig Hsc Hor) in Hin |- *. cbn [In] in Hin.
      destruct Hin as [H|[]]. rewrite H. reflexivity. }
    split; [apply (Halone Hsc Hor), Hv|exact Hv].
Qed.

End RecordFacts.

(** The record of a run in which syscall 165 was recorded. *)
Lemma meta_record_shape_witness :
  lines (meta_file (MetaInit lookup_sample payload_sample no_cgroups 2
                      env_tracer_and_observer)) =
  [ "time:1500"; "time-sys:300"; "time-wall:300000"; "mem:2097152";
    "signal:SIGSYS"; "syscall:mount" ]%string.
Proof.
  assert (Hlk : forall nr name,
             lookup_sample nr = Some name -> no_lf name = true).
  { intros nr name. unfold lookup_sample.
    destruct (nr =? 165); [intros [= <-]; reflexivity|discriminate]. }
  unfold MetaInit.
  destruct (meta_record_shape lookup_sample Hlk payload_sample
              (TimespecSub
                 (clock env_tracer_and_observer
                    (clock_reads
                       (supervised payload_sample 2 env_tracer_and_observer)))
                 (clock env_tracer_and_observer 0%nat))
              (reconcile_memory payload_sample no_cgroups
                 (failcnt_read env_tracer_and_observer)
                 (observer_drain (obs env_tracer_and_observer)
                    (supervised payload_sample 2 env_tracer_and_observer))))
    as (verdict & _ & Hlines & Hsys & _).
  cbv zeta. rewrite Hlines.
  destruct Hsys as [-> _]; [vm_compute; discriminate|].
  reflexivity.
Defined.

(** C7, the claim as stated fails: when the target is killed by SIGSYS and
    no syscall number reaches the parent, the record ends with the line
    [signal:SIGSYS] and no [syscall:] line follows it. *)
Lemma meta_record_sigsys_without_syscall :
  lines (meta_file (MetaInit lookup_sample payload_sample no_cgroups 2
                      env_sigsys_unobserved)) =
  [ "time:1500"; "time-sys:300"; "time-wall:300000"; "mem:2097152";
    "signal:SIGSYS" ]%string.
Proof. vm_compute. reflexivity. Qed.

(** A status word that is neither exited nor signalled (here a stop on
    SIGSTOP), with nothing recorded, yields no verdict block. *)
Lemma write_verdict_no_block :
  write_verdict lookup_sample (-1) (-1) (Wait.W_STOPCODE Sig.SIGSTOP) =
  (""%string, 0).
Proof. reflexivity. Qed.

(** ** Memory accounting *)

Lemma lines_unlines_app (ls : list string) (rest : string) :
  forallb no_lf ls = true ->
  lines (unlines ls ++ rest) = ls ++ lines rest.
Proof.
  induction ls as [|l ls IH]; intros H; [reflexivity|].
  cbn [forallb] in H. apply andb_true_iff in H. destruct H as [Hl Hls].
  change (unlines (l :: ls)) with (l ++ nl ++ unlines ls)%string.
  rewrite !append_assoc. rewrite (lines_cons _ _ Hl).
  cbn [app]. now rewrite IH.
Qed.

(** The fourth line of every record is the [mem] line. *)
Lemma meta_mem_line lookup payload t1 s :
  nth 3 (lines (meta_file (emit_meta lookup payload t1 s))) ""%string =
  ("mem:" ++ dec (mem_value (ru_maxrss (init_usage s))
                            (vm_memory_size_in_bytes payload)))%string.
Proof.
  unfold emit_meta.
  destruct (write_verdict lookup _ _ _) as [vt ret]. cbn [meta_file].
  rewrite write_header_lines, lines_unlines_app; [reflexivity|].
  cbn [forallb]. rewrite !no_lf_app, !no_lf_dec. reflexivity.
Qed.

(** C4 (as amended). When [ru_maxrss * 1024] fits a [long] and is not
    negative, and the VM overhead is a [size_t], the reported [mem] is
    [max(0, ru_maxrss * 1024 - vm_memory_size)] in exact arithmetic, it is
    not negative, and it is what the [mem] line of the record shows. *)
Theorem mem_value_exact (lookup : Z -> option string) (payload : InitPayload)
  (t1 : timespec) (s : locals) :
  let ru := ru_maxrss (init_usage s) in
  let vm := vm_memory_size_in_bytes payload in
  0 <= ru * 1024 < 2 ^ 63 -> 0 <= vm < 2 ^ 64 ->
  mem_value ru vm = Z.max 0 (ru * 1024 - vm) /\
  0 <= mem_value ru vm /\
  nth 3 (lines (meta_file (emit_meta lookup payload t1 s))) ""%string =
    ("mem:" ++ dec (Z.max 0 (ru * 1024 - vm)))%string.
Proof.
  cbv zeta. intros Hru Hvm.
  assert (Hval : mem_value (ru_maxrss (init_usage s))
                   (vm_memory_size_in_bytes payload) =
                 Z.max 0 (ru_maxrss (init_usage s) * 1024 -
                          vm_memory_size_in_bytes payload)).
  { unfold mem_value, max_rss_bytes, Int.long_mul.
    rewrite (wrap_s64_id (_ * 1024)) by (unfold Int.in_s64; lia).
    rewrite (wrap_u64_id (_ * 1024)) by (unfold Int.in_u64; lia).
    destruct (Z.geb_spec (ru_maxrss (init_usage s) * 1024)
                (vm_memory_size_in_bytes payload)).
    - rewrite wrap_u64_id by (unfold Int.in_u64; lia).
      rewrite wrap_s64_id by (unfold Int.in_s64; lia). lia.
    - rewrite wrap_s64_id by (unfold Int.in_s64; lia). lia. }
  split; [exact Hval|]. split; [rewrite Hval; lia|].
  rewrite meta_mem_line, Hval. reflexivity.
Qed.

(** 2048 KiB of peak RSS (the sample usage) and no VM overhead. *)
Lemma mem_value_exact_witness :
  mem_value 2048 0 = Z.max 0 (2048 * 1024 - 0) /\
  0 <= mem_value 2048 0 /\
  nth 3 (lines (meta_file
                  (emit_meta lookup_sample payload_sample half_second
                     (set_init_exit 0 usage_sample
                        (parent_start env_failcnt))))) ""%string =
    ("mem:" ++ dec (Z.max 0 (2048 * 1024 - 0)))%string.
Proof.
  apply (mem_value_exact lookup_sample payload_sample half_second
           (set_init_exit 0 usage_sample (parent_start env_failcnt)));
    simpl; lia.
Defined.

(** C4, the claim as stated fails: for [ru_maxrss = 2^53] the product
    [ru_maxrss * 1024 = 2^63] does not fit a [long]; the 64-bit product,
    read as a [size_t] and printed with [%ld], gives a negative [mem], which
    is not [max(0, ru_maxrss * 1024 - vm_memory_size)].  [ru_maxrss] takes
    that value in a run on a v1 host with a memory limit of [2^53] bytes
    and a non-zero [memory.failcnt]. *)
Lemma mem_value_overflow :
  mem_value (2 ^ 53) 0 = - 2 ^ 63 /\
  mem_value (2 ^ 53) 0 < 0 /\
  mem_value (2 ^ 53) 0 <> Z.max 0 (2 ^ 53 * 1024 - 0) /\
  ru_maxrss (init_usage (reconciled
    (MetaInit lookup_sample payload_huge_limit cgroups_v1_memory 2
       env_failcnt))) = 2 ^ 53 /\
  nth 3 (lines (meta_file
    (MetaInit lookup_sample payload_huge_limit cgroups_v1_memory 2
       env_failcnt))) ""%string = "mem:-9223372036854775808"%string.
Proof. vm_compute. repeat split; congruence. Qed.

(** Lines 628-639: what the reconciliation stores. *)
Lemma reconcile_memory_failcnt payload cg path failcnt s :
  memory_cgroup cg = Some path -> 0 < failcnt ->
  ru_maxrss (init_usage (reconcile_memory payload cg (Some failcnt) s)) =
  memory_limit_in_bytes payload.
Proof.
  intros Hcg Hf. unfold reconcile_memory. rewrite Hcg.
  destruct (Z.gtb_spec failcnt 0); [reflexivity|lia].
Qed.

(** With a memory cgroup in use the limit is not negative and sandboxing
    is on. *)
Lemma create_cgroups_memory payload c cg path :
  create_cgroups payload c = inr cg -> memory_cgroup cg = Some path ->
  0 <= memory_limit_in_bytes payload /\
  payload_disable_sandboxing payload = false /\
  unified_cgroup cg = None.
Proof.
  unfold create_cgroups. intros Hc Hm.
  destruct (payload_disable_sandboxing payload) eqn:Hd.
  - (* unsandboxed: no memory cgroup is ever created *)
    exfalso.
    destruct (negb (empty (cgroup_path payload)));
      [destruct (ScopedCgroup_new c (cgroup_path payload));
       [destruct (IsCgroupV2 c)|]|];
      try discriminate;
      destruct (prctl_subreaper_res c =? -1); try discriminate;
      injection Hc as <-; discriminate.
  - destruct (Z.geb_spec (memory_limit_in_bytes payload) 0) as [Hge|Hlt].
    + split; [lia|]. split; [reflexivity|].
      destruct (negb (empty (cgroup_path payload)));
        [destruct (ScopedCgroup_new c (cgroup_path payload));
         [destruct (IsCgroupV2 c)|]|];
        try discriminate; cbn [unified_cgroup pid_cgroup] in Hc;
        try destruct (ScopedCgroup_new c "/sys/fs/cgroup/memory/omegajail");
        try discriminate;
        destruct (WriteFile_limit_res c); try discriminate;
        destruct (chmod_limit_res c =? 0); try discriminate;
        injection Hc as <-; try reflexivity; discriminate.
    + exfalso.
      destruct (negb (empty (cgroup_path payload)));
        [destruct (ScopedCgroup_new c (cgroup_path payload));
         [destruct (IsCgroupV2 c)|]|];
        try discriminate; injection Hc as <-; discriminate.
Qed.

(** C1 (code defect). On a v1 host with a 64 MiB limit and
    [memory.failcnt = 1], [ru_maxrss] (a count of KiB) receives the limit in
    bytes, 67108864, not its KiB equivalent 65536; after the multiplication
    by 1024 the record shows [mem:68719476736], 1024 times the limit. *)
Theorem reconcile_memory_stores_bytes :
  let o := MetaInit lookup_sample payload_sample cgroups_v1_memory 2
             env_failcnt in
  memory_limit_in_bytes payload_sample = 67108864 /\
  ru_maxrss (init_usage (reconciled o)) = 67108864 /\
  nth 3 (lines (meta_file o)) ""%string = "mem:68719476736"%string /\
  68719476736 = 1024 * memory_limit_in_bytes payload_sample.
Proof. vm_compute. repeat split; reflexivity. Qed.

(** ** The supervise loop *)

(** A stop at the head of the answers of [wait3] is handled, and the drain
    goes on with the next answer. *)
Lemma drain_wait3_stop child_pid w ws s :
  0 < w_pid w -> Wait.WIFSTOPPED (w_status w) = true ->
  drain_wait3 child_pid (w :: ws) s =
  drain_wait3 child_pid ws
    (handle_stop (w_pid w) (w_status w) (w_getsiginfo w) s).
Proof.
  intros Hpid Hstop. cbn [drain_wait3].
  destruct (Z.gtb_spec (w_pid w) 0); [|lia].
  now rewrite Hstop.
Qed.

(** C9 (as amended). A ptrace stop reported by [wait3] in the supervise
    loop is dispatched on its stop signal: SIGSTOP and SIGTRAP are swallowed
    ([PTRACE_CONT] with signal 0); SIGXCPU and SIGXFSZ are recorded as
    [init_exitsignal] and the process is sent SIGKILL; SIGSYS has its
    syscall number read and recorded as [init_exitsyscall] and the process
    is sent SIGKILL; every other stop is continued with the original
    signal. *)
Theorem drain_wait3_stop_dispatch (child_pid : Z) (w : wait3_result)
  (ws : list wait3_result) (s : locals) :
  0 < w_pid w -> Wait.WIFSTOPPED (w_status w) = true ->
  let pid := w_pid w in
  let sig := Wait.WSTOPSIG (w_status w) in
  let s0 := after_attach pid s in
  exists s',
    drain_wait3 child_pid (w :: ws) s = drain_wait3 child_pid ws s' /\
    (sig = Sig.SIGSTOP \/ sig = Sig.SIGTRAP ->
     s' = emit (PtraceCont pid 0) s0) /\
    (sig = Sig.SIGXCPU \/ sig = Sig.SIGXFSZ ->
     s' = emit (Kill pid Sig.SIGKILL) (set_init_exitsignal sig s0)) /\
    (sig = Sig.SIGSYS ->
     trace s' = trace s0 ++ [PtraceGetSiginfo pid; Kill pid Sig.SIGKILL] /\
     init_exitsyscall s' = match w_getsiginfo w with
                           | Some nr => nr
                           | None => info_si_syscall s
                           end /\
     init_exitsignal s' = init_exitsignal s) /\
    (sig <> Sig.SIGSTOP -> sig <> Sig.SIGTRAP -> sig <> Sig.SIGXCPU ->
     sig <> Sig.SIGXFSZ -> sig <> Sig.SIGSYS ->
     s' = emit (PtraceCont pid sig) s0).
Proof.
  intros Hpid Hstop. cbv zeta.
  exists (handle_stop (w_pid w) (w_status w) (w_getsiginfo w) s).
  split; [apply drain_wait3_stop; assumption|].
  unfold handle_stop, after_attach.
  replace (if negb (attached s)
           then set_attached (emit (PtraceSetOptions (w_pid w)) s) else s)
    with (if attached s then s
          else set_attached (emit (PtraceSetOptions (w_pid w)) s))
    by (destruct (attached s); reflexivity).
  set (s0 := if attached s then s else _).
  assert (Hinfo : info_si_syscall s0 = info_si_syscall s /\
                  init_exitsignal s0 = init_exitsignal s)
    by (subst s0; destruct (attached s); split; reflexivity).
  destruct Hinfo as [Hinfo Hsg0].
  generalize dependent s0. intros s0 Hinfo Hsg0.
  set (sig := Wait.WSTOPSIG (w_status w)).
  split; [|split; [|split]].
  - intros [H|H]; rewrite H; reflexivity.
  - intros [H|H]; rewrite H; reflexivity.
  - intros H; rewrite H. cbn [Z.eqb Sig.SIGSYS Pos.eqb].
    destruct (w_getsiginfo w); cbn; rewrite <- ?app_assoc, ?Hinfo, ?Hsg0;
      repeat split; reflexivity.
  - intros H1 H2 H3 H4 H5.
    destruct (Z.eqb_spec sig Sig.SIGSYS); [contradiction|].
    destruct (Z.eqb_spec sig Sig.SIGXCPU); [contradiction|].
    destruct (Z.eqb_spec sig Sig.SIGXFSZ); [contradiction|].
    destruct (Z.eqb_spec sig Sig.SIGSTOP); [contradiction|].
    destruct (Z.eqb_spec sig Sig.SIGTRAP); [contradiction|].
    reflexivity.
Qed.

(** A stop on SIGXFSZ, the first stop of pid 2. *)
Lemma drain_wait3_stop_dispatch_witness :
  snd (drain_wait3 2 [stopped 2 Sig.SIGXFSZ None]
         (parent_start env_xfsz_then_deadline)) =
  emit (Kill 2 Sig.SIGKILL)
    (set_init_exitsignal Sig.SIGXFSZ
       (after_attach 2 (parent_start env_xfsz_then_deadline))).
Proof.
  destruct (drain_wait3_stop_dispatch 2 (stopped 2 Sig.SIGXFSZ None) []
              (parent_start env_xfsz_then_deadline))
    as (s' & Hdrain & _ & Hlimit & _).
  - reflexivity.
  - reflexivity.
  - rewrite Hdrain. cbn [drain_wait3 snd].
    apply Hlimit. right. reflexivity.
Defined.

(** C9, the claim as stated fails: SIGSYS is none of SIGSTOP, SIGTRAP,
    SIGXCPU, SIGXFSZ, yet a SIGSYS stop is not continued with the original
    signal: the process is sent SIGKILL and no [PTRACE_CONT] is issued. *)
Lemma sigsys_stop_not_continued :
  Sig.SIGSYS <> Sig.SIGSTOP /\ Sig.SIGSYS <> Sig.SIGTRAP /\
  Sig.SIGSYS <> Sig.SIGXCPU /\ Sig.SIGSYS <> Sig.SIGXFSZ /\
  trace (snd (drain_wait3 2 [stopped 2 Sig.SIGSYS (Some 59)]
                (parent_start env_tracer_and_observer))) =
    [PtraceSetOptions 2; PtraceGetSiginfo 2; Kill 2 Sig.SIGKILL] /\
  ~ In (PtraceCont 2 Sig.SIGSYS)
       (trace (snd (drain_wait3 2 [stopped 2 Sig.SIGSYS (Some 59)]
                      (parent_start env_tracer_and_observer)))).
Proof.
  repeat split; try discriminate.
  vm_compute. intros [H | [H | [H | []]]]; discriminate.
Qed.

(** *** Fields the later steps leave alone *)

Lemma handle_stop_socket pid status gi s :
  sigsys_socket_fd (handle_stop pid status gi s) = sigsys_socket_fd s.
Proof.
  unfold handle_stop.
  destruct (attached s); cbn [negb];
    destruct (_ =? Sig.SIGSYS);
    [destruct gi; reflexivity| |destruct gi; reflexivity|];
    destruct (_ || _); try reflexivity;
    destruct (_ || _); reflexivity.
Qed.

Lemma drain_wait3_socket child_pid ws s :
  sigsys_socket_fd (snd (drain_wait3 child_pid ws s)) = sigsys_socket_fd s.
Proof.
  revert s. induction ws as [|w ws IH]; intros s; [reflexivity|].
  cbn [drain_wait3].
  destruct (w_pid w >? 0); [|reflexivity].
  destruct (Wait.WIFSTOPPED (w_status w)).
  - rewrite IH. apply handle_stop_socket.
  - destruct (w_pid w =? child_pid); rewrite IH; reflexivity.
Qed.

Lemma supervise_socket clk deadline child_pid sigs ws s :
  sigsys_socket_fd (snd (supervise clk deadline child_pid sigs ws s)) =
  sigsys_socket_fd s.
Proof.
  revert ws s. induction sigs as [|sg sigs IH]; intros ws s; [reflexivity|].
  cbn [supervise].
  destruct (sw_ret sg =? -1); [reflexivity|].
  pose proof (drain_wait3_socket child_pid ws
                (set_info (sw_si_syscall sg)
                   (emit (SigTimedWait (TimespecSub deadline (t s))) s)))
    as Hd.
  destruct (drain_wait3 child_pid ws _) as [ws' s'].
  cbn [snd] in Hd.
  destruct (negb _ && _); [rewrite IH|]; exact Hd.
Qed.

Lemma sweep_keeps child_pid ws s :
  sigsys_socket_fd (snd (sweep child_pid ws s)) = sigsys_socket_fd s /\
  init_exitsignal (snd (sweep child_pid ws s)) = init_exitsignal s /\
  init_exitsyscall (snd (sweep child_pid ws s)) = init_exitsyscall s.
Proof.
  revert s. induction ws as [|w ws IH]; intros s; [repeat split|].
  cbn [sweep].
  destruct (w_pid w >? 0); [|repeat split].
  destruct (init_exited s || negb (w_pid w =? child_pid)); [apply IH|].
  destruct (IH (set_init_exit (w_status w) (w_usage w) s)) as (H1 & H2 & H3).
  rewrite H1, H2, H3. repeat split.
Qed.

Lemma observer_drain_keeps_signal o s :
  init_exitsignal (observer_drain o s) = init_exitsignal s.
Proof.
  unfold observer_drain.
  destruct (valid_fd _); [|reflexivity].
  destruct (ReceiveExitSyscall _ o); reflexivity.
Qed.

Lemma reconcile_memory_keeps payload cg f s :
  init_exitsignal (reconcile_memory payload cg f s) = init_exitsignal s /\
  init_exitsyscall (reconcile_memory payload cg f s) = init_exitsyscall s /\
  init_exitstatus (reconcile_memory payload cg f s) = init_exitstatus s.
Proof.
  unfold reconcile_memory.
  destruct (memory_cgroup cg); [|repeat split].
  destruct f as [failcnt|]; [|repeat split].
  destruct (failcnt >? 0); repeat split.
Qed.

Lemma reconciled_emit_meta lookup payload t1 s :
  reconciled (emit_meta lookup payload t1 s) = s.
Proof.
  unfold emit_meta. destruct (write_verdict lookup _ _ _); reflexivity.
Qed.

(** ** Reconciliation over a whole run *)

Section RunFacts.

Variable lookup : Z -> option string.
Variable payload : InitPayload.
Variable cg : cgroups.
Variable child_pid : Z.
Variable env : environment.

(** After the loop come the deadline check, the final kill and the sweep. *)
Lemma supervised_after_loop :
  exists ws,
    supervised payload child_pid env =
    snd (sweep child_pid ws
           (emit (Kill (if payload_disable_sandboxing payload
                        then - child_pid else -1) Sig.SIGKILL)
              (deadline_check (deadline_of payload env)
                 (after_loop payload child_pid env)))).
Proof.
  unfold supervised, after_loop, deadline_of.
  destruct (supervise _ _ _ _ _ _) as [ws s]. exists ws. reflexivity.
Qed.

Lemma MetaInit_reconciled :
  reconciled (MetaInit lookup payload cg child_pid env) =
  reconcile_memory payload cg (failcnt_read env)
    (observer_drain (obs env) (supervised payload child_pid env)).
Proof. unfold MetaInit. cbv zeta. apply reconciled_emit_meta. Qed.

(** The socket is given up before the loop or not at all. *)
Lemma supervised_socket :
  sigsys_socket_fd (supervised payload child_pid env) =
  if valid_fd (pidfd_open_res env) && negb (SendFD_res env)
  then -1 else kSigsysNotificationFd.
Proof.
  destruct supervised_after_loop as [ws ->].
  destruct (sweep_keeps child_pid ws
              (emit (Kill (if payload_disable_sandboxing payload
                           then - child_pid else -1) Sig.SIGKILL)
                 (deadline_check (deadline_of payload env)
                    (after_loop payload child_pid env)))) as [-> _].
  cbn [emit sigsys_socket_fd].
  unfold deadline_check.
  destruct (_ >=? 0); cbn [set_init_exitsignal sigsys_socket_fd];
    unfold after_loop; rewrite supervise_socket; reflexivity.
Qed.

(** C2 (as amended). The deadline check assigns [SIGXCPU] to
    [init_exitsignal] whenever the last clock reading of the loop is at or
    past the deadline, whatever signal the loop recorded; that assignment is
    the recorded cause of the run.  A signal recorded in the loop remains
    the recorded cause exactly when that reading is before the deadline. *)
Theorem deadline_check_overrides :
  let deadline := deadline_of payload env in
  let looped := after_loop payload child_pid env in
  let final := reconciled (MetaInit lookup payload cg child_pid env) in
  (TimespecCmp (t looped) deadline >= 0 ->
   init_exitsignal final = Sig.SIGXCPU) /\
  (TimespecCmp (t looped) deadline < 0 ->
   init_exitsignal final = init_exitsignal looped).
Proof.
  cbv zeta. rewrite MetaInit_reconciled.
  destruct (reconcile_memory_keeps payload cg (failcnt_read env)
              (observer_drain (obs env) (supervised payload child_pid env)))
    as [-> _].
  rewrite observer_drain_keeps_signal.
  destruct supervised_after_loop as [ws ->].
  destruct (sweep_keeps child_pid ws
              (emit (Kill (if payload_disable_sandboxing payload
                           then - child_pid else -1) Sig.SIGKILL)
                 (deadline_check (deadline_of payload env)
                    (after_loop payload child_pid env)))) as (_ & -> & _).
  cbn [emit init_exitsignal]. unfold deadline_check.
  split; intros H.
  - destruct (Z.geb_spec (TimespecCmp (t (after_loop payload child_pid env))
                            (deadline_of payload env)) 0); [reflexivity|lia].
  - destruct (Z.geb_spec (TimespecCmp (t (after_loop payload child_pid env))
                            (deadline_of payload env)) 0); [lia|reflexivity].
Qed.

(** C5 (as amended). When the parent still holds the observer socket and
    the observer read yields a syscall number, that number is the recorded
    [init_exitsyscall] of the run, whether or not the loop had recorded one;
    when the read yields no value, or the socket was given up, the value
    the loop recorded stays. *)
Theorem observer_drain_overwrites :
  let looped := supervised payload child_pid env in
  let final := reconciled (MetaInit lookup payload cg child_pid env) in
  (valid_fd (pidfd_open_res env) && negb (SendFD_res env) = false ->
   forall v,
     ReceiveExitSyscall kSigsysNotificationFd (obs env) = Some v ->
     init_exitsyscall final = v) /\
  (ReceiveExitSyscall kSigsysNotificationFd (obs env) = None ->
   init_exitsyscall final = init_exitsyscall looped) /\
  (valid_fd (pidfd_open_res env) && negb (SendFD_res env) = true ->
   init_exitsyscall final = init_exitsyscall looped).
Proof.
  cbv zeta. rewrite MetaInit_reconciled.
  destruct (reconcile_memory_keeps payload cg (failcnt_read env)
              (observer_drain (obs env) (supervised payload child_pid env)))
    as (_ & -> & _).
  unfold observer_drain. rewrite supervised_socket.
  split; [|split].
  - intros -> v Hv. cbn [valid_fd kSigsysNotificationFd Z.leb Z.compare].
    rewrite Hv. reflexivity.
  - intros Hn.
    destruct (valid_fd (pidfd_open_res env) && negb (SendFD_res env)).
    + reflexivity.
    + cbn [valid_fd kSigsysNotificationFd Z.leb Z.compare].
      rewrite Hn. reflexivity.
  - intros ->. reflexivity.
Qed.

End RunFacts.

(** A SIGXFSZ stop recorded in the loop, with the last reading past the
    deadline and with the last reading before it. *)
Lemma deadline_check_overrides_witness :
  init_exitsignal
    (reconciled (MetaInit lookup_sample payload_sample no_cgroups 2
                   env_xfsz_then_deadline)) = Sig.SIGXCPU /\
  init_exitsignal
    (reconciled (MetaInit lookup_sample payload_sample no_cgroups 2
                   env_xfsz_in_time)) =
  init_exitsignal (after_loop payload_sample 2 env_xfsz_in_time).
Proof.
  split.
  - apply (proj1 (deadline_check_overrides lookup_sample payload_sample
                    no_cgroups 2 env_xfsz_then_deadline)).
    vm_compute. discriminate.
  - apply (proj2 (deadline_check_overrides lookup_sample payload_sample
                    no_cgroups 2 env_xfsz_in_time)).
    vm_compute. reflexivity.
Defined.

(** C2, the claim as stated fails: the loop records SIGXFSZ from a ptrace
    stop, the child's death is reaped after the deadline, and the deadline
    check replaces the recorded SIGXFSZ with SIGXCPU, which is the verdict
    written. *)
Lemma deadline_replaces_sigxfsz :
  init_exitsignal (after_loop payload_sample 2 env_xfsz_then_deadline) =
    Sig.SIGXFSZ /\
  init_exitsignal
    (reconciled (MetaInit lookup_sample payload_sample no_cgroups 2
                   env_xfsz_then_deadline)) = Sig.SIGXCPU /\
  lines (meta_file (MetaInit lookup_sample payload_sample no_cgroups 2
                      env_xfsz_then_deadline)) =
  [ "time:1500"; "time-sys:300"; "time-wall:1300000"; "mem:2097152";
    "signal:SIGXCPU" ]%string.
Proof. vm_compute. repeat split; reflexivity. Qed.

(** The tracer recorded syscall 59 and the observer reports 165. *)
Lemma observer_drain_overwrites_witness :
  init_exitsyscall
    (reconciled (MetaInit lookup_sample payload_sample no_cgroups 2
                   env_tracer_and_observer)) = 165.
Proof.
  apply (proj1 (observer_drain_overwrites lookup_sample payload_sample
                  no_cgroups 2 env_tracer_and_observer));
    reflexivity.
Defined.

(** C5, the claim as stated fails: [init_exitsyscall] is 59 when the loop
    is left (set by the tracer at the SIGSYS stop), the observer read
    yields 165, and the drain overwrites 59 with 165. *)
Lemma observer_overwrites_tracer_value :
  init_exitsyscall (supervised payload_sample 2 env_tracer_and_observer) = 59 /\
  ReceiveExitSyscall kSigsysNotificationFd (obs env_tracer_and_observer) =
    Some 165 /\
  init_exitsyscall
    (reconciled (MetaInit lookup_sample payload_sample no_cgroups 2
                   env_tracer_and_observer)) = 165 /\
  lines (meta_file (MetaInit lookup_sample payload_sample no_cgroups 2
                      env_tracer_and_observer)) =
  [ "time:1500"; "time-sys:300"; "time-wall:300000"; "mem:2097152";
    "signal:SIGSYS"; "syscall:mount" ]%string.
Proof. vm_compute. repeat split; reflexivity. Qed.

(** ** Sample runs

    The end-to-end scenarios of the specification, run through
    [MetaInit]. *)

Example run_exit_0 :
  lines (meta_file (MetaInit lookup_sample payload_sample no_cgroups 2
                      (env_exits 0))) =
  [ "time:1500"; "time-sys:300"; "time-wall:300000"; "mem:2097152";
    "status:0" ]%string.
Proof. vm_compute. reflexivity. Qed.

Example run_exit_7 :
  lines (meta_file (MetaInit lookup_sample payload_sample no_cgroups 2
                      (env_exits 7))) =
  [ "time:1500"; "time-sys:300"; "time-wall:300000"; "mem:2097152";
    "status:7" ]%string /\
  exit_code (MetaInit lookup_sample payload_sample no_cgroups 2
               (env_exits 7)) = 7.
Proof. vm_compute. split; reflexivity. Qed.

Example run_busy_loop :
  lines (meta_file (MetaInit lookup_sample payload_sample no_cgroups 2
                      env_busy_loop)) =
  [ "time:1500"; "time-sys:300"; "time-wall:1000002"; "mem:2097152";
    "signal:SIGXCPU" ]%string /\
  trace (reconciled (MetaInit lookup_sample payload_sample no_cgroups 2
                       env_busy_loop)) =
  [ SigTimedWait {| tv_sec := 1; tv_nsec := 0 |}; Kill (-1) Sig.SIGKILL ].
Proof. vm_compute. split; reflexivity. Qed.

Example run_file_size_limit :
  lines (meta_file (MetaInit lookup_sample payload_sample no_cgroups 2
                      env_xfsz_in_time)) =
  [ "time:1500"; "time-sys:300"; "time-wall:800000"; "mem:2097152";
    "signal:SIGXFSZ" ]%string.
Proof. vm_compute. reflexivity. Qed.

(** * Further properties *)

(** ** Clock arithmetic, continued *)

(** X1. On normalized values [TimespecCmp] is the order of the instants:
    it returns -1, 0 or 1 as the first instant is before, at or after the
    second, it returns 0 only on equal pairs, and swapping the arguments
    negates the result. *)
Theorem TimespecCmp_order (a b : timespec) :
  normalized a -> normalized b ->
  (TimespecCmp a b = -1 <-> to_nsec a < to_nsec b) /\
  (TimespecCmp a b = 0 <-> to_nsec a = to_nsec b) /\
  (TimespecCmp a b = 1 <-> to_nsec a > to_nsec b) /\
  (TimespecCmp a b = 0 <-> a = b) /\
  TimespecCmp b a = - TimespecCmp a b.
Proof.
  destruct a as [sa na], b as [sb nb].
  unfold normalized, to_nsec, NSEC_PER_SEC, TimespecCmp; simpl.
  intros Ha Hb.
  destruct (Z.ltb_spec sa sb); destruct (Z.gtb_spec sa sb);
    destruct (Z.ltb_spec sb sa); destruct (Z.gtb_spec sb sa); try lia;
    destruct (Z.ltb_spec na nb); destruct (Z.gtb_spec na nb);
    destruct (Z.ltb_spec nb na); destruct (Z.gtb_spec nb na); try lia;
    repeat split; intros; try lia; try discriminate;
    try (match goal with H : _ = _ :> timespec |- _ => injection H; lia end);
    try (f_equal; lia).
Qed.

Lemma TimespecCmp_order_witness :
  TimespecCmp half_second {| tv_sec := 1; tv_nsec := 0 |} = -1 <->
  to_nsec half_second < to_nsec {| tv_sec := 1; tv_nsec := 0 |}.
Proof.
  apply (TimespecCmp_order half_second {| tv_sec := 1; tv_nsec := 0 |});
    unfold normalized, NSEC_PER_SEC; simpl; lia.
Defined.

(** The sum [TimespecAdd] returns denotes the right instant also when it
    is left unnormalized. *)
Lemma TimespecAdd_instant (a b : timespec) :
  normalized a -> normalized b -> sec_in_range a -> sec_in_range b ->
  to_nsec (TimespecAdd a b) = to_nsec a + to_nsec b /\
  tv_sec (TimespecAdd a b) * NSEC_PER_SEC <= to_nsec a + to_nsec b /\
  0 <= tv_nsec (TimespecAdd a b) <= NSEC_PER_SEC.
Proof.
  destruct a as [sa na], b as [sb nb].
  unfold normalized, sec_in_range, to_nsec, NSEC_PER_SEC; simpl.
  intros Ha Hb Hra Hrb.
  unfold TimespecAdd, Int.long_sub, Int.long_add; simpl.
  unwrap64.
  destruct (Z.gtb_spec (na + nb) 1000000000); simpl; unwrap64; lia.
Qed.

(** X2. The deadline test of the supervise loop is exact: for a normalized
    start, limit and clock reading, [TimespecCmp(&t, &deadline) < 0] holds
    exactly when the reading is before start + limit, also when
    [TimespecAdd] left the deadline with [tv_nsec = 10^9]. *)
Theorem deadline_test_exact (payload : InitPayload) (env : environment)
  (now : timespec) :
  normalized (clock env 0%nat) -> normalized (timeout payload) ->
  sec_in_range (clock env 0%nat) -> sec_in_range (timeout payload) ->
  normalized now ->
  (TimespecCmp now (deadline_of payload env) < 0 <->
   to_nsec now < to_nsec (clock env 0%nat) + to_nsec (timeout payload)).
Proof.
  intros H0 Ht R0 Rt Hn. unfold deadline_of.
  destruct (TimespecAdd_instant _ _ H0 Ht R0 Rt) as (Hsum & _ & Hns).
  rewrite <- Hsum.
  destruct (TimespecAdd (clock env 0%nat) (timeout payload)) as [sd nd].
  destruct now as [sn nn].
  unfold normalized, to_nsec, NSEC_PER_SEC, TimespecCmp in *; simpl in *.
  destruct (Z.ltb_spec sn sd); destruct (Z.gtb_spec sn sd); try lia;
    destruct (Z.ltb_spec nn nd); destruct (Z.gtb_spec nn nd); lia.
Qed.

(** A start at 100.5 s and a limit of 0.5 s: the deadline is left at
    [(100, 10^9)], and a reading of 100.999999999 s is before it. *)
Lemma deadline_test_exact_witness :
  TimespecCmp {| tv_sec := 100; tv_nsec := 999999999 |}
    (deadline_of
       {| payload_disable_sandboxing := false; cgroup_path := "";
          memory_limit_in_bytes := -1; vm_memory_size_in_bytes := 0;
          timeout := half_second |}
       {| clock := clock_from [ {| tv_sec := 100; tv_nsec := 500000000 |} ];
          pidfd_open_res := 7; SendFD_res := true; sigtimedwaits := [];
          wait3s := []; obs := obs_eof; failcnt_read := None |}) < 0 <->
  to_nsec {| tv_sec := 100; tv_nsec := 999999999 |} <
  to_nsec {| tv_sec := 100; tv_nsec := 500000000 |} + to_nsec half_second.
Proof.
  apply (deadline_test_exact
           {| payload_disable_sandboxing := false; cgroup_path := "";
              memory_limit_in_bytes := -1; vm_memory_size_in_bytes := 0;
              timeout := half_second |}
           {| clock := clock_from [ {| tv_sec := 100; tv_nsec := 500000000 |} ];
              pidfd_open_res := 7; SendFD_res := true; sigtimedwaits := [];
              wait3s := []; obs := obs_eof; failcnt_read := None |}
           {| tv_sec := 100; tv_nsec := 999999999 |});
    unfold normalized, sec_in_range, NSEC_PER_SEC; simpl; lia.
Defined.

(** X3. [main] turns a wall-time limit in milliseconds into a normalized
    [(sec, nsec)] pair that denotes the same duration. *)
Theorem wall_timeout_normalized (msec : Z) :
  0 <= msec < 2 ^ 63 ->
  normalized (wall_timeout msec) /\
  sec_in_range (wall_timeout msec) /\
  to_nsec (wall_timeout msec) = msec * 1000000.
Proof.
  intros H. unfold wall_timeout, normalized, sec_in_range, to_nsec,
    NSEC_PER_SEC, Int.long_mul; simpl.
  rewrite Z.quot_div_nonneg, Z.rem_mod_nonneg by lia.
  pose proof (Z.mod_pos_bound msec 1000 ltac:(lia)) as Hm.
  pose proof (Z.div_mod msec 1000 ltac:(lia)) as Hd.
  assert (0 <= msec / 1000 < 2 ^ 61).
  { split; [apply Z.div_pos; lia|].
    apply Z.div_lt_upper_bound; lia. }
  unwrap64. lia.
Qed.

Lemma wall_timeout_normalized_witness :
  normalized (wall_timeout 1500) /\
  sec_in_range (wall_timeout 1500) /\
  to_nsec (wall_timeout 1500) = 1500 * 1000000.
Proof. apply (wall_timeout_normalized 1500). lia. Defined.

(** ** The calls of a run *)

(** What a stop adds to the trace: the options request on the first stop,
    then the requests of the dispatch. *)
Lemma handle_stop_trace pid status gi s :
  exists body,
    trace (handle_stop pid status gi s) =
      trace s ++ (if attached s then [] else [PtraceSetOptions pid]) ++ body /\
    attached (handle_stop pid status gi s) = true /\
    (body = [PtraceGetSiginfo pid; Kill pid Sig.SIGKILL] \/
     body = [Kill pid Sig.SIGKILL] \/
     exists sig, body = [PtraceCont pid sig]).
Proof.
  unfold handle_stop.
  destruct (attached s) eqn:Ha; cbn [negb].
  - destruct (Wait.WSTOPSIG status =? Sig.SIGSYS).
    + exists [PtraceGetSiginfo pid; Kill pid Sig.SIGKILL].
      destruct gi; cbn; rewrite Ha, <- app_assoc; auto.
    + destruct (_ || _).
      * exists [Kill pid Sig.SIGKILL]. cbn. rewrite Ha. auto.
      * destruct (_ || _);
          [exists [PtraceCont pid 0]
          |exists [PtraceCont pid (Wait.WSTOPSIG status)]];
          cbn; rewrite Ha;
          (split; [reflexivity|split; [reflexivity|]]);
          right; right; eexists; reflexivity.
  - destruct (Wait.WSTOPSIG status =? Sig.SIGSYS).
    + exists [PtraceGetSiginfo pid; Kill pid Sig.SIGKILL].
      destruct gi; cbn; rewrite <- !app_assoc; auto.
    + destruct (_ || _).
      * exists [Kill pid Sig.SIGKILL]. cbn. rewrite <- !app_assoc. auto.
      * destruct (_ || _);
          [exists [PtraceCont pid 0]
          |exists [PtraceCont pid (Wait.WSTOPSIG status)]];
          cbn; rewrite <- !app_assoc;
          (split; [reflexivity|split; [reflexivity|]]);
          right; right; eexists; reflexivity.
Qed.

Lemma handle_stop_discipline pid status gi s :
  0 < pid ->
  Forall kills_one_process (trace s) -> traced_once s ->
  Forall kills_one_process (trace (handle_stop pid status gi s)) /\
  traced_once (handle_stop pid status gi s).
Proof.
  intros Hpid Hk Ht.
  destruct (handle_stop_trace pid status gi s) as (body & Htr & Hatt & Hbody).
  unfold traced_once in *. rewrite Hatt, Htr.
  assert (Hkb : Forall kills_one_process body).
  { destruct Hbody as [-> | [-> | [sig ->]]]; repeat constructor; auto. }
  assert (Hsb : filter is_setoptions (filter is_ptrace body) = []).
  { destruct Hbody as [-> | [-> | [sig ->]]]; reflexivity. }
  split.
  - apply Forall_app. split; [assumption|].
    apply Forall_app. split; [destruct (attached s); repeat constructor|].
    assumption.
  - rewrite !filter_app.
    destruct (attached s).
    + destruct Ht as (p0 & rest & Hf & Hr). rewrite Hf. cbn [filter app].
      exists p0, (rest ++ filter is_ptrace body). split; [reflexivity|].
      rewrite filter_app, Hr, Hsb. reflexivity.
    + rewrite Ht. cbn [filter is_ptrace app].
      exists pid, (filter is_ptrace body). split; [reflexivity|exact Hsb].
Qed.

Lemma emit_sigtimedwait_discipline ts s :
  Forall kills_one_process (trace s) -> traced_once s ->
  Forall kills_one_process (trace (emit (SigTimedWait ts) s)) /\
  traced_once (emit (SigTimedWait ts) s).
Proof.
  intros Hk Ht. split.
  - cbn. apply Forall_app. split; [assumption|repeat constructor].
  - unfold traced_once in *. cbn. rewrite filter_app. cbn.
    rewrite app_nil_r. exact Ht.
Qed.

Lemma drain_wait3_discipline child_pid ws s :
  Forall kills_one_process (trace s) -> traced_once s ->
  Forall kills_one_process (trace (snd (drain_wait3 child_pid ws s))) /\
  traced_once (snd (drain_wait3 child_pid ws s)).
Proof.
  revert s. induction ws as [|w ws IH]; intros s Hk Ht; [auto|].
  cbn [drain_wait3].
  destruct (Z.gtb_spec (w_pid w) 0) as [Hpid|]; [|auto].
  destruct (Wait.WIFSTOPPED (w_status w)).
  - destruct (handle_stop_discipline (w_pid w) (w_status w) (w_getsiginfo w)
                s ltac:(lia) Hk Ht) as [Hk' Ht'].
    apply IH; assumption.
  - destruct (w_pid w =? child_pid); apply IH; assumption.
Qed.

Lemma supervise_discipline clk deadline child_pid sigs ws s :
  Forall kills_one_process (trace s) -> traced_once s ->
  Forall kills_one_process
    (trace (snd (supervise clk deadline child_pid sigs ws s))) /\
  traced_once (snd (supervise clk deadline child_pid sigs ws s)).
Proof.
  revert ws s. induction sigs as [|sg sigs IH]; intros ws s Hk Ht.
  - apply (emit_sigtimedwait_discipline (TimespecSub deadline (t s)) s Hk Ht).
  - cbn [supervise].
    destruct (emit_sigtimedwait_discipline (TimespecSub deadline (t s)) s
                Hk Ht) as [Hk1 Ht1].
    destruct (sw_ret sg =? -1); [split; assumption|].
    destruct (drain_wait3_discipline child_pid ws
                (set_info (sw_si_syscall sg)
                   (emit (SigTimedWait (TimespecSub deadline (t s))) s))
                Hk1 Ht1) as [Hk2 Ht2].
    destruct (drain_wait3 child_pid ws _) as [ws' s2]. cbn [snd] in Hk2, Ht2.
    destruct (negb _ && _); [apply IH|]; auto.
Qed.

Lemma drain_wait3_extends child_pid ws s :
  exists l, trace (snd (drain_wait3 child_pid ws s)) = trace s ++ l.
Proof.
  revert s. induction ws as [|w ws IH]; intros s.
  - exists []. cbn. now rewrite app_nil_r.
  - cbn [drain_wait3].
    destruct (w_pid w >? 0); [|exists []; cbn; now rewrite app_nil_r].
    destruct (Wait.WIFSTOPPED (w_status w)).
    + destruct (handle_stop_trace (w_pid w) (w_status w) (w_getsiginfo w) s)
        as (body & Htr & _).
      destruct (IH (handle_stop (w_pid w) (w_status w) (w_getsiginfo w) s))
        as [l Hl].
      rewrite Hl, Htr, <- !app_assoc. eexists. reflexivity.
    + destruct (w_pid w =? child_pid).
      * destruct (IH (set_init_exit (w_status w) (w_usage w) s)) as [l Hl].
        exists l. exact Hl.
      * apply IH.
Qed.

(** The loop starts with a [sigtimedwait] for the time left to the
    deadline. *)
Lemma supervise_first clk deadline child_pid sigs ws s :
  exists l,
    trace (snd (supervise clk deadline child_pid sigs ws s)) =
    trace s ++ SigTimedWait (TimespecSub deadline (t s)) :: l.
Proof.
  revert ws s. induction sigs as [|sg sigs IH]; intros ws s.
  - exists []. reflexivity.
  - cbn [supervise].
    destruct (sw_ret sg =? -1); [exists []; reflexivity|].
    destruct (drain_wait3_extends child_pid ws
                (set_info (sw_si_syscall sg)
                   (emit (SigTimedWait (TimespecSub deadline (t s))) s)))
      as [l Hl].
    destruct (drain_wait3 child_pid ws _) as [ws' s2]. cbn [snd] in Hl.
    destruct (negb _ && _).
    + destruct (IH ws' (read_clock clk s2)) as [l' Hl'].
      rewrite Hl'. cbn [read_clock trace]. rewrite Hl. cbn [set_info emit trace].
      rewrite <- !app_assoc. cbn. eexists. reflexivity.
    + cbn [snd read_clock trace]. rewrite Hl. cbn [set_info emit trace].
      rewrite <- !app_assoc. cbn. eexists. reflexivity.
Qed.

Lemma sweep_trace child_pid ws s :
  trace (snd (sweep child_pid ws s)) = trace s.
Proof.
  revert s. induction ws as [|w ws IH]; intros s; [reflexivity|].
  cbn [sweep].
  destruct (w_pid w >? 0); [|reflexivity].
  destruct (init_exited s || negb (w_pid w =? child_pid)); rewrite IH;
    reflexivity.
Qed.

Lemma observer_drain_trace o s : trace (observer_drain o s) = trace s.
Proof.
  unfold observer_drain.
  destruct (valid_fd _); [|reflexivity].
  destruct (ReceiveExitSyscall _ o); reflexivity.
Qed.

Lemma reconcile_memory_trace payload cg f s :
  trace (reconcile_memory payload cg f s) = trace s.
Proof.
  unfold reconcile_memory.
  destruct (memory_cgroup cg); [|reflexivity].
  destruct f as [failcnt|]; [|reflexivity].
  destruct (failcnt >? 0); reflexivity.
Qed.

Lemma parent_start_discipline env :
  Forall kills_one_process (trace (parent_start env)) /\
  traced_once (parent_start env).
Proof. split; [constructor|reflexivity]. Qed.

Section RunCalls.

Variable lookup : Z -> option string.
Variable payload : InitPayload.
Variable cg : cgroups.
Variable child_pid : Z.
Variable env : environment.

(** The calls of a run are those of the loop followed by the final kill. *)
Lemma MetaInit_trace :
  trace (reconciled (MetaInit lookup payload cg child_pid env)) =
  trace (after_loop payload child_pid env) ++
  [Kill (if payload_disable_sandboxing payload then - child_pid else -1)
        Sig.SIGKILL].
Proof.
  rewrite MetaInit_reconciled, reconcile_memory_trace, observer_drain_trace.
  destruct (supervised_after_loop payload child_pid env) as [ws ->].
  rewrite sweep_trace. cbn [emit trace].
  unfold deadline_check. destruct (_ >=? 0); reflexivity.
Qed.

(** X4. Signals sent by the parent: inside the supervise loop it signals
    single processes only (a positive pid), and only with SIGKILL; the last
    call of every run is one more SIGKILL, sent to every process ([-1]) when
    sandboxed and to the child's process group ([-child_pid]) when not. *)
Theorem MetaInit_kills :
  trace (reconciled (MetaInit lookup payload cg child_pid env)) =
    trace (after_loop payload child_pid env) ++
    [Kill (if payload_disable_sandboxing payload then - child_pid else -1)
          Sig.SIGKILL] /\
  Forall kills_one_process (trace (after_loop payload child_pid env)) /\
  forall pid sig,
    In (Kill pid sig)
       (trace (reconciled (MetaInit lookup payload cg child_pid env))) ->
    sig = Sig.SIGKILL.
Proof.
  assert (Hk : Forall kills_one_process
                 (trace (after_loop payload child_pid env))).
  { unfold after_loop.
    apply supervise_discipline; apply parent_start_discipline. }
  split; [apply MetaInit_trace|]. split; [exact Hk|].
  intros pid sig Hin. rewrite MetaInit_trace in Hin.
  apply in_app_or in Hin. destruct Hin as [Hin | [Hin | []]].
  - rewrite Forall_forall in Hk. apply (Hk _ Hin).
  - now injection Hin.
Qed.

(** X5. Tracing options: in every run [PTRACE_SETOPTIONS] is requested at
    most once, and no other ptrace request comes before it. *)
Theorem MetaInit_sets_options_once :
  let requests :=
    filter is_ptrace
      (trace (reconciled (MetaInit lookup payload cg child_pid env))) in
  requests = [] \/
  exists pid rest,
    requests = PtraceSetOptions pid :: rest /\
    filter is_setoptions rest = [].
Proof.
  cbv zeta. rewrite MetaInit_trace, filter_app. cbn [filter is_ptrace].
  rewrite app_nil_r.
  assert (Ht : traced_once (after_loop payload child_pid env)).
  { unfold after_loop.
    apply supervise_discipline; apply parent_start_discipline. }
  unfold traced_once in Ht.
  destruct (attached (after_loop payload child_pid env)); [right|left];
    exact Ht.
Qed.

End RunCalls.

(** Subtracting the start from the deadline gives back the limit, also
    when the deadline was left unnormalized. *)
Lemma TimespecSub_TimespecAdd (a b : timespec) :
  normalized a -> normalized b -> sec_in_range a -> sec_in_range b ->
  TimespecSub (TimespecAdd a b) a = b.
Proof.
  destruct a as [sa na], b as [sb nb].
  unfold normalized, sec_in_range, NSEC_PER_SEC; simpl.
  intros Ha Hb Hra Hrb.
  unfold TimespecAdd, TimespecSub, Int.long_sub, Int.long_add; simpl.
  unwrap64.
  destruct (Z.gtb_spec (na + nb) 1000000000); simpl; unwrap64.
  - destruct (Z.ltb_spec (na + nb - 1000000000 - na) 0); [|lia].
    simpl. unwrap64. f_equal; lia.
  - destruct (Z.ltb_spec (na + nb - na) 0); [lia|].
    simpl. unwrap64. f_equal; lia.
Qed.

(** X6. The first call of every run is a [sigtimedwait] whose timeout is
    exactly the configured wall-time limit: [deadline - t0] gives the limit
    back for every normalized start and limit. *)
Theorem MetaInit_first_wait (lookup : Z -> option string)
  (payload : InitPayload) (cg : cgroups) (child_pid : Z)
  (env : environment) :
  normalized (clock env 0%nat) -> normalized (timeout payload) ->
  sec_in_range (clock env 0%nat) -> sec_in_range (timeout payload) ->
  exists rest,
    trace (reconciled (MetaInit lookup payload cg child_pid env)) =
    SigTimedWait (timeout payload) :: rest.
Proof.
  intros H0 Ht R0 Rt.
  rewrite MetaInit_trace. unfold after_loop.
  destruct (supervise_first (clock env) (deadline_of payload env) child_pid
              (sigtimedwaits env) (wait3s env) (parent_start env))
    as [l ->].
  cbn [parent_start trace t app]. unfold deadline_of.
  rewrite (TimespecSub_TimespecAdd _ _ H0 Ht R0 Rt).
  eexists. reflexivity.
Qed.

(** A limit of 1500 ms and a start at 100.75 s. *)
Lemma MetaInit_first_wait_witness :
  exists rest,
    trace (reconciled (MetaInit lookup_sample payload_1500ms no_cgroups 2
                         env_quarter_to)) =
    SigTimedWait {| tv_sec := 1; tv_nsec := 500000000 |} :: rest.
Proof.
  apply (MetaInit_first_wait lookup_sample payload_1500ms no_cgroups 2
           env_quarter_to);
    vm_compute; split; congruence.
Defined.

(** ** What a run records *)





Lemma handle_stop_keeps_exit pid status gi s :
  init_exited (handle_stop pid status gi s) = init_exited s /\
  init_exitstatus (handle_stop pid status gi s) = init_exitstatus s /\
  init_usage (handle_stop pid status gi s) = init_usage s.
Proof.
  unfold handle_stop.
  destruct (attached s); cbn [negb];
    (destruct (_ =? Sig.SIGSYS);
     [destruct gi; repeat split
     |destruct (_ || _); [repeat split|destruct (_ || _); repeat split]]).
Qed.

Lemma from_child_handle_stop child_pid answers pid status gi s :
  from_child child_pid answers s ->
  from_child child_pid answers (handle_stop pid status gi s).
Proof.
  unfold from_child.
  destruct (handle_stop_keeps_exit pid status gi s) as (-> & -> & ->).
  auto.
Qed.

Lemma drain_wait3_from_child child_pid answers ws s :
  incl ws answers -> from_child child_pid answers s ->
  incl (fst (drain_wait3 child_pid ws s)) answers /\
  from_child child_pid answers (snd (drain_wait3 child_pid ws s)).
Proof.
  revert s. induction ws as [|w ws IH]; intros s Hin Hs; [auto|].
  assert (Hw : In w answers) by (apply Hin; now left).
  assert (Hin' : incl ws answers)
    by (intros x Hx; apply Hin; now right).
  cbn [drain_wait3].
  destruct (w_pid w >? 0); [|auto].
  destruct (Wait.WIFSTOPPED (w_status w)).
  - apply IH; [assumption|]. apply from_child_handle_stop, Hs.
  - destruct (Z.eqb_spec (w_pid w) child_pid) as [Hpid|]; [|auto].
    apply IH; [assumption|]. right. split; [reflexivity|].
    exists w. auto.
Qed.

Lemma supervise_from_child clk deadline child_pid answers sigs ws s :
  incl ws answers -> from_child child_pid answers s ->
  incl (fst (supervise clk deadline child_pid sigs ws s)) answers /\
  from_child child_pid answers
    (snd (supervise clk deadline child_pid sigs ws s)).
Proof.
  revert ws s. induction sigs as [|sg sigs IH]; intros ws s Hin Hs; [auto|].
  cbn [supervise].
  destruct (sw_ret sg =? -1); [auto|].
  destruct (drain_wait3_from_child child_pid answers ws
              (set_info (sw_si_syscall sg)
                 (emit (SigTimedWait (TimespecSub deadline (t s))) s))
              Hin Hs) as [Hin2 Hs2].
  destruct (drain_wait3 child_pid ws _) as [ws' s2].
  cbn [fst snd] in Hin2, Hs2.
  destruct (negb _ && _); [apply IH|]; auto.
Qed.

Lemma sweep_from_child child_pid answers ws s :
  incl ws answers -> from_child child_pid answers s ->
  from_child child_pid answers (snd (sweep child_pid ws s)).
Proof.
  revert s. induction ws as [|w ws IH]; intros s Hin Hs; [auto|].
  assert (Hw : In w answers) by (apply Hin; now left).
  assert (Hin' : incl ws answers)
    by (intros x Hx; apply Hin; now right).
  cbn [sweep].
  destruct (w_pid w >? 0); [|auto].
  destruct (init_exited s) eqn:He; cbn [orb]; [auto|].
  destruct (Z.eqb_spec (w_pid w) child_pid) as [Hpid|]; cbn [negb]; [|auto].
  apply IH; [assumption|]. right. split; [reflexivity|].
  exists w. auto.
Qed.

(** Once the exit of the child is captured, the sweep leaves it alone. *)
Lemma sweep_keeps_exit child_pid ws s :
  init_exited s = true ->
  init_exited (snd (sweep child_pid ws s)) = true /\
  init_exitstatus (snd (sweep child_pid ws s)) = init_exitstatus s /\
  init_usage (snd (sweep child_pid ws s)) = init_usage s.
Proof.
  revert s. induction ws as [|w ws IH]; intros s He; [auto|].
  cbn [sweep].
  destruct (w_pid w >? 0); [|auto].
  rewrite He. cbn [orb]. apply IH, He.
Qed.

Lemma observer_drain_keeps_exit o s :
  init_exited (observer_drain o s) = init_exited s /\
  init_exitstatus (observer_drain o s) = init_exitstatus s /\
  init_usage (observer_drain o s) = init_usage s.
Proof.
  unfold observer_drain.
  destruct (valid_fd _); [|auto].
  destruct (ReceiveExitSyscall _ o); auto.
Qed.

Lemma reconcile_memory_usage payload cg f s :
  init_exited (reconcile_memory payload cg f s) = init_exited s /\
  ru_utime (init_usage (reconcile_memory payload cg f s)) =
    ru_utime (init_usage s) /\
  ru_stime (init_usage (reconcile_memory payload cg f s)) =
    ru_stime (init_usage s) /\
  (ru_maxrss (init_usage (reconcile_memory payload cg f s)) =
     ru_maxrss (init_usage s) \/
   ru_maxrss (init_usage (reconcile_memory payload cg f s)) =
     memory_limit_in_bytes payload).
Proof.
  unfold reconcile_memory.
  destruct (memory_cgroup cg); [|auto].
  destruct f as [failcnt|]; [|auto].
  destruct (failcnt >? 0); cbn; auto.
Qed.

Section RunRecords.

Variable lookup : Z -> option string.
Variable payload : InitPayload.
Variable cg : cgroups.
Variable child_pid : Z.
Variable env : environment.

Lemma supervised_from_child :
  from_child child_pid (wait3s env) (supervised payload child_pid env).
Proof.
  unfold supervised.
  destruct (supervise_from_child (clock env)
              (TimespecAdd (clock env 0%nat) (timeout payload)) child_pid
              (wait3s env) (sigtimedwaits env) (wait3s env)
              (parent_start env) (incl_refl _)) as [Hin Hs].
  { left. repeat split. }
  destruct (supervise _ _ _ _ _ _) as [ws s]. cbn [fst snd] in Hin, Hs.
  apply sweep_from_child; [exact Hin|].
  unfold from_child in *. cbn [emit init_exited init_exitstatus init_usage].
  unfold deadline_check. destruct (_ >=? 0); exact Hs.
Qed.

(** X8. The exit status and the CPU times of the record are those of the
    tracked child and of no other process: when the record is written they
    are the initial zeroes (the child was never reaped), or the status and
    the usage of one answer of [wait3] whose pid is [child_pid].  The
    terminations of other descendants never reach the record. *)
Theorem MetaInit_reports_child :
  let final := reconciled (MetaInit lookup payload cg child_pid env) in
  (init_exited final = false /\ init_exitstatus final = 0 /\
   ru_utime (init_usage final) = ru_utime rusage_zero /\
   ru_stime (init_usage final) = ru_stime rusage_zero) \/
  (init_exited final = true /\
   exists w, In w (wait3s env) /\ w_pid w = child_pid /\
             init_exitstatus final = w_status w /\
             ru_utime (init_usage final) = ru_utime (w_usage w) /\
             ru_stime (init_usage final) = ru_stime (w_usage w)).
Proof.
  cbv zeta. rewrite MetaInit_reconciled.
  destruct (reconcile_memory_usage payload cg (failcnt_read env)
              (observer_drain (obs env) (supervised payload child_pid env)))
    as (-> & -> & -> & _).
  destruct (reconcile_memory_keeps payload cg (failcnt_read env)
              (observer_drain (obs env) (supervised payload child_pid env)))
    as (_ & _ & ->).
  destruct (observer_drain_keeps_exit (obs env)
              (supervised payload child_pid env)) as (-> & -> & ->).
  destruct supervised_from_child as [(He & Hs & Hu) | (He & w & Hw)].
  - left. rewrite He, Hs, Hu. auto.
  - right. split; [exact He|]. exists w.
    destruct Hw as (Hin & Hpid & Hst & Hus). rewrite Hst, Hus. auto.
Qed.

(** X9. The first capture wins over the sweep: when the child's exit was
    captured inside the supervise loop, the answers that [wait3] gives after
    the final kill do not change the status or the CPU times reported. *)
Theorem MetaInit_sweep_keeps_capture :
  init_exited (after_loop payload child_pid env) = true ->
  let looped := after_loop payload child_pid env in
  let final := reconciled (MetaInit lookup payload cg child_pid env) in
  init_exitstatus final = init_exitstatus looped /\
  ru_utime (init_usage final) = ru_utime (init_usage looped) /\
  ru_stime (init_usage final) = ru_stime (init_usage looped).
Proof.
  intros He. cbv zeta. rewrite MetaInit_reconciled.
  destruct (reconcile_memory_usage payload cg (failcnt_read env)
              (observer_drain (obs env) (supervised payload child_pid env)))
    as (_ & -> & -> & _).
  destruct (reconcile_memory_keeps payload cg (failcnt_read env)
              (observer_drain (obs env) (supervised payload child_pid env)))
    as (_ & _ & ->).
  destruct (observer_drain_keeps_exit (obs env)
              (supervised payload child_pid env)) as (_ & -> & ->).
  destruct (supervised_after_loop payload child_pid env) as [ws ->].
  destruct (sweep_keeps_exit child_pid ws
              (emit (Kill (if payload_disable_sandboxing payload
                           then - child_pid else -1) Sig.SIGKILL)
                 (deadline_check (deadline_of payload env)
                    (after_loop payload child_pid env)))) as (_ & -> & ->).
  - cbn [emit init_exited]. unfold deadline_check.
    destruct (_ >=? 0); exact He.
  - cbn [emit init_exitstatus init_usage]. unfold deadline_check.
    destruct (_ >=? 0); repeat split.
Qed.

End RunRecords.

Lemma MetaInit_sweep_keeps_capture_witness :
  init_exitstatus
    (reconciled (MetaInit lookup_sample payload_sample no_cgroups 2
                   env_exit_then_orphan)) =
  init_exitstatus (after_loop payload_sample 2 env_exit_then_orphan).
Proof.
  apply (MetaInit_sweep_keeps_capture lookup_sample payload_sample
           no_cgroups 2 env_exit_then_orphan).
  reflexivity.
Defined.

(** ** Wall time *)

(** The microseconds printed for a difference of two clock readings. *)
Lemma usec_of_timespec_sub (a b : timespec) :
  normalized a -> normalized b -> sec_in_range a -> sec_in_range b ->
  - 2 ^ 62 < to_nsec a - to_nsec b < 2 ^ 62 ->
  usec_of_timespec (TimespecSub a b) = Z.quot (to_nsec a - to_nsec b) 1000.
Proof.
  intros Ha Hb Ra Rb Hd.
  destruct (TimespecSub_correct a b Ha Hb Ra Rb) as [Hn Hs].
  rewrite <- Hs in *.
  destruct (TimespecSub a b) as [sr nr].
  unfold usec_of_timespec, normalized, to_nsec, NSEC_PER_SEC,
    Int.long_add, Int.long_mul in *; cbn [tv_sec tv_nsec] in *.
  unwrap64. f_equal. lia.
Qed.

Lemma meta_wall_line lookup payload t1 s :
  nth 2 (lines (meta_file (emit_meta lookup payload t1 s))) ""%string =
  ("time-wall:" ++ dec (usec_of_timespec t1))%string.
Proof.
  unfold emit_meta.
  destruct (write_verdict lookup _ _ _) as [vt ret]. cbn [meta_file].
  rewrite write_header_lines, lines_unlines_app; [reflexivity|].
  cbn [forallb]. rewrite !no_lf_app, !no_lf_dec. reflexivity.
Qed.

(** X10. The [time-wall] line shows the time elapsed between the reading
    taken before the fork and the reading taken after the sweep, in
    microseconds truncated toward zero: the borrow of [TimespecSub] and the
    conversion compose exactly for normalized readings. *)
Theorem MetaInit_time_wall (lookup : Z -> option string)
  (payload : InitPayload) (cg : cgroups) (child_pid : Z)
  (env : environment) :
  let t0 := clock env 0%nat in
  let t_end := clock env (clock_reads (supervised payload child_pid env)) in
  normalized t0 -> normalized t_end ->
  sec_in_range t0 -> sec_in_range t_end ->
  - 2 ^ 62 < to_nsec t_end - to_nsec t0 < 2 ^ 62 ->
  nth 2 (lines (meta_file (MetaInit lookup payload cg child_pid env)))
      ""%string =
  ("time-wall:" ++ dec (Z.quot (to_nsec t_end - to_nsec t0) 1000))%string.
Proof.
  cbv zeta. intros H0 He R0 Re Hd.
  unfold MetaInit. cbv zeta.
  rewrite meta_wall_line, (usec_of_timespec_sub _ _ He H0 Re R0 Hd).
  reflexivity.
Qed.

(** A start at 100.75 s and an end at 102.250001999 s: 1500001 us. *)
Lemma MetaInit_time_wall_witness :
  nth 2 (lines (meta_file (MetaInit lookup_sample payload_1500ms no_cgroups
                             2 env_quarter_to))) ""%string =
  "time-wall:1500001"%string.
Proof.
  apply (MetaInit_time_wall lookup_sample payload_1500ms no_cgroups 2
           env_quarter_to);
    vm_compute; split; congruence.
Defined.

(** ** Cgroups *)

(** X11. The cgroups [MetaInit] holds when it reaches the fork: a memory
    cgroup exactly when sandboxing is on, the memory limit is not negative
    and no unified cgroup is held; a unified cgroup only on a v2 host and
    then no other; a pid cgroup only on a v1 host; and neither a unified nor
    a pid cgroup when no cgroup path was configured. *)
Theorem create_cgroups_shape (payload : InitPayload) (c : cgroup_setup)
  (cg : cgroups) :
  create_cgroups payload c = inr cg ->
  (memory_cgroup cg <> None <->
   payload_disable_sandboxing payload = false /\
   0 <= memory_limit_in_bytes payload /\ unified_cgroup cg = None) /\
  (unified_cgroup cg <> None ->
   IsCgroupV2 c = true /\ pid_cgroup cg = None /\ memory_cgroup cg = None) /\
  (pid_cgroup cg <> None -> IsCgroupV2 c = false /\ unified_cgroup cg = None) /\
  (empty (cgroup_path payload) = true ->
   unified_cgroup cg = None /\ pid_cgroup cg = None).
Proof.
  unfold create_cgroups. intros Hc.
  destruct (empty (cgroup_path payload)) eqn:Hp; cbn [negb] in Hc;
    [|destruct (ScopedCgroup_new c (cgroup_path payload)) as [path|];
      [destruct (IsCgroupV2 c) eqn:Hv|discriminate]];
    (destruct (payload_disable_sandboxing payload) eqn:Hd;
     [destruct (prctl_subreaper_res c =? -1); [discriminate|];
      injection Hc as <-
     |destruct (Z.geb_spec (memory_limit_in_bytes payload) 0) as [Hge|Hlt];
      [cbn [unified_cgroup pid_cgroup no_cgroups] in Hc;
       try destruct (ScopedCgroup_new c "/sys/fs/cgroup/memory/omegajail");
       try discriminate;
       destruct (WriteFile_limit_res c); try discriminate;
       destruct (chmod_limit_res c =? 0); try discriminate;
       injection Hc as <-
      |injection Hc as <-]]);
    cbn; repeat split; intros; try congruence; try lia;
    try (match goal with H : _ /\ _ |- _ => destruct H as (? & ? & ?) end;
         try congruence; try lia).
Qed.

(** On a v1 host with a per-script cgroup and a 64 MiB limit, the pid and
    the memory cgroup are held. *)
Lemma create_cgroups_shape_witness :
  memory_cgroup
    {| memory_cgroup := Some "/sys/fs/cgroup/memory/omegajail/run"%string;
       unified_cgroup := None;
       pid_cgroup := Some "/sys/fs/cgroup/pids/omegajail/sum/run"%string |}
    <> None <->
  payload_disable_sandboxing payload_with_script = false /\
  0 <= memory_limit_in_bytes payload_with_script /\
  unified_cgroup
    {| memory_cgroup := Some "/sys/fs/cgroup/memory/omegajail/run"%string;
       unified_cgroup := None;
       pid_cgroup := Some "/sys/fs/cgroup/pids/omegajail/sum/run"%string |}
    = None.
Proof.
  apply (create_cgroups_shape payload_with_script setup_v1_ok).
  reflexivity.
Defined.

(** ** Memory reconciliation, continued *)

(** X12. The kernel's peak RSS is reported untouched unless a v1 memory
    cgroup counted a failure: without a memory cgroup, when
    [memory.failcnt] cannot be read, and when it reads 0, the [mem] line is
    computed from the [ru_maxrss] captured with the child's exit. *)
Theorem MetaInit_mem_without_failcnt (lookup : Z -> option string)
  (payload : InitPayload) (cg : cgroups) (child_pid : Z)
  (env : environment) :
  memory_cgroup cg = None \/ failcnt_read env = None \/
  failcnt_read env = Some 0 ->
  ru_maxrss (init_usage (reconciled
                           (MetaInit lookup payload cg child_pid env))) =
    ru_maxrss (init_usage (supervised payload child_pid env)) /\
  nth 3 (lines (meta_file (MetaInit lookup payload cg child_pid env)))
      ""%string =
  ("mem:" ++ dec (mem_value
                    (ru_maxrss (init_usage (supervised payload child_pid env)))
                    (vm_memory_size_in_bytes payload)))%string.
Proof.
  intros H.
  assert (Hr : reconcile_memory payload cg (failcnt_read env)
                 (observer_drain (obs env) (supervised payload child_pid env))
               = observer_drain (obs env) (supervised payload child_pid env)).
  { unfold reconcile_memory.
    destruct H as [-> | [-> | ->]]; [reflexivity| |];
      destruct (memory_cgroup cg); reflexivity. }
  assert (Hu : init_usage (observer_drain (obs env)
                             (supervised payload child_pid env)) =
               init_usage (supervised payload child_pid env))
    by apply observer_drain_keeps_exit.
  split.
  - rewrite MetaInit_reconciled, Hr, Hu. reflexivity.
  - unfold MetaInit. cbv zeta. rewrite meta_mem_line, Hr, Hu. reflexivity.
Qed.

(** The v1 memory cgroup is held and the limit is 64 MiB, but
    [memory.failcnt] cannot be read: the kernel's 2048 KiB are reported. *)
Lemma MetaInit_mem_without_failcnt_witness :
  nth 3 (lines (meta_file (MetaInit lookup_sample payload_sample
                             cgroups_v1_memory 2 env_failcnt_unreadable)))
      ""%string =
  "mem:2097152"%string.
Proof.
  apply (MetaInit_mem_without_failcnt lookup_sample payload_sample
           cgroups_v1_memory 2 env_failcnt_unreadable).
  right. left. reflexivity.
Defined.

(** ** The signal table *)

Lemma kSignalMap_keys (sig : Z) (name : string) :
  In (sig, name) kSignalMap -> 1 <= sig <= 31.
Proof.
  intros H.
  assert (Hall : forallb (fun kv => (1 <=? fst kv) && (fst kv <=? 31))
                   kSignalMap = true) by reflexivity.
  rewrite forallb_forall in Hall. specialize (Hall _ H). cbn [fst] in Hall.
  apply andb_true_iff in Hall. lia.
Qed.

Lemma kSignalMap_names_differ (a b : Z) (name : string) :
  In (a, name) kSignalMap -> In (b, name) kSignalMap -> a = b.
Proof.
  intros Ha Hb.
  assert (Hall : forallb
                   (fun x => forallb
                               (fun y => implb (String.eqb (snd x) (snd y))
                                               (fst x =? fst y))
                               kSignalMap)
                   kSignalMap = true) by (vm_compute; reflexivity).
  rewrite forallb_forall in Hall. specialize (Hall _ Ha).
  rewrite forallb_forall in Hall. specialize (Hall _ Hb).
  cbn [fst snd] in Hall. rewrite String.eqb_refl in Hall. cbn in Hall.
  lia.
Qed.

(** X13. [kSignalMap] names exactly the signals 1 to 31, and no two of
    them alike: a lookup succeeds for these numbers and fails for every
    other, and equal names mean equal signals.  The names are, from 1 to
    31, those of the Linux signal numbers, SIGHUP to SIGSYS.  With no
    syscall recorded, the verdict of a recorded signal is the line
    [signal:] followed by the name the map gives for it, and
    [signal_number:] followed by its decimal numeral when the map has
    none, that is for any number outside 1 to 31; the exit code is the
    signal. *)
Theorem kSignalMap_total_injective (sig : Z) :
  (1 <= sig <= 31 <-> exists name, map_find kSignalMap sig = Some name) /\
  (forall sig' name,
      map_find kSignalMap sig = Some name ->
      map_find kSignalMap sig' = Some name -> sig = sig') /\
  map (map_find kSignalMap) (map Z.of_nat (seq 1 31)) =
  map Some
    [ "SIGHUP"; "SIGINT"; "SIGQUIT"; "SIGILL"; "SIGTRAP"; "SIGABRT";
      "SIGBUS"; "SIGFPE"; "SIGKILL"; "SIGUSR1"; "SIGSEGV"; "SIGUSR2";
      "SIGPIPE"; "SIGALRM"; "SIGTERM"; "SIGSTKFLT"; "SIGCHLD"; "SIGCONT";
      "SIGSTOP"; "SIGTSTP"; "SIGTTIN"; "SIGTTOU"; "SIGURG"; "SIGXCPU";
      "SIGXFSZ"; "SIGVTALRM"; "SIGPROF"; "SIGWINCH"; "SIGIO"; "SIGPWR";
      "SIGSYS" ]%string /\
  (forall lookup status,
      sig <> -1 ->
      write_verdict lookup (-1) sig status =
      (match map_find kSignalMap sig with
       | Some name => "signal:" ++ name ++ String (ascii_of_nat 10) ""
       | None => "signal_number:" ++ dec sig ++ String (ascii_of_nat 10) ""
       end%string, sig) /\
      (~ 1 <= sig <= 31 -> map_find kSignalMap sig = None)).
Proof.
  assert (Hiff : 1 <= sig <= 31 <->
                 exists name, map_find kSignalMap sig = Some name).
  { split; [apply map_find_kSignalMap_some|].
    intros [name H]. apply map_find_In in H.
    apply (kSignalMap_keys _ _ H). }
  split; [exact Hiff|]. split; [|split].
  - intros sig' name H H'. apply map_find_In in H, H'.
    apply (kSignalMap_names_differ _ _ _ H H').
  - vm_compute. reflexivity.
  - intros lookup status Hne.
    rewrite (write_verdict_signal lookup (-1) sig status eq_refl
               (or_introl Hne)).
    cbv zeta. destruct (Z.eqb_spec sig (-1)); [contradiction|].
    change (String (ascii_of_nat 10) "") with nl.
    split.
    + destruct (map_find kSignalMap sig); reflexivity.
    + intros Hr. destruct (map_find kSignalMap sig) as [name|] eqn:E;
        [|reflexivity].
      exfalso. apply Hr, Hiff. exists name. reflexivity.
Qed.

(** ** The observer read, continued *)

(** X14. [ReceiveExitSyscall] yields a number exactly when every step
    succeeded: the epoll descriptor was created, the socket was added, the
    wait returned neither -1 nor 0, the first ready descriptor is the
    socket, and the read delivered all four bytes.  The number is then the
    one read.  A failure of any step yields the empty optional. *)
Theorem ReceiveExitSyscall_value (fd : Z) (o : observer) (v : Z) :
  - 2 ^ 31 <= recv_res o < 2 ^ 31 ->
  (ReceiveExitSyscall fd o = Some v <->
   valid_fd (epoll_create1_res o) = true /\ AddToEpoll_res o = true /\
   epoll_wait_res o <> -1 /\ epoll_wait_res o <> 0 /\
   epoll_event0_fd o = fd /\ recv_res o = 4 /\ v = recv_value o).
Proof.
  intros Hint. unfold ReceiveExitSyscall.
  destruct (valid_fd (epoll_create1_res o)); cbn [negb];
    [|split; [discriminate|intros (? & _); discriminate]].
  destruct (AddToEpoll_res o); cbn [negb];
    [|split; [discriminate|intros (_ & ? & _); discriminate]].
  destruct (Z.eqb_spec (epoll_wait_res o) (-1));
    [split; [discriminate|intros (_ & _ & ? & _); contradiction]|].
  destruct (Z.eqb_spec (epoll_wait_res o) 0);
    [split; [discriminate|intros (_ & _ & _ & ? & _); contradiction]|].
  destruct (Z.eqb_spec (epoll_event0_fd o) fd); cbn [negb];
    [|split; [discriminate|intros (_ & _ & _ & _ & ? & _); contradiction]].
  destruct (Z.ltb_spec (recv_res o) 0);
    [split; [discriminate|intros (_ & _ & _ & _ & _ & ? & _); lia]|].
  destruct (Z.eqb_spec (recv_res o) 0);
    [split; [discriminate|intros (_ & _ & _ & _ & _ & ? & _); lia]|].
  rewrite wrap_u64_id by (unfold Int.in_u64; lia).
  destruct (Z.eqb_spec (recv_res o) 4); cbn [negb].
  - split; [intros [= <-]; auto 10|].
    intros (_ & _ & _ & _ & _ & _ & ->). reflexivity.
  - split; [discriminate|intros (_ & _ & _ & _ & _ & ? & _); contradiction].
Qed.

Lemma ReceiveExitSyscall_value_witness :
  ReceiveExitSyscall kSigsysNotificationFd (obs_reports 165) = Some 165 <->
  valid_fd (epoll_create1_res (obs_reports 165)) = true /\
  AddToEpoll_res (obs_reports 165) = true /\
  epoll_wait_res (obs_reports 165) <> -1 /\
  epoll_wait_res (obs_reports 165) <> 0 /\
  epoll_event0_fd (obs_reports 165) = kSigsysNotificationFd /\
  recv_res (obs_reports 165) = 4 /\ 165 = recv_value (obs_reports 165).
Proof.
  apply (ReceiveExitSyscall_value kSigsysNotificationFd (obs_reports 165) 165).
  simpl. lia.
Defined.

(** ** The stdio hook, continued *)

Section OnlyFacts.

Variable k : Sys.kernel.
Variable P : Sys.call -> Prop.

Lemma only_ret {A} (a : A) : only P (Sys.ret a).
Proof. intros p. exists []. cbn. now rewrite app_nil_r. Qed.

Lemma only_get_errno : only P Sys.get_errno.
Proof. intros p. exists []. cbn. now rewrite app_nil_r. Qed.

Lemma only_bind {A B} (m : Sys.M A) (f : A -> Sys.M B) :
  only P m -> (forall a, only P (f a)) -> only P (Sys.bind m f).
Proof.
  intros Hm Hf p. unfold Sys.bind.
  destruct (Hm p) as (l1 & H1 & F1). destruct (m p) as [a p1]. cbn in H1.
  destruct (Hf a p1) as (l2 & H2 & F2).
  exists (l1 ++ l2). rewrite H2, H1, app_assoc. split; [reflexivity|].
  apply Forall_app; auto.
Qed.

Lemma only_syscall c : P c -> only P (Sys.syscall k c).
Proof.
  intros Hc p. exists [c]. unfold Sys.syscall.
  destruct (k (Sys.history p) c <? 0); cbn; auto.
Qed.

Lemma only_ScopedFD_destroy fd :
  P (Sys.Close fd) -> only P (ScopedFD_destroy k fd).
Proof.
  intros Hc. unfold ScopedFD_destroy. destruct (valid_fd fd).
  - apply only_bind; [apply only_syscall, Hc|intros _; apply only_ret].
  - apply only_ret.
Qed.

End OnlyFacts.

Lemma only_weaken (P Q : Sys.call -> Prop) {A} (m : Sys.M A) :
  (forall c, P c -> Q c) -> only P m -> only Q m.
Proof.
  intros HPQ Hm p. destruct (Hm p) as (l & Hl & Fl).
  exists l. split; [exact Hl|].
  rewrite Forall_forall in *. auto.
Qed.

Lemma only_OpenFile k path e writable :
  only (opens path e writable) (OpenFile k path writable).
Proof.
  unfold OpenFile.
  apply only_bind; [apply only_syscall; cbn; auto|intro fd].
  apply only_bind; [apply only_get_errno|intro err].
  destruct (_ || _); [apply only_ret|].
  apply only_bind; [apply only_syscall; exact I|intro sfd].
  destruct (valid_fd sfd) eqn:Hv; cbn [negb]; [|apply only_ret].
  assert (Hs : 0 <= sfd) by (unfold valid_fd in Hv; lia).
  apply only_bind; [apply only_syscall; cbn; auto|intro r].
  destruct (r =? -1).
  - apply only_bind; [apply only_ScopedFD_destroy; exact Hs|intro].
    apply only_ret.
  - apply only_bind; [apply only_syscall; cbn; auto|intro r'].
    destruct (r' =? -1); [|apply only_ret].
    apply only_bind; [apply only_ScopedFD_destroy; exact Hs|intro].
    apply only_ret.
Qed.

Lemma only_OpenStdio k path fd writable :
  only (opens path fd writable) (OpenStdio k path fd writable).
Proof.
  unfold OpenStdio.
  apply only_bind; [apply only_OpenFile|intro ofd].
  destruct (valid_fd ofd) eqn:Hv; cbn [negb].
  - assert (Ho : 0 <= ofd) by (unfold valid_fd in Hv; lia).
    destruct (Z.eqb_spec ofd fd) as [He|He]; [apply only_ret|].
    apply only_bind; [apply only_syscall; cbn; auto|intro r].
    destruct (r =? -1).
    + apply only_bind; [apply only_get_errno|intro].
      apply only_bind; [apply only_ScopedFD_destroy; exact Ho|intro].
      apply only_ret.
    + apply only_bind; [apply only_ScopedFD_destroy; exact Ho|intro].
      apply only_ret.
  - apply only_bind; [apply only_get_errno|intro]. apply only_ret.
Qed.

Lemma syscall_spec k c p r q :
  Sys.syscall k c p = (r, q) ->
  Sys.history q = Sys.history p ++ [c] /\
  (k (Sys.history p) c < 0 /\ r = -1 /\
   Sys.errno q = - k (Sys.history p) c \/
   0 <= k (Sys.history p) c /\ r = k (Sys.history p) c /\
   Sys.errno q = Sys.errno p).
Proof.
  unfold Sys.syscall.
  destruct (Z.ltb_spec (k (Sys.history p) c) 0); intros [= <- <-]; cbn;
    split; auto.
Qed.

(** The sandboxed branch, by the results of its three redirections. *)
Lemma RedirectStdio_sandboxed_run k args p :
  disable_sandboxing args = false ->
  let s1 := if negb (empty (stdin_redirect args))
            then OpenStdio k "/mnt/stdio/stdin" 0 false p
            else (0, p) in
  let s2 := if negb (empty (stdout_redirect args))
            then OpenStdio k "/mnt/stdio/stdout" 1 true (snd s1)
            else (0, snd s1) in
  let s3 := if negb (empty (stderr_redirect args))
            then OpenStdio k "/mnt/stdio/stderr" 2 true (snd s2)
            else (0, snd s2) in
  RedirectStdio k args p =
  if negb (fst s1 =? 0) then s1
  else if negb (fst s2 =? 0) then s2
  else if negb (fst s3 =? 0) then s3
  else
    let '(r, q) := Sys.syscall k (Sys.Umount2 "/mnt/stdio" 2) (snd s3) in
    if negb (r =? 0) then (- Sys.errno q, q) else (0, q).
Proof.
  intros Hd. cbv zeta.
  set (s1 := if negb (empty (stdin_redirect args))
             then OpenStdio k "/mnt/stdio/stdin" 0 false p
             else (0, p)).
  set (s2 := if negb (empty (stdout_redirect args))
             then OpenStdio k "/mnt/stdio/stdout" 1 true (snd s1)
             else (0, snd s1)).
  set (s3 := if negb (empty (stderr_redirect args))
             then OpenStdio k "/mnt/stdio/stderr" 2 true (snd s2)
             else (0, snd s2)).
  unfold RedirectStdio. rewrite Hd.
  unfold Sys.bind, Sys.ret, Sys.get_errno.
  change STDIN_FILENO with 0. change STDOUT_FILENO with 1.
  change STDERR_FILENO with 2. change MNT_DETACH with 2.
  replace ((if negb (empty (stdin_redirect args))
            then OpenStdio k "/mnt/stdio/stdin" 0 false
            else fun p0 => (0, p0)) p) with s1
    by (subst s1; destruct (negb (empty (stdin_redirect args)));
        reflexivity).
  destruct s1 as [r1 q1] eqn:E1. cbn [fst snd] in *.
  destruct (negb (r1 =? 0)); [reflexivity|].
  replace ((if negb (empty (stdout_redirect args))
            then OpenStdio k "/mnt/stdio/stdout" 1 true
            else fun p0 => (0, p0)) q1) with s2
    by (subst s2; destruct (negb (empty (stdout_redirect args)));
        reflexivity).
  destruct s2 as [r2 q2] eqn:E2. cbn [fst snd] in *.
  destruct (negb (r2 =? 0)); [reflexivity|].
  replace ((if negb (empty (stderr_redirect args))
            then OpenStdio k "/mnt/stdio/stderr" 2 true
            else fun p0 => (0, p0)) q2) with s3
    by (subst s3; destruct (negb (empty (stderr_redirect args)));
        reflexivity).
  destruct s3 as [r3 q3] eqn:E3. cbn [fst snd] in *.
  destruct (negb (r3 =? 0)); [reflexivity|].
  destruct (Sys.syscall k (Sys.Umount2 "/mnt/stdio" 2) q3) as [r q].
  destruct (negb (r =? 0)); reflexivity.
Qed.

(** The unsandboxed branch, by the results of its three redirections. *)
Lemma RedirectStdio_unsandboxed_run k args p :
  disable_sandboxing args = true ->
  let s1 := if negb (empty (stdin_redirect args))
            then OpenStdio k (stdin_redirect args) 0 false p
            else (0, p) in
  let s2 := if negb (empty (stdout_redirect args))
            then OpenStdio k (stdout_redirect args) 1 true (snd s1)
            else (0, snd s1) in
  let s3 := if negb (empty (stderr_redirect args))
            then OpenStdio k (stderr_redirect args) 2 true (snd s2)
            else (0, snd s2) in
  RedirectStdio k args p =
  if negb (fst s1 =? 0) then s1
  else if negb (fst s2 =? 0) then s2
  else if negb (fst s3 =? 0) then s3
  else if negb (empty (stderr_redirect args))
  then (0, snd (Sys.syscall k (Sys.Write 2 WARNING_MESSAGE) (snd s3)))
  else (0, snd s3).
Proof.
  intros Hd. cbv zeta.
  set (s1 := if negb (empty (stdin_redirect args))
             then OpenStdio k (stdin_redirect args) 0 false p
             else (0, p)).
  set (s2 := if negb (empty (stdout_redirect args))
             then OpenStdio k (stdout_redirect args) 1 true (snd s1)
             else (0, snd s1)).
  unfold RedirectStdio. rewrite Hd.
  unfold Sys.bind, Sys.ret, Sys.get_errno.
  change STDIN_FILENO with 0. change STDOUT_FILENO with 1.
  change STDERR_FILENO with 2.
  replace ((if negb (empty (stdin_redirect args))
            then OpenStdio k (stdin_redirect args) 0 false
            else fun p0 => (0, p0)) p) with s1
    by (subst s1; destruct (negb (empty (stdin_redirect args)));
        reflexivity).
  destruct s1 as [r1 q1] eqn:E1. cbn [fst snd] in *.
  destruct (negb (r1 =? 0)); [reflexivity|].
  replace ((if negb (empty (stdout_redirect args))
            then OpenStdio k (stdout_redirect args) 1 true
            else fun p0 => (0, p0)) q1) with s2
    by (subst s2; destruct (negb (empty (stdout_redirect args)));
        reflexivity).
  destruct s2 as [r2 q2] eqn:E2. cbn [fst snd] in *.
  destruct (negb (r2 =? 0)); [reflexivity|].
  destruct (negb (empty (stderr_redirect args))); [|reflexivity].
  destruct (OpenStdio k (stderr_redirect args) 2 true q2) as [r3 q3].
  cbn [fst snd].
  destruct (negb (r3 =? 0)); [reflexivity|].
  destruct (Sys.syscall k (Sys.Write 2 WARNING_MESSAGE) q3); reflexivity.
Qed.

(** One redirection, made only when configured: the calls it adds. *)
Lemma redirection_calls k (configured path : string) fd w q :
  let s := if negb (empty configured) then OpenStdio k path fd w q
           else (0, q) in
  exists l, Sys.history (snd s) = Sys.history q ++ l /\
            Forall (opens path fd w) l /\
            (empty configured = true -> l = []).
Proof.
  cbv zeta. destruct (empty configured); cbn [negb].
  - exists []. cbn [snd]. rewrite app_nil_r. auto.
  - destruct (only_OpenStdio k path fd w q) as (l & Hl & Hall).
    exists l. repeat split; auto. discriminate.
Qed.

(** X15. The calls of the stdio hook, in order: those of the stdin
    redirection, those of the stdout redirection, those of the stderr
    redirection, and at most one final step.  A redirection that is not
    configured makes no call.  The redirection of stdin opens its path
    read-only and duplicates onto 0 only; those of stdout and stderr open
    their path write-only and duplicate onto 1 and onto 2 only; a socket is
    connected to the first 107 bytes of the path of its redirection and shut
    down in the direction not used; every descriptor connected, shut down,
    duplicated or closed is a valid one.  Sandboxed, the paths are the bind
    mounts under [/mnt/stdio] (never the host paths of [Args]) and the final
    step is [umount2("/mnt/stdio", MNT_DETACH)]; unsandboxed, the paths are
    those of [Args] and the final step is the [write] of the warning line
    to descriptor 2. *)
Theorem RedirectStdio_calls (k : Sys.kernel) (args : Args) (p : Sys.proc) :
  let path (mount host : string) : string :=
    if disable_sandboxing args then host else mount in
  let last_step :=
    if disable_sandboxing args
    then Sys.Write 2 ("WARNING: Running with --disable-sandboxing" ++
                      String (ascii_of_nat 10) "")%string
    else Sys.Umount2 "/mnt/stdio" 2 in
  exists l1 l2 l3 final,
    Sys.history (snd (RedirectStdio k args p)) =
      Sys.history p ++ l1 ++ l2 ++ l3 ++ final /\
    Forall (opens (path "/mnt/stdio/stdin" (stdin_redirect args))%string
                  0 false) l1 /\
    Forall (opens (path "/mnt/stdio/stdout" (stdout_redirect args))%string
                  1 true) l2 /\
    Forall (opens (path "/mnt/stdio/stderr" (stderr_redirect args))%string
                  2 true) l3 /\
    (empty (stdin_redirect args) = true -> l1 = []) /\
    (empty (stdout_redirect args) = true -> l2 = []) /\
    (empty (stderr_redirect args) = true -> l3 = []) /\
    (final = [] \/ final = [last_step]).
Proof.
  cbv zeta.
  change (Sys.Write 2 ("WARNING: Running with --disable-sandboxing" ++
                       String (ascii_of_nat 10) ""))
    with (Sys.Write 2 WARNING_MESSAGE).
  assert (Hseg : forall (s1 s2 s3 : Z * Sys.proc) l1 l2 l3 c final r q,
             Sys.history (snd s1) = Sys.history p ++ l1 ->
             Sys.history (snd s2) = Sys.history (snd s1) ++ l2 ->
             Sys.history (snd s3) = Sys.history (snd s2) ++ l3 ->
             (final = [] \/ final = [c]) ->
             Sys.history q = Sys.history (snd s3) ++ final ->
             exists l1' l2' l3' final',
               Sys.history
                 (snd (if negb (fst s1 =? 0) then s1
                       else if negb (fst s2 =? 0) then s2
                       else if negb (fst s3 =? 0) then s3
                       else (r, q))) =
               Sys.history p ++ l1' ++ l2' ++ l3' ++ final' /\
               (l1' = l1) /\ (l2' = l2 \/ l2' = []) /\
               (l3' = l3 \/ l3' = []) /\
               (final' = [] \/ final' = [c])).
  { intros s1 s2 s3 l1 l2 l3 c final r q H1 H2 H3 Hf Hq.
    destruct (negb (fst s1 =? 0)).
    { exists l1, [], [], []. rewrite H1, !app_nil_r. auto 10. }
    destruct (negb (fst s2 =? 0)).
    { exists l1, l2, [], []. rewrite H2, H1, !app_nil_r, <- app_assoc.
      auto 10. }
    destruct (negb (fst s3 =? 0)).
    { exists l1, l2, l3, []. rewrite H3, H2, H1, !app_nil_r, <- !app_assoc.
      auto 10. }
    exists l1, l2, l3, final. cbn [snd].
    rewrite Hq, H3, H2, H1, <- !app_assoc. auto 10. }
  destruct (disable_sandboxing args) eqn:Hd.
  - rewrite (RedirectStdio_unsandboxed_run k args p Hd). cbv zeta.
    destruct (redirection_calls k (stdin_redirect args) (stdin_redirect args)
                0 false p) as (l1 & H1 & F1 & E1).
    cbv zeta in H1.
    set (s1 := if negb (empty (stdin_redirect args))
               then OpenStdio k (stdin_redirect args) 0 false p
               else (0, p)) in *.
    destruct (redirection_calls k (stdout_redirect args)
                (stdout_redirect args) 1 true (snd s1))
      as (l2 & H2 & F2 & E2).
    cbv zeta in H2.
    set (s2 := if negb (empty (stdout_redirect args))
               then OpenStdio k (stdout_redirect args) 1 true (snd s1)
               else (0, snd s1)) in *.
    destruct (redirection_calls k (stderr_redirect args)
                (stderr_redirect args) 2 true (snd s2))
      as (l3 & H3 & F3 & E3).
    cbv zeta in H3.
    set (s3 := if negb (empty (stderr_redirect args))
               then OpenStdio k (stderr_redirect args) 2 true (snd s2)
               else (0, snd s2)) in *.
    assert (Hlast : exists final q,
               (if negb (empty (stderr_redirect args))
                then (0, snd (Sys.syscall k (Sys.Write 2 WARNING_MESSAGE)
                                (snd s3)))
                else (0, snd s3)) = (0, q) /\
               (final = [] \/ final = [Sys.Write 2 WARNING_MESSAGE]) /\
               Sys.history q = Sys.history (snd s3) ++ final).
    { destruct (negb (empty (stderr_redirect args))).
      - destruct (Sys.syscall k (Sys.Write 2 WARNING_MESSAGE) (snd s3))
          as [r q] eqn:E.
        apply syscall_spec in E. destruct E as [Hh _].
        exists [Sys.Write 2 WARNING_MESSAGE], q. cbn [snd]. auto.
      - exists [], (snd s3). rewrite app_nil_r. auto. }
    destruct Hlast as (final & q & Heq & Hf & Hq). rewrite Heq.
    destruct (Hseg s1 s2 s3 l1 l2 l3 _ final 0 q H1 H2 H3 Hf Hq)
      as (l1' & l2' & l3' & final' & Hh & -> & Hl2 & Hl3 & Hf').
    exists l1, l2', l3', final'.
    split; [exact Hh|]. split; [exact F1|].
    split; [destruct Hl2 as [->| ->]; [exact F2|constructor]|].
    split; [destruct Hl3 as [->| ->]; [exact F3|constructor]|].
    split; [exact E1|].
    split; [destruct Hl2 as [->| ->]; auto|].
    split; [destruct Hl3 as [->| ->]; auto|].
    exact Hf'.
  - rewrite (RedirectStdio_sandboxed_run k args p Hd). cbv zeta.
    destruct (redirection_calls k (stdin_redirect args) "/mnt/stdio/stdin"
                0 false p) as (l1 & H1 & F1 & E1).
    cbv zeta in H1.
    set (s1 := if negb (empty (stdin_redirect args))
               then OpenStdio k "/mnt/stdio/stdin" 0 false p
               else (0, p)) in *.
    destruct (redirection_calls k (stdout_redirect args)
                "/mnt/stdio/stdout" 1 true (snd s1))
      as (l2 & H2 & F2 & E2).
    cbv zeta in H2.
    set (s2 := if negb (empty (stdout_redirect args))
               then OpenStdio k "/mnt/stdio/stdout" 1 true (snd s1)
               else (0, snd s1)) in *.
    destruct (redirection_calls k (stderr_redirect args)
                "/mnt/stdio/stderr" 2 true (snd s2))
      as (l3 & H3 & F3 & E3).
    cbv zeta in H3.
    set (s3 := if negb (empty (stderr_redirect args))
               then OpenStdio k "/mnt/stdio/stderr" 2 true (snd s2)
               else (0, snd s2)) in *.
    destruct (Sys.syscall k (Sys.Umount2 "/mnt/stdio" 2) (snd s3))
      as [r q] eqn:E.
    apply syscall_spec in E. destruct E as [Hq _].
    assert (Hpair : (if negb (r =? 0) then (- Sys.errno q, q) else (0, q)) =
                    ((if negb (r =? 0) then - Sys.errno q else 0), q))
      by (destruct (negb (r =? 0)); reflexivity).
    rewrite Hpair.
    destruct (Hseg s1 s2 s3 l1 l2 l3 _ [Sys.Umount2 "/mnt/stdio" 2]
                (if negb (r =? 0) then - Sys.errno q else 0) q H1 H2 H3
                (or_intror eq_refl) Hq)
      as (l1' & l2' & l3' & final' & Hh & -> & Hl2 & Hl3 & Hf').
    exists l1, l2', l3', final'.
    split; [exact Hh|]. split; [exact F1|].
    split; [destruct Hl2 as [->| ->]; [exact F2|constructor]|].
    split; [destruct Hl3 as [->| ->]; [exact F3|constructor]|].
    split; [exact E1|].
    split; [destruct Hl2 as [->| ->]; auto|].
    split; [destruct Hl3 as [->| ->]; auto|].
    exact Hf'.
Qed.

Lemma ScopedFD_destroy_history k fd q :
  valid_fd fd = true ->
  Sys.history (snd (ScopedFD_destroy k fd q)) = Sys.history q ++ [Sys.Close fd].
Proof.
  intros Hv. unfold ScopedFD_destroy. rewrite Hv.
  unfold Sys.bind, Sys.ret.
  destruct (Sys.syscall k (Sys.Close fd) q) as [r q'] eqn:E.
  apply syscall_spec in E. apply E.
Qed.

(** X16. What [OpenStdio] returns and leaves behind.  It never returns a
    positive value.  When no descriptor could be obtained it returns the
    negated [errno] of the failure, which is negative.  When the descriptor
    obtained is the expected one it is kept and 0 is returned with no
    further call.  Otherwise the descriptor is duplicated onto the expected
    one and then closed, whether [dup2] succeeded or not, and the result is
    0 or the negated [errno] of [dup2]: the outcome of [close] does not
    change it. *)
Theorem OpenStdio_outcome (k : Sys.kernel) (path : string) (e : Z)
  (w : bool) (p : Sys.proc) :
  let fd := fst (OpenFile k path w p) in
  let p1 := snd (OpenFile k path w p) in
  let r := fst (OpenStdio k path e w p) in
  let p' := snd (OpenStdio k path e w p) in
  r <= 0 /\
  (valid_fd fd = false -> r = - Sys.errno p1 /\ r < 0 /\ p' = p1) /\
  (valid_fd fd = true -> fd = e -> r = 0 /\ p' = p1) /\
  (valid_fd fd = true -> fd <> e ->
   Sys.history p' = Sys.history p1 ++ [Sys.Dup2 fd e; Sys.Close fd] /\
   r = Z.min 0 (k (Sys.history p1) (Sys.Dup2 fd e))).
Proof.
  cbv zeta. unfold OpenStdio, Sys.bind, Sys.get_errno, Sys.ret.
  pose proof (OpenFile_invalid k path w p) as Hinv.
  destruct (OpenFile k path w p) as [fd p1]. cbn [fst snd] in *.
  destruct (valid_fd fd) eqn:Hv; cbn [negb].
  - destruct (Z.eqb_spec fd e) as [He|He].
    + cbn. repeat split; try lia; try discriminate; intros; congruence.
    + destruct (Sys.syscall k (Sys.Dup2 fd e) p1) as [r q] eqn:E.
      apply syscall_spec in E. destruct E as [Hh Hr].
      pose proof (ScopedFD_destroy_history k fd q Hv) as Hc.
      assert (Hfinal : Sys.history (snd (ScopedFD_destroy k fd q)) =
                       Sys.history p1 ++ [Sys.Dup2 fd e; Sys.Close fd])
        by (rewrite Hc, Hh, <- app_assoc; reflexivity).
      destruct Hr as [(Hneg & -> & Herr) | (Hpos & -> & Herr)].
      * cbn [Z.eqb Pos.eqb]. rewrite Herr.
        destruct (ScopedFD_destroy k fd q) as [u q']. cbn [fst snd] in *.
        repeat split; try lia; try discriminate; try contradiction;
          intros; try exact Hfinal; lia.
      * destruct (Z.eqb_spec (k (Sys.history p1) (Sys.Dup2 fd e)) (-1));
          [lia|].
        destruct (ScopedFD_destroy k fd q) as [u q']. cbn [fst snd] in *.
        repeat split; try lia; try discriminate; try contradiction;
          intros; try exact Hfinal; lia.
  - specialize (Hinv eq_refl). cbn.
    repeat split; try lia; try discriminate.
Qed.

(** X17. What [OpenFile] does, by the answers of the kernel.  When [open]
    succeeds its descriptor is returned and no other call is made.  When it
    fails with an error other than [ENXIO] (6) nothing is returned and no
    other call is made.  When it fails with [ENXIO] a socket is created; if
    that fails nothing is returned.  The socket is then connected to the
    first 107 bytes of the path; if the connection is refused the socket is
    closed and nothing is returned.  It is then shut down for reading
    ([SHUT_RD], 0) when opened for writing and for writing ([SHUT_WR], 1)
    otherwise; if that fails the socket is closed and nothing is returned.
    Only when all four calls succeeded is the socket returned.  "Nothing"
    is the descriptor -1. *)
Theorem OpenFile_outcome (k : Sys.kernel) (path : string) (w : bool)
  (p : Sys.proc) :
  let h0 := Sys.history p in
  let c_open := Sys.Open path w in
  let a := k h0 c_open in
  let s := k (h0 ++ [c_open]) Sys.Socket in
  let c_connect := Sys.Connect s (substring 0 107 path) in
  let c := k (h0 ++ [c_open; Sys.Socket]) c_connect in
  let c_shutdown := Sys.Shutdown s (if w then 0 else 1) in
  let d := k (h0 ++ [c_open; Sys.Socket; c_connect]) c_shutdown in
  let fd := fst (OpenFile k path w p) in
  let h := Sys.history (snd (OpenFile k path w p)) in
  (0 <= a -> fd = a /\ h = h0 ++ [c_open]) /\
  (a < 0 -> a <> -6 -> fd = -1 /\ h = h0 ++ [c_open]) /\
  (a = -6 -> s < 0 -> fd = -1 /\ h = h0 ++ [c_open; Sys.Socket]) /\
  (a = -6 -> 0 <= s -> c < 0 ->
   fd = -1 /\ h = h0 ++ [c_open; Sys.Socket; c_connect; Sys.Close s]) /\
  (a = -6 -> 0 <= s -> 0 <= c -> d < 0 ->
   fd = -1 /\
   h = h0 ++ [c_open; Sys.Socket; c_connect; c_shutdown; Sys.Close s]) /\
  (a = -6 -> 0 <= s -> 0 <= c -> 0 <= d ->
   fd = s /\ h = h0 ++ [c_open; Sys.Socket; c_connect; c_shutdown]).
Proof.
  cbv zeta.
  change (substring 0 107 path) with (sun_path path).
  change (if w then 0 else 1) with (if w then SHUT_RD else SHUT_WR).
  unfold OpenFile, Sys.bind, Sys.get_errno, Sys.ret.
  destruct (Sys.syscall k (Sys.Open path w) p) as [fd p1] eqn:E1.
  apply syscall_spec in E1. destruct E1 as [H1 R1].
  destruct R1 as [(Ha & -> & Herr) | (Ha & -> & Herr)].
  - (* open failed *)
    cbn [valid_fd Z.leb Z.compare orb]. rewrite Herr.
    destruct (Z.eqb_spec (- k (Sys.history p) (Sys.Open path w)) ENXIO)
      as [He|He]; cbn [negb fst snd].
    2: { unfold ENXIO in He.
         repeat split; try lia; try exact H1; intros; lia. }
    assert (Ha6 : k (Sys.history p) (Sys.Open path w) = -6)
      by (unfold ENXIO in He; lia).
    destruct (Sys.syscall k Sys.Socket p1) as [sfd p2] eqn:E2.
    apply syscall_spec in E2. destruct E2 as [H2 R2]. rewrite H1 in R2.
    assert (H2' : Sys.history p2 =
                  Sys.history p ++ [Sys.Open path w; Sys.Socket])
      by (rewrite H2, H1, <- app_assoc; reflexivity).
    destruct R2 as [(Hs & -> & _) | (Hs & -> & _)].
    { cbn [valid_fd Z.leb Z.compare negb fst snd].
      repeat split; try lia; try exact H2'; intros; lia. }
    set (s := k (Sys.history p ++ [Sys.Open path w]) Sys.Socket) in *.
    assert (Hv : valid_fd s = true) by (unfold valid_fd; lia).
    rewrite Hv. cbn [negb].
    destruct (Sys.syscall k (Sys.Connect s (sun_path path)) p2)
      as [r3 p3] eqn:E3.
    apply syscall_spec in E3. destruct E3 as [H3 R3]. rewrite H2' in R3.
    assert (H3' : Sys.history p3 =
                  Sys.history p ++
                  [Sys.Open path w; Sys.Socket;
                   Sys.Connect s (sun_path path)])
      by (rewrite H3, H2', <- app_assoc; reflexivity).
    destruct R3 as [(Hc & -> & _) | (Hc & -> & _)].
    { cbn [Z.eqb Pos.eqb].
      pose proof (ScopedFD_destroy_history k s p3 Hv) as Hd.
      destruct (ScopedFD_destroy k s p3) as [u p4]. cbn [fst snd] in *.
      rewrite Hd, H3', <- app_assoc. cbn [app].
      repeat split; try lia; intros; lia. }
    destruct (Z.eqb_spec
                (k (Sys.history p ++ [Sys.Open path w; Sys.Socket])
                   (Sys.Connect s (sun_path path))) (-1)) as [Hm|_];
      [lia|].
    destruct (Sys.syscall k (Sys.Shutdown s (if w then SHUT_RD else SHUT_WR))
                p3) as [r4 p4] eqn:E4.
    apply syscall_spec in E4. destruct E4 as [H4 R4]. rewrite H3' in R4.
    assert (H4' : Sys.history p4 =
                  Sys.history p ++
                  [Sys.Open path w; Sys.Socket;
                   Sys.Connect s (sun_path path);
                   Sys.Shutdown s (if w then SHUT_RD else SHUT_WR)])
      by (rewrite H4, H3', <- app_assoc; reflexivity).
    destruct R4 as [(Hd & -> & _) | (Hd & -> & _)].
    { cbn [Z.eqb Pos.eqb].
      pose proof (ScopedFD_destroy_history k s p4 Hv) as Hcl.
      destruct (ScopedFD_destroy k s p4) as [u p5]. cbn [fst snd] in *.
      rewrite Hcl, H4', <- app_assoc. cbn [app].
      repeat split; try lia; intros; lia. }
    destruct (Z.eqb_spec
                (k (Sys.history p ++
                    [Sys.Open path w; Sys.Socket;
                     Sys.Connect s (sun_path path)])
                   (Sys.Shutdown s (if w then SHUT_RD else SHUT_WR))) (-1))
      as [Hm|_]; [lia|].
    cbn [fst snd]. rewrite H4'.
    repeat split; try lia; intros; lia.
  - (* open succeeded *)
    assert (Hv : valid_fd (k (Sys.history p) (Sys.Open path w)) = true)
      by (unfold valid_fd; lia).
    rewrite Hv. cbn [orb fst snd].
    repeat split; try lia; try exact H1; intros; lia.
Qed.

Lemma OpenStdio_nonpositive k path e w p :
  fst (OpenStdio k path e w p) <= 0.
Proof.
  unfold OpenStdio, Sys.bind, Sys.get_errno, Sys.ret.
  pose proof (OpenFile_invalid k path w p) as Hinv.
  destruct (OpenFile k path w p) as [fd p1]. cbn [fst snd] in *.
  destruct (valid_fd fd) eqn:Hv; cbn [negb].
  - destruct (fd =? e); [cbn; lia|].
    destruct (Sys.syscall k (Sys.Dup2 fd e) p1) as [r q] eqn:E.
    apply syscall_spec in E. destruct E as [_ Hr].
    destruct (Z.eqb_spec r (-1)).
    + destruct (ScopedFD_destroy k fd q). cbn [fst]. lia.
    + destruct (ScopedFD_destroy k fd q). cbn [fst]. lia.
  - specialize (Hinv eq_refl). cbn. lia.
Qed.

(** One redirection of the sandboxed hook, made only when configured: its
    result is never positive and it adds no [umount2] to the history. *)
Lemma sandboxed_redirection k (configured path : string) fd w q :
  let s := if negb (empty configured) then OpenStdio k path fd w q
           else (0, q) in
  fst s <= 0 /\
  exists l, Sys.history (snd s) = Sys.history q ++ l /\
            forall target flags, ~ In (Sys.Umount2 target flags) l.
Proof.
  cbv zeta. destruct (negb (empty configured)).
  - split; [apply OpenStdio_nonpositive|].
    destruct (only_OpenStdio k path fd w q) as (l & Hl & Hall).
    exists l. split; [exact Hl|].
    intros target flags Hin. rewrite Forall_forall in Hall.
    apply (Hall _ Hin).
  - cbn [fst snd]. split; [lia|]. exists []. rewrite app_nil_r.
    split; [reflexivity|]. intros target flags [].
Qed.

(** X18. The sandboxed hook detaches [/mnt/stdio] exactly when every
    configured redirection returned 0, and then as its last call.  The
    redirections are made in the order stdin, stdout, stderr, each only
    when configured; none of them returns a positive value or calls
    [umount2].  At the first that does not return 0 the hook stops and
    returns its result, with no further call.  When all returned 0, the hook
    calls [umount2("/mnt/stdio", MNT_DETACH)] and returns 0 if the answer is
    0, the negated [errno] of the call if it failed. *)
Theorem RedirectStdio_sandboxed_umount (k : Sys.kernel) (args : Args)
  (p : Sys.proc) :
  disable_sandboxing args = false ->
  let redirect (configured path : string) (fd : Z) (w : bool)
               (q : Sys.proc) : Z * Sys.proc :=
    if negb (empty configured) then OpenStdio k path fd w q else (0, q) in
  let s1 := redirect (stdin_redirect args) "/mnt/stdio/stdin"%string 0 false p in
  let s2 :=
    redirect (stdout_redirect args) "/mnt/stdio/stdout"%string 1 true (snd s1) in
  let s3 :=
    redirect (stderr_redirect args) "/mnt/stdio/stderr"%string 2 true (snd s2) in
  let umount := Sys.Umount2 "/mnt/stdio" 2 in
  let a := k (Sys.history (snd s3)) umount in
  (fst s1 <= 0 /\ fst s2 <= 0 /\ fst s3 <= 0 /\
   exists l1 l2 l3,
     Sys.history (snd s1) = Sys.history p ++ l1 /\
     Sys.history (snd s2) = Sys.history (snd s1) ++ l2 /\
     Sys.history (snd s3) = Sys.history (snd s2) ++ l3 /\
     ~ In umount (l1 ++ l2 ++ l3)) /\
  (fst s1 <> 0 -> RedirectStdio k args p = s1) /\
  (fst s1 = 0 -> fst s2 <> 0 -> RedirectStdio k args p = s2) /\
  (fst s1 = 0 -> fst s2 = 0 -> fst s3 <> 0 -> RedirectStdio k args p = s3) /\
  (fst s1 = 0 -> fst s2 = 0 -> fst s3 = 0 ->
   Sys.history (snd (RedirectStdio k args p)) =
     Sys.history (snd s3) ++ [umount] /\
   fst (RedirectStdio k args p) =
     if a <? 0 then a else if a =? 0 then 0 else - Sys.errno (snd s3)).
Proof.
  intros Hd. cbv zeta.
  pose proof (sandboxed_redirection k (stdin_redirect args)
                "/mnt/stdio/stdin"%string 0 false p) as H1.
  cbv zeta in H1.
  set (s1 := if negb (empty (stdin_redirect args))
             then OpenStdio k "/mnt/stdio/stdin" 0 false p
             else (0, p)) in *.
  pose proof (sandboxed_redirection k (stdout_redirect args)
                "/mnt/stdio/stdout"%string 1 true (snd s1)) as H2.
  cbv zeta in H2.
  set (s2 := if negb (empty (stdout_redirect args))
             then OpenStdio k "/mnt/stdio/stdout" 1 true (snd s1)
             else (0, snd s1)) in *.
  pose proof (sandboxed_redirection k (stderr_redirect args)
                "/mnt/stdio/stderr"%string 2 true (snd s2)) as H3.
  cbv zeta in H3.
  set (s3 := if negb (empty (stderr_redirect args))
             then OpenStdio k "/mnt/stdio/stderr" 2 true (snd s2)
             else (0, snd s2)) in *.
  destruct H1 as (Hn1 & l1 & Hl1 & Hu1).
  destruct H2 as (Hn2 & l2 & Hl2 & Hu2).
  destruct H3 as (Hn3 & l3 & Hl3 & Hu3).
  split.
  { repeat (split; [assumption|]).
    exists l1, l2, l3. repeat (split; [assumption|]).
    intros Hin. apply in_app_or in Hin. destruct Hin as [Hin|Hin].
    - apply (Hu1 _ _ Hin).
    - apply in_app_or in Hin. destruct Hin as [Hin|Hin].
      + apply (Hu2 _ _ Hin).
      + apply (Hu3 _ _ Hin). }
  pose proof (RedirectStdio_sandboxed_run k args p Hd) as Hrun.
  cbv zeta in Hrun. fold s1 s2 s3 in Hrun.
  rewrite Hrun.
  split.
  { intros H. destruct (Z.eqb_spec (fst s1) 0); [contradiction|].
    reflexivity. }
  split.
  { intros -> H. cbn [Z.eqb negb].
    destruct (Z.eqb_spec (fst s2) 0); [contradiction|]. reflexivity. }
  split.
  { intros -> -> H. cbn [Z.eqb negb].
    destruct (Z.eqb_spec (fst s3) 0); [contradiction|]. reflexivity. }
  intros -> -> ->. cbn [Z.eqb negb].
  destruct (Sys.syscall k (Sys.Umount2 "/mnt/stdio" 2) (snd s3))
    as [r q] eqn:E.
  apply syscall_spec in E. destruct E as [Hh [(Ha & -> & He) | (Ha & -> & He)]].
  - cbn [Z.eqb negb fst snd]. split; [exact Hh|].
    destruct (Z.ltb_spec (k (Sys.history (snd s3))
                            (Sys.Umount2 "/mnt/stdio" 2)) 0); lia.
  - destruct (Z.ltb_spec (k (Sys.history (snd s3))
                            (Sys.Umount2 "/mnt/stdio" 2)) 0); [lia|].
    destruct (Z.eqb_spec (k (Sys.history (snd s3))
                            (Sys.Umount2 "/mnt/stdio" 2)) 0);
      cbn [negb fst snd]; (split; [exact Hh|]); [reflexivity|lia].
Qed.

(** All three redirections succeed: the files are opened under
    [/mnt/stdio], duplicated onto 0, 1 and 2, and the mount is detached. *)
Lemma RedirectStdio_sandboxed_umount_witness :
  let redirect (configured path : string) (fd : Z) (w : bool)
               (q : Sys.proc) : Z * Sys.proc :=
    if negb (empty configured) then OpenStdio kernel_ok path fd w q
    else (0, q) in
  let s1 := redirect (stdin_redirect args_all_sandboxed) "/mnt/stdio/stdin"%string
              0 false fresh_proc in
  let s2 := redirect (stdout_redirect args_all_sandboxed)
              "/mnt/stdio/stdout"%string 1 true (snd s1) in
  let s3 := redirect (stderr_redirect args_all_sandboxed)
              "/mnt/stdio/stderr"%string 2 true (snd s2) in
  let umount := Sys.Umount2 "/mnt/stdio" 2 in
  let a := kernel_ok (Sys.history (snd s3)) umount in
  (fst s1 <= 0 /\ fst s2 <= 0 /\ fst s3 <= 0 /\
   exists l1 l2 l3,
     Sys.history (snd s1) = Sys.history fresh_proc ++ l1 /\
     Sys.history (snd s2) = Sys.history (snd s1) ++ l2 /\
     Sys.history (snd s3) = Sys.history (snd s2) ++ l3 /\
     ~ In umount (l1 ++ l2 ++ l3)) /\
  (fst s1 <> 0 ->
   RedirectStdio kernel_ok args_all_sandboxed fresh_proc = s1) /\
  (fst s1 = 0 -> fst s2 <> 0 ->
   RedirectStdio kernel_ok args_all_sandboxed fresh_proc = s2) /\
  (fst s1 = 0 -> fst s2 = 0 -> fst s3 <> 0 ->
   RedirectStdio kernel_ok args_all_sandboxed fresh_proc = s3) /\
  (fst s1 = 0 -> fst s2 = 0 -> fst s3 = 0 ->
   Sys.history (snd (RedirectStdio kernel_ok args_all_sandboxed fresh_proc))
     = Sys.history (snd s3) ++ [umount] /\
   fst (RedirectStdio kernel_ok args_all_sandboxed fresh_proc) =
     if a <? 0 then a else if a =? 0 then 0 else - Sys.errno (snd s3)).
Proof.
  apply (RedirectStdio_sandboxed_umount kernel_ok args_all_sandboxed
           fresh_proc).
  reflexivity.
Defined.

Example run_redirect_sandboxed :
  Sys.history (snd (RedirectStdio kernel_ok args_all_sandboxed fresh_proc)) =
  [ Sys.Open "/mnt/stdio/stdin" false; Sys.Dup2 7 0; Sys.Close 7;
    Sys.Open "/mnt/stdio/stdout" true; Sys.Dup2 7 1; Sys.Close 7;
    Sys.Open "/mnt/stdio/stderr" true; Sys.Dup2 7 2; Sys.Close 7;
    Sys.Umount2 "/mnt/stdio" MNT_DETACH ].
Proof. reflexivity. Qed.

Example run_open_socket_refused :
  OpenFile kernel_refused "/run/stdio.sock" true fresh_proc =
  (-1, {| Sys.history := [ Sys.Open "/run/stdio.sock" true; Sys.Socket;
                           Sys.Connect 8 "/run/stdio.sock"; Sys.Close 8 ];
          Sys.errno := 111 |}) /\
  OpenFile kernel_socket "/run/stdio.sock" true fresh_proc =
  (8, {| Sys.history := [ Sys.Open "/run/stdio.sock" true; Sys.Socket;
                          Sys.Connect 8 "/run/stdio.sock";
                          Sys.Shutdown 8 SHUT_RD ];
         Sys.errno := 6 |}).
Proof. split; reflexivity. Qed.

(** ** The hooks and the child half of [MetaInit] *)

Section HookFacts.

Variable k : Hook.kernel.

Local Open Scope hook_scope.

Lemma hook_syscall_spec c p r q :
  Hook.syscall k c p = (r, q) ->
  Hook.history q = Hook.history p ++ [c] /\
  (k (Hook.history p) c < 0 /\ r = -1 /\
   Hook.errno q = - k (Hook.history p) c \/
   0 <= k (Hook.history p) c /\ r = k (Hook.history p) c /\
   Hook.errno q = Hook.errno p).
Proof.
  unfold Hook.syscall. cbv zeta.
  destruct (Z.ltb_spec (k (Hook.history p) c) 0); intros E;
    injection E as <- <-; cbn; (split; [reflexivity|]);
    [left|right]; auto.
Qed.

Lemma all_succeed_app h l1 l2 :
  all_succeed k h (l1 ++ l2) <->
  all_succeed k h l1 /\ all_succeed k (h ++ l1) l2.
Proof.
  revert h. induction l1 as [|c l1 IH]; intros h; cbn [app all_succeed].
  - rewrite app_nil_r. tauto.
  - rewrite IH, <- app_assoc. cbn [app]. tauto.
Qed.

Lemma performs_done p : performs k [] (Hook.ret 0) p.
Proof.
  left. unfold Hook.ret. cbn [fst snd all_succeed].
  rewrite app_nil_r. auto.
Qed.

(** The outcome of a run that starts one successful or untested call
    later. *)
Lemma performs_later c calls m m' p p' :
  Hook.history p' = Hook.history p ++ [c] ->
  m' p = m p' ->
  (checked c = true -> 0 <= k (Hook.history p) c) ->
  performs k calls m p' ->
  performs k (c :: calls) m' p.
Proof.
  unfold performs. cbv zeta. intros Hh -> Hc.
  intros [(Hr & Hhist & Hall) |
          (Hr & before & c0 & after & Hcalls & Hhist & Hall & Hck & Hk)].
  - left. split; [exact Hr|]. rewrite Hhist, Hh, <- app_assoc.
    split; [reflexivity|]. cbn [all_succeed]. rewrite <- Hh. auto.
  - right. split; [exact Hr|].
    exists (c :: before), c0, after. rewrite Hcalls, Hhist, Hh, <- app_assoc.
    split; [reflexivity|]. split; [reflexivity|].
    cbn [all_succeed]. rewrite <- Hh. split; [auto|].
    split; [exact Hck|].
    rewrite Hh, <- app_assoc in Hk. exact Hk.
Qed.

(** A call whose failure makes the function return [-errno]. *)
Lemma performs_step c (test : Z -> bool) calls m :
  checked c = true ->
  test (-1) = true ->
  (forall h, 0 <= k h c -> test (k h c) = false) ->
  (forall p, performs k calls m p) ->
  forall p,
    performs k (c :: calls)
      (r <- Hook.syscall k c ;; if test r then return_errno else m) p.
Proof.
  intros Hck Ht Hf Hm p.
  destruct (Hook.syscall k c p) as [r q] eqn:E.
  pose proof (hook_syscall_spec _ _ _ _ E)
    as (Hh & [(Ha & -> & He) | (Ha & -> & He)]).
  - right. unfold Hook.bind. rewrite E, Ht.
    unfold return_errno, Hook.bind, Hook.get_errno, Hook.ret. cbn [fst snd].
    rewrite He, Hh. split; [lia|].
    exists [], c, calls. cbn [app all_succeed]. rewrite app_nil_r.
    repeat split; auto. lia.
  - apply (performs_later c calls m _ p q); auto.
    unfold Hook.bind. rewrite E, (Hf _ Ha). reflexivity.
Qed.

(** A call whose result is not looked at. *)
Lemma performs_ignored c calls m :
  checked c = false ->
  (forall p, performs k calls m p) ->
  forall p, performs k (c :: calls) (Hook.syscall k c ;;; m) p.
Proof.
  intros Hck Hm p.
  destruct (Hook.syscall k c p) as [r q] eqn:E.
  pose proof (hook_syscall_spec _ _ _ _ E) as (Hh & _).
  apply (performs_later c calls m _ p q); auto.
  - unfold Hook.bind. rewrite E. reflexivity.
  - rewrite Hck. discriminate.
Qed.

Lemma performs_note c calls m :
  checked c = false ->
  (forall p, performs k calls m p) ->
  forall p, performs k (c :: calls) (Hook.note c ;;; m) p.
Proof.
  intros Hck Hm p.
  apply (performs_later c calls m _ p
           {| Hook.history := Hook.history p ++ [c];
              Hook.errno := Hook.errno p |}); auto.
  rewrite Hck. discriminate.
Qed.

Lemma performs_ret_bind {A} (a : A) calls (f : A -> Hook.M Z) p :
  performs k calls (f a) p -> performs k calls (Hook.bind (Hook.ret a) f) p.
Proof. intros H. exact H. Qed.

Lemma performs_ext calls m m' p :
  m p = m' p -> performs k calls m p -> performs k calls m' p.
Proof. unfold performs. intros ->. auto. Qed.

Lemma performs_WriteFile path contents append calls m :
  (forall p, performs k calls m p) ->
  forall p,
    performs k (Hook.WriteFile path contents append :: calls)
      (ok <- WriteFile k path contents append ;;
       if negb ok then return_errno else m) p.
Proof.
  intros Hm p.
  eapply performs_ext;
    [|apply (performs_step (Hook.WriteFile path contents append)
               (fun r => negb (0 <=? r)) calls m); auto].
  - unfold WriteFile, Hook.bind, Hook.ret.
    destruct (Hook.syscall k _ p); reflexivity.
  - intros h Hh. apply Z.leb_le in Hh. rewrite Hh. reflexivity.
Qed.

Lemma performs_step_nonzero c calls m :
  checked c = true ->
  zero_or_error k c ->
  (forall p, performs k calls m p) ->
  forall p,
    performs k (c :: calls)
      (r <- Hook.syscall k c ;;
       if negb (r =? 0) then return_errno else m) p.
Proof.
  intros Hck Hc Hm. apply (performs_step c (fun r => negb (r =? 0))); auto.
  intros h Hh. specialize (Hc h).
  replace (k h c) with 0 by lia. reflexivity.
Qed.

Lemma performs_SetResourceLimits rlimits :
  (forall l, zero_or_error k (prlimit_call l)) ->
  forall p,
    performs k (map prlimit_call rlimits) (SetResourceLimits k rlimits) p.
Proof.
  intros Hk. induction rlimits as [|l rest IH]; intros p.
  - apply performs_done.
  - cbn [map SetResourceLimits].
    apply (performs_step_nonzero (prlimit_call l)); auto.
Qed.

Lemma performs_child_finish rlimits :
  (forall l, zero_or_error k (prlimit_call l)) ->
  forall p,
    performs k
      ([ Hook.SigprocmaskSetmask; Hook.Close kSigsysNotificationFd;
         Hook.Close kMetaFd ] ++ map prlimit_call rlimits)
      (child_finish k rlimits) p.
Proof.
  intros Hk. unfold child_finish. cbn [app].
  assert (Hlt : forall c h, 0 <= k h c -> (k h c <? 0) = false)
    by (intros; apply Z.ltb_ge; assumption).
  apply (performs_step _ (fun r => r <? 0)); auto.
  apply (performs_step _ (fun r => r <? 0)); auto.
  apply (performs_step _ (fun r => r <? 0)); auto.
  apply performs_SetResourceLimits; assumption.
Qed.

End HookFacts.

(** X19. [SetResourceLimits] applies the limits in the order of the vector
    and stops at the first [prlimit] that does not answer 0: either every
    limit was applied, each call answered 0 and the result is 0, or the last
    call made is the only one that did not answer 0, no later limit was
    applied, and the result of a failed call is its negated [errno]. *)
Theorem SetResourceLimits_outcome (k : Hook.kernel)
  (rlimits : list ResourceLimit) (p : Hook.proc) :
  let r := fst (SetResourceLimits k rlimits p) in
  let h := Hook.history (snd (SetResourceLimits k rlimits p)) in
  exists applied rest,
    rlimits = applied ++ rest /\
    h = Hook.history p ++ map prlimit_call applied /\
    (rest = [] /\ r = 0 /\
     answers k (Hook.history p) (map prlimit_call applied) =
     repeat 0 (List.length applied) \/
     exists before l a,
       applied = before ++ [l] /\
       answers k (Hook.history p) (map prlimit_call applied) =
       repeat 0 (List.length before) ++ [a] /\
       a <> 0 /\ (a < 0 -> r = a)).
Proof.
  cbv zeta. revert p. induction rlimits as [|l0 rest0 IH]; intros p.
  - exists [], []. cbn. rewrite app_nil_r.
    split; [reflexivity|]. split; [reflexivity|]. left. auto.
  - cbn [SetResourceLimits]. unfold Hook.bind.
    destruct (Hook.syscall k (Hook.Prlimit (resource l0) (rlim l0)) p)
      as [r q] eqn:E.
    apply hook_syscall_spec in E.
    destruct E as (Hh & [(Ha & -> & He) | (Ha & -> & He)]).
    + cbn [Z.eqb negb]. unfold return_errno, Hook.bind, Hook.get_errno,
        Hook.ret. cbn [fst snd].
      exists [l0], rest0. split; [reflexivity|]. split; [exact Hh|].
      right. exists [], l0, (k (Hook.history p) (prlimit_call l0)).
      cbn. unfold prlimit_call.
      split; [reflexivity|]. split; [reflexivity|]. split; lia.
    + destruct (Z.eqb_spec (k (Hook.history p)
                              (Hook.Prlimit (resource l0) (rlim l0))) 0)
        as [Hz|Hz]; cbn [negb].
      * destruct (IH q) as (applied & rest & -> & Hq & Hcases).
        exists (l0 :: applied), rest. split; [reflexivity|].
        split.
        { rewrite Hq, Hh, <- app_assoc. reflexivity. }
        cbn [map answers List.length repeat]. unfold prlimit_call at 1 4.
        rewrite Hz. rewrite Hh in Hcases.
        destruct Hcases as [(-> & Hr & Hans) | (before & l & a & -> & Hans & Hne & Hr)].
        { left. repeat split; auto. unfold prlimit_call at 1.
          rewrite Hans. reflexivity. }
        { right. exists (l0 :: before), l, a.
          split; [reflexivity|]. split; [|auto].
          unfold prlimit_call at 1. rewrite Hans. reflexivity. }
      * unfold return_errno, Hook.bind, Hook.get_errno, Hook.ret.
        cbn [fst snd].
        exists [l0], rest0. split; [reflexivity|]. split; [exact Hh|].
        right. exists [], l0, (k (Hook.history p) (prlimit_call l0)).
        cbn. unfold prlimit_call.
        split; [reflexivity|]. split; [reflexivity|]. split; [exact Hz|lia].
Qed.

Section ChildFacts.

Variable k : Hook.kernel.
Variable PathJoin : string -> string -> string.

Hypothesis prlimit_zero_or_error :
  forall l, zero_or_error k (prlimit_call l).
Hypothesis chmod_zero_or_error :
  forall path mode, zero_or_error k (Hook.Chmod path mode).

Lemma performs_admission cgroup file contents calls m :
  (forall p, performs k calls m p) ->
  forall p,
    performs k (admission PathJoin cgroup file contents ++ calls)
      (Hook.bind (WriteFile k (PathJoin cgroup file) contents true)
         (fun ok =>
            if negb ok then return_errno
            else
              Hook.bind (Hook.note (Hook.Release cgroup))
                (fun _ =>
                   Hook.bind
                     (Hook.syscall k (Hook.Chmod (PathJoin cgroup file) 292))
                     (fun r =>
                        if negb (r =? 0) then return_errno else m)))) p.
Proof.
  intros Hm. unfold admission. cbn [app].
  apply performs_WriteFile. apply performs_note; [reflexivity|].
  apply performs_step_nonzero; auto.
Qed.

Lemma performs_join_tasks memory pid calls m :
  (forall p, performs k calls m p) ->
  forall p,
    performs k
      (match memory with
       | Some cgroup => admission PathJoin cgroup "tasks" ("2" ++ nl)%string
       | None => []
       end ++
       match pid with
       | Some cgroup => admission PathJoin cgroup "tasks" ("2" ++ nl)%string
       | None => []
       end ++ calls)
      (join_tasks k PathJoin [memory; pid] m) p.
Proof.
  intros Hm.
  assert (Hpid : forall p,
             performs k
               (match pid with
                | Some cgroup => admission PathJoin cgroup "tasks" ("2" ++ nl)%string
                | None => []
                end ++ calls)
               (join_tasks k PathJoin [pid] m) p).
  { destruct pid as [cgroup|]; cbn [join_tasks].
    - apply performs_admission. exact Hm.
    - exact Hm. }
  destruct memory as [cgroup|].
  - cbn [join_tasks] in *. apply performs_admission. exact Hpid.
  - exact Hpid.
Qed.

Lemma performs_MetaInit_child (payload : InitPayload) (comm : string)
  (rlimits : list ResourceLimit) (cg : cgroups) (p : Hook.proc) :
  performs k (child_calls PathJoin payload comm rlimits cg)
    (MetaInit_child k PathJoin payload comm rlimits cg) p.
Proof.
  revert p. unfold child_calls, MetaInit_child.
  pose proof (performs_child_finish k rlimits prlimit_zero_or_error)
    as Hfinish.
  assert (Hjoin : forall p,
             performs k
               (match memory_cgroup cg with
                | Some cgroup =>
                    admission PathJoin cgroup "tasks" ("2" ++ nl)%string
                | None => []
                end ++
                match pid_cgroup cg with
                | Some cgroup =>
                    admission PathJoin cgroup "tasks" ("2" ++ nl)%string
                | None => []
                end ++
                [ Hook.SigprocmaskSetmask; Hook.Close kSigsysNotificationFd;
                  Hook.Close kMetaFd ] ++ map prlimit_call rlimits)
               (join_tasks k PathJoin [memory_cgroup cg; pid_cgroup cg]
                  (child_finish k rlimits)) p)
    by (apply performs_join_tasks; exact Hfinish).
  destruct (payload_disable_sandboxing payload), (negb (empty comm)),
    (unified_cgroup cg) as [cgroup|];
    cbn [andb app]; intros p;
    repeat first
      [ apply performs_ret_bind
      | apply (performs_step k Hook.Setsid (fun r => r =? -1));
        [ reflexivity
        | reflexivity
        | intros h Hh; apply Z.eqb_neq; lia
        | clear p; intros p ]
      | apply performs_ignored; [reflexivity|]; clear p; intros p ];
    first [ apply performs_admission; exact Hfinish
          | rewrite <- app_assoc; apply Hjoin ].
Qed.

End ChildFacts.

(** X20. The child half of [MetaInit] issues its calls in one fixed order
    and stops at the first that fails: [setsid] when sandboxing is
    disabled, [PR_SET_NAME] when a name is given (its result is ignored),
    for each cgroup the write that admits task 2, the release of the handle
    and the [chmod] to 0444, then the restore of the signal mask, the close
    of descriptor 5, the close of descriptor 4, and the resource limits.  It
    returns 0 exactly when every tested call succeeded, after the last of
    them; otherwise the call it stopped at is the first tested call that
    failed, no call follows it, and its negative answer is returned. *)
Theorem MetaInit_child_performs (k : Hook.kernel)
  (PathJoin : string -> string -> string) (payload : InitPayload)
  (comm : string) (rlimits : list ResourceLimit) (cg : cgroups)
  (p : Hook.proc) :
  (forall l, zero_or_error k (prlimit_call l)) ->
  (forall path mode, zero_or_error k (Hook.Chmod path mode)) ->
  performs k (child_calls PathJoin payload comm rlimits cg)
    (MetaInit_child k PathJoin payload comm rlimits cg) p.
Proof.
  intros Hprlimit Hchmod.
  apply performs_MetaInit_child; assumption.
Qed.
(** The child half at work: both cgroups of a version 1 host are joined,
    the memory cgroup first. *)
Lemma MetaInit_child_performs_witness :
  performs hook_kernel_ok
    (child_calls path_join payload_with_script "sum" rlimits_sample
       {| memory_cgroup := Some "/sys/fs/cgroup/memory/omegajail/run"%string;
          unified_cgroup := None;
          pid_cgroup := Some "/sys/fs/cgroup/pids/omegajail/sum/run"%string |})
    (MetaInit_child hook_kernel_ok path_join payload_with_script "sum"
       rlimits_sample
       {| memory_cgroup := Some "/sys/fs/cgroup/memory/omegajail/run"%string;
          unified_cgroup := None;
          pid_cgroup := Some "/sys/fs/cgroup/pids/omegajail/sum/run"%string |})
    fresh_hook_proc.
Proof.
  apply MetaInit_child_performs.
  - intros l h. unfold hook_kernel_ok. lia.
  - intros path mode h. unfold hook_kernel_ok. lia.
Defined.

Lemma create_cgroups_exclusive payload c cg cgroup :
  create_cgroups payload c = inr cg -> unified_cgroup cg = Some cgroup ->
  memory_cgroup cg = None /\ pid_cgroup cg = None.
Proof.
  intros Hc Hu. split.
  - destruct (memory_cgroup cg) as [path|] eqn:Hm; [|reflexivity].
    destruct (create_cgroups_memory _ _ _ _ Hc Hm) as (_ & _ & Hn).
    congruence.
  - revert Hc. unfold create_cgroups.
    destruct (negb (empty (cgroup_path payload)));
      [destruct (ScopedCgroup_new c (cgroup_path payload));
       [destruct (IsCgroupV2 c)|]|];
      destruct (payload_disable_sandboxing payload);
      try destruct (prctl_subreaper_res c =? -1);
      try destruct (memory_limit_in_bytes payload >=? 0);
      cbn [unified_cgroup no_cgroups];
      try destruct (ScopedCgroup_new c "/sys/fs/cgroup/memory/omegajail");
      try destruct (negb (WriteFile_limit_res c));
      try destruct (negb (chmod_limit_res c =? 0));
      intros Hc; try discriminate Hc;
      injection Hc as <-; cbn in *; congruence.
Qed.

(** X21. Composition with the setup that precedes the fork: a child half
    that returns 0 has joined every cgroup the setup created.  For a
    unified cgroup its history holds, in order and next to each other, the
    write of "+2" and a line feed appended to its [cgroup.procs], which
    succeeded, the release of the handle and the [chmod] of that file to
    0444, which answered 0; for a memory or pid cgroup the same with "2"
    and a line feed appended to its [tasks]. *)
Theorem MetaInit_child_joins_created (k : Hook.kernel)
  (PathJoin : string -> string -> string) (payload : InitPayload)
  (c : cgroup_setup) (cg : cgroups) (comm : string)
  (rlimits : list ResourceLimit) (p : Hook.proc) :
  (forall l, zero_or_error k (prlimit_call l)) ->
  (forall path mode, zero_or_error k (Hook.Chmod path mode)) ->
  create_cgroups payload c = inr cg ->
  fst (MetaInit_child k PathJoin payload comm rlimits cg p) = 0 ->
  let h :=
    Hook.history (snd (MetaInit_child k PathJoin payload comm rlimits cg p))
  in
  let joined (cgroup file contents : string) : Prop :=
    let write := Hook.WriteFile (PathJoin cgroup file) contents true in
    let seal := Hook.Chmod (PathJoin cgroup file) 292 in
    exists before after,
      h = Hook.history p ++ before ++
          [write; Hook.Release cgroup; seal] ++ after /\
      0 <= k (Hook.history p ++ before) write /\
      k (Hook.history p ++ before ++ [write; Hook.Release cgroup]) seal = 0
  in
  forall cgroup,
    (unified_cgroup cg = Some cgroup ->
     joined cgroup "cgroup.procs"%string
       ("+2" ++ String (ascii_of_nat 10) "")%string) /\
    (memory_cgroup cg = Some cgroup \/ pid_cgroup cg = Some cgroup ->
     joined cgroup "tasks"%string
       ("2" ++ String (ascii_of_nat 10) "")%string).
Proof.
  intros Hp Hm Hc Hr. cbv zeta.
  change (String (ascii_of_nat 10) "") with nl.
  destruct (performs_MetaInit_child k PathJoin Hp Hm payload comm rlimits
              cg p)
    as [(_ & Hh & Hall) | (Hneg & _)]; [|lia].
  rewrite Hh. clear Hh Hr.
  assert (Hjoined : forall cgroup file contents before after,
             child_calls PathJoin payload comm rlimits cg =
             before ++ admission PathJoin cgroup file contents ++ after ->
             exists before0 after0,
               Hook.history p ++ child_calls PathJoin payload comm rlimits cg
               = Hook.history p ++ before0 ++
                 [Hook.WriteFile (PathJoin cgroup file) contents true;
                  Hook.Release cgroup;
                  Hook.Chmod (PathJoin cgroup file) 292] ++ after0 /\
               0 <= k (Hook.history p ++ before0)
                      (Hook.WriteFile (PathJoin cgroup file) contents true) /\
               k (Hook.history p ++ before0 ++
                  [Hook.WriteFile (PathJoin cgroup file) contents true;
                   Hook.Release cgroup])
                 (Hook.Chmod (PathJoin cgroup file) 292) = 0).
  { intros cgroup file contents before after Heq.
    exists before, after. rewrite Heq in Hall |- *.
    split; [reflexivity|].
    apply all_succeed_app in Hall. destruct Hall as [_ Hall].
    unfold admission in Hall. cbn [app all_succeed] in Hall.
    destruct Hall as (Hw & _ & Hs & _).
    split; [apply Hw; reflexivity|].
    specialize (Hs eq_refl). rewrite <- !app_assoc in Hs. cbn [app] in Hs.
    pose proof (Hm (PathJoin cgroup file) 292
                  (Hook.history p ++ before ++
                   [Hook.WriteFile (PathJoin cgroup file) contents true;
                    Hook.Release cgroup])) as Hz.
    lia. }
  clear Hall. intros cgroup. unfold child_calls in Hjoined |- *.
  set (pre1 := if payload_disable_sandboxing payload
               then [Hook.Setsid] else []) in *.
  set (pre2 := if negb (empty comm) then [Hook.PrctlSetName comm] else [])
    in *.
  set (finish := [ Hook.SigprocmaskSetmask; Hook.Close kSigsysNotificationFd;
                   Hook.Close kMetaFd ] ++ map prlimit_call rlimits) in *.
  destruct (unified_cgroup cg) as [u|] eqn:Hu.
  - destruct (create_cgroups_exclusive _ _ _ _ Hc Hu) as [Hmem Hpid].
    split.
    + intros H. injection H as <-.
      apply (Hjoined u "cgroup.procs"%string ("+2" ++ nl)%string
               (pre1 ++ pre2) finish).
      rewrite <- !app_assoc. reflexivity.
    + rewrite Hmem, Hpid. intros [H|H]; discriminate H.
  - split; [discriminate|].
    intros [H|H]; rewrite H in Hjoined |- *.
    + apply (Hjoined cgroup "tasks"%string ("2" ++ nl)%string
               (pre1 ++ pre2)
               (match pid_cgroup cg with
                | Some cgroup0 =>
                    admission PathJoin cgroup0 "tasks" ("2" ++ nl)%string
                | None => []
                end ++ finish)).
      rewrite <- !app_assoc. reflexivity.
    + apply (Hjoined cgroup "tasks"%string ("2" ++ nl)%string
               (pre1 ++ pre2 ++
                match memory_cgroup cg with
                | Some cgroup0 =>
                    admission PathJoin cgroup0 "tasks" ("2" ++ nl)%string
                | None => []
                end) finish).
      rewrite <- !app_assoc. reflexivity.
Qed.

(** The version 1 setup of a sandboxed run with a memory limit and a script
    name creates a pid cgroup and a memory cgroup; the child joins both,
    here the pid cgroup. *)
Lemma MetaInit_child_joins_created_witness :
  exists before after,
    Hook.history
      (snd (MetaInit_child hook_kernel_ok path_join payload_with_script
              "sum" rlimits_sample
              {| memory_cgroup :=
                   Some "/sys/fs/cgroup/memory/omegajail/run"%string;
                 unified_cgroup := None;
                 pid_cgroup :=
                   Some "/sys/fs/cgroup/pids/omegajail/sum/run"%string |}
              fresh_hook_proc))
    = Hook.history fresh_hook_proc ++ before ++
      [ Hook.WriteFile
          (path_join "/sys/fs/cgroup/pids/omegajail/sum/run" "tasks")
          ("2" ++ String (ascii_of_nat 10) "") true;
        Hook.Release "/sys/fs/cgroup/pids/omegajail/sum/run";
        Hook.Chmod
          (path_join "/sys/fs/cgroup/pids/omegajail/sum/run" "tasks") 292 ]
      ++ after /\
    0 <= hook_kernel_ok (Hook.history fresh_hook_proc ++ before)
           (Hook.WriteFile
              (path_join "/sys/fs/cgroup/pids/omegajail/sum/run" "tasks")
              ("2" ++ String (ascii_of_nat 10) "") true) /\
    hook_kernel_ok
      (Hook.history fresh_hook_proc ++ before ++
       [ Hook.WriteFile
           (path_join "/sys/fs/cgroup/pids/omegajail/sum/run" "tasks")
           ("2" ++ String (ascii_of_nat 10) "") true;
         Hook.Release "/sys/fs/cgroup/pids/omegajail/sum/run" ])
      (Hook.Chmod
         (path_join "/sys/fs/cgroup/pids/omegajail/sum/run" "tasks") 292)
    = 0.
Proof.
  apply (MetaInit_child_joins_created hook_kernel_ok path_join
           payload_with_script setup_v1_ok
           {| memory_cgroup :=
                Some "/sys/fs/cgroup/memory/omegajail/run"%string;
              unified_cgroup := None;
              pid_cgroup :=
                Some "/sys/fs/cgroup/pids/omegajail/sum/run"%string |}
           "sum" rlimits_sample fresh_hook_proc).
  - intros l h. unfold hook_kernel_ok. lia.
  - intros path mode h. unfold hook_kernel_ok. lia.
  - reflexivity.
  - reflexivity.
  - right. reflexivity.
Defined.

(** X22. The two remount-and-chdir hooks, for calls that answer 0 or an
    error.  [RemountRootReadOnly] remounts [/] with the flags
    [MS_RDONLY|MS_REMOUNT|MS_BIND] and then [/tmp] with
    [MS_NODEV|MS_NOSUID|MS_REMOUNT], without [MS_RDONLY]; it returns 0
    exactly when both succeeded, and when the first remount fails it
    returns that error and does not touch [/tmp].  [Chdir] makes its one
    call and returns 0 when it succeeded, its error otherwise. *)
Theorem plain_hooks_perform (k : Hook.kernel) (dir : string)
  (p : Hook.proc) :
  (forall c, zero_or_error k c) ->
  let root := Hook.Mount "/" 4129 in
  let tmp := Hook.Mount "/tmp" 38 in
  performs k [root; tmp] (RemountRootReadOnly k) p /\
  Z.land 4129 MS_RDONLY = MS_RDONLY /\ Z.land 38 MS_RDONLY = 0 /\
  (k (Hook.history p) root < 0 ->
   RemountRootReadOnly k p =
   (k (Hook.history p) root,
    {| Hook.history := Hook.history p ++ [root];
       Hook.errno := - k (Hook.history p) root |})) /\
  performs k [Hook.Chdir dir] (Chdir k dir) p.
Proof.
  intros Hk. cbv zeta.
  assert (Hdone : forall q, performs k [] (Hook.ret 0) q)
    by apply performs_done.
  split; [|split; [reflexivity|split; [reflexivity|split]]].
  - revert p. unfold RemountRootReadOnly.
    change (Z.lor (Z.lor MS_RDONLY MS_REMOUNT) MS_BIND) with 4129.
    change (Z.lor (Z.lor MS_NODEV MS_NOSUID) MS_REMOUNT) with 38.
    apply performs_step_nonzero; auto.
    apply performs_step_nonzero; auto.
  - intros Hneg. unfold RemountRootReadOnly.
    change (Z.lor (Z.lor MS_RDONLY MS_REMOUNT) MS_BIND) with 4129.
    unfold Hook.bind, Hook.syscall.
    destruct (Z.ltb_spec (k (Hook.history p) (Hook.Mount "/" 4129)) 0);
      [|lia].
    cbn [Z.eqb negb]. unfold return_errno, Hook.bind, Hook.get_errno,
      Hook.ret. cbn [Hook.errno]. f_equal. lia.
  - revert p. apply performs_step_nonzero; auto.
Qed.

Lemma plain_hooks_perform_witness :
  performs hook_kernel_ok [Hook.Mount "/" 4129; Hook.Mount "/tmp" 38]
    (RemountRootReadOnly hook_kernel_ok) fresh_hook_proc /\
  Z.land 4129 MS_RDONLY = MS_RDONLY /\ Z.land 38 MS_RDONLY = 0 /\
  (hook_kernel_ok (Hook.history fresh_hook_proc) (Hook.Mount "/" 4129) < 0 ->
   RemountRootReadOnly hook_kernel_ok fresh_hook_proc =
   (hook_kernel_ok (Hook.history fresh_hook_proc) (Hook.Mount "/" 4129),
    {| Hook.history :=
         Hook.history fresh_hook_proc ++ [Hook.Mount "/" 4129];
       Hook.errno :=
         - hook_kernel_ok (Hook.history fresh_hook_proc)
             (Hook.Mount "/" 4129) |})) /\
  performs hook_kernel_ok [Hook.Chdir "/home"]
    (Chdir hook_kernel_ok "/home") fresh_hook_proc.
Proof.
  apply (plain_hooks_perform hook_kernel_ok "/home" fresh_hook_proc).
  intros c h. unfold hook_kernel_ok. lia.
Defined.

Example run_child_v1 :
  MetaInit_child hook_kernel_ok path_join payload_with_script "sum"
    rlimits_sample cgroups_v1_memory fresh_hook_proc =
  (0, {| Hook.history :=
           [ Hook.PrctlSetName "sum";
             Hook.WriteFile "/sys/fs/cgroup/memory/omegajail/run/tasks"
               ("2" ++ nl)%string true;
             Hook.Release "/sys/fs/cgroup/memory/omegajail/run";
             Hook.Chmod "/sys/fs/cgroup/memory/omegajail/run/tasks" 292;
             Hook.SigprocmaskSetmask; Hook.Close 5; Hook.Close 4;
             Hook.Prlimit 7 {| Hook.rlim_cur := 10; Hook.rlim_max := 10 |};
             Hook.Prlimit 1
               {| Hook.rlim_cur := 65536; Hook.rlim_max := 65536 |};
             Hook.Prlimit 3
               {| Hook.rlim_cur := 8388608; Hook.rlim_max := 8388608 |} ];
         Hook.errno := 0 |}).
Proof. reflexivity. Qed.

Example run_child_rlimit_refused :
  MetaInit_child hook_kernel_eperm path_join payload_with_script ""
    rlimits_sample no_cgroups fresh_hook_proc =
  (-1, {| Hook.history :=
            [ Hook.SigprocmaskSetmask; Hook.Close 5; Hook.Close 4;
              Hook.Prlimit 7 {| Hook.rlim_cur := 10; Hook.rlim_max := 10 |};
              Hook.Prlimit 1
                {| Hook.rlim_cur := 65536; Hook.rlim_max := 65536 |} ];
          Hook.errno := 1 |}).
Proof. reflexivity. Qed.
